(** * SpendWise: merchant categorization pipeline

    A shallow embedding of [categorize.py] (the merchant memory, the keyword
    rules and the online guesser) and of the resolution steps of [app.py],
    followed by the properties proved about them.

    Conventions.  Python [str] values are modelled by [string]; the
    case and whitespace functions below are the ASCII restrictions of
    [str.upper], [str.lower] and [str.strip].  Third-party functions whose
    code is not part of the repository (the fuzzy scorer of [fuzzywuzzy], the
    CSV reader and writer of [pandas], the date parser of [dateutil], the
    remote services) are parameters of the sections that use them. *)

From Stdlib Require Import String Ascii List ZArith Bool Arith Lia.
Import ListNotations.
Open Scope string_scope.
Open Scope list_scope.

(* ================================================================== *)
(** * Part I: the program *)
(* ================================================================== *)

(** ** Python string methods used by the program *)
Module PyStr.

(** [str.isspace] on one ASCII character: TAB..CR, FS..US and SPACE. *)
Definition is_space (c : ascii) : bool :=
  let n := nat_of_ascii c in
  (((9 <=? n) && (n <=? 13)) || ((28 <=? n) && (n <=? 32)))%nat.

Definition is_lower (c : ascii) : bool :=
  let n := nat_of_ascii c in ((97 <=? n) && (n <=? 122))%nat.

Definition is_upper (c : ascii) : bool :=
  let n := nat_of_ascii c in ((65 <=? n) && (n <=? 90))%nat.

Definition is_digit (c : ascii) : bool :=
  let n := nat_of_ascii c in ((48 <=? n) && (n <=? 57))%nat.

Definition upper_char (c : ascii) : ascii :=
  if is_lower c then ascii_of_nat (nat_of_ascii c - 32) else c.

Definition lower_char (c : ascii) : ascii :=
  if is_upper c then ascii_of_nat (nat_of_ascii c + 32) else c.

(** [s.upper()] *)
Fixpoint upper (s : string) : string :=
  match s with
  | EmptyString => EmptyString
  | String c s' => String (upper_char c) (upper s')
  end.

(** [s.lstrip()] *)
Fixpoint lstrip (s : string) : string :=
  match s with
  | EmptyString => EmptyString
  | String c s' => if is_space c then lstrip s' else s
  end.

(** [s.rstrip()] *)
Fixpoint rstrip (s : string) : string :=
  match s with
  | EmptyString => EmptyString
  | String c s' =>
      match rstrip s' with
      | EmptyString => if is_space c then EmptyString else String c EmptyString
      | r => String c r
      end
  end.

(** [s.strip()] *)
Definition strip (s : string) : string := rstrip (lstrip s).

(** [s[:n]] *)
Fixpoint prefix_slice (n : nat) (s : string) : string :=
  match n, s with
  | S n', String c s' => String c (prefix_slice n' s')
  | _, _ => EmptyString
  end.

(** Truthiness of a [str]: the empty string is falsy. *)
Definition nonempty (s : string) : bool :=
  match s with EmptyString => false | String _ _ => true end.

(** The string holds nothing but whitespace. *)
Fixpoint blank (s : string) : bool :=
  match s with
  | EmptyString => true
  | String c s' => is_space c && blank s'
  end.

End PyStr.

(** ** Results of code that may raise *)

Inductive exn : Set :=
| TypeError | IndexError | KeyError | AttributeError | ValueError
| ParserError | RequestException | WikipediaException.

Inductive result (A : Type) : Type :=
| Ok (a : A)
| Raise (e : exn).
Arguments Ok {A} a.
Arguments Raise {A} e.

(** ** [categorize.py]: the merchant memory *)
Module Memory.
Import PyStr.

(** One line of [map_df]: the two persisted columns and the derived
    [merchant_norm] column. *)
Record row : Set := mkRow {
  merchant : string;
  category : string;
  merchant_norm : string
}.

Definition set_category (c : string) (r : row) : row :=
  {| merchant := merchant r; category := c; merchant_norm := merchant_norm r |}.

(** The key computed at lines 46, 58 and 69: [.upper().strip()]. *)
Definition normalize (s : string) : string := strip (upper s).

(** The frame in memory together with the file at [map_path], when it
    exists. *)
Record categorizer (file : Type) : Type := mkCategorizer {
  map_df : list row;
  disk : option file
}.
Arguments mkCategorizer {file} map_df disk.
Arguments map_df {file} c.
Arguments disk {file} c.

(** [self.map_df["merchant_norm"].tolist()] *)
Definition keys (df : list row) : list string := map merchant_norm df.

(** The derived column agrees with the merchant column. *)
Definition derived (df : list row) : Prop :=
  Forall (fun r => merchant_norm r = normalize (merchant r)) df.

(** [self.map_df[["merchant", "category"]]] *)
Definition essential (df : list row) : list (string * string) :=
  map (fun r => (merchant r, category r)) df.

Section Lookup.
(** [token_set_ratio q c] is the integer [process.extractOne] computes for
    the query [q] and the choice [c] with [scorer=fuzz.token_set_ratio]. *)
Variable token_set_ratio : string -> string -> Z.

(** [process.extractWithoutOrder] over a list of choices, with the default
    [score_cutoff=0]: every choice is scored, in order, and kept when its
    score reaches the cutoff. *)
Definition extractWithoutOrder (query : string) (choices : list string)
  : list (string * Z) :=
  filter (fun p => 0 <=? snd p)%Z
         (map (fun c => (c, token_set_ratio query c)) choices).

(** [max(iterable, key=lambda i: i[1])]: the first element of maximal
    score; [None] stands for the [ValueError] on an empty iterable. *)
Definition py_max (l : list (string * Z)) : option (string * Z) :=
  match l with
  | [] => None
  | x :: xs =>
      Some (fold_left (fun best y => if (snd best <? snd y)%Z then y else best) xs x)
  end.

(** [process.extractOne]: [None] when nothing was yielded. *)
Definition extractOne (query : string) (choices : list string)
  : option (string * Z) :=
  py_max (extractWithoutOrder query choices).

(** [MerchantCategorizer._best_match]; unpacking [None] raises
    [TypeError]. *)
Definition _best_match (df : list row) (desc : string) (threshold : Z)
  : result (option string * Z) :=
  match df with
  | [] => Ok (None, 0%Z)
  | _ =>
      let choices := keys df in
      match extractOne (strip (upper desc)) choices with
      | None => Raise TypeError
      | Some (m, score) =>
          if (threshold <=? score)%Z then Ok (Some m, score) else Ok (None, score)
      end
  end.

(** [MerchantCategorizer.get_category]; [.iloc[0]] on an empty selection
    raises [IndexError]. *)
Definition get_category (df : list row) (description : string)
  : result (option string) :=
  match _best_match df description 85 with
  | Raise e => Raise e
  | Ok (None, _) => Ok None
  | Ok (Some m, _) =>
      match filter (fun r => String.eqb (merchant_norm r) m) df with
      | [] => Raise IndexError
      | r :: _ => Ok (Some (category r))
      end
  end.
End Lookup.

Section Store.
(** The CSV layer of [pandas]: [to_csv] writes the two columns under the
    header [merchant,category], [read_csv] reads a file.  A cell read is
    given by its text, as [astype(str)] of line 46 renders it: the reader
    types each column on its own, so the text read need not be the text
    written. *)
Variable file : Type.
Variable to_csv : list (string * string) -> file.
Variable read_csv : file -> list (string * string).

(** [MerchantCategorizer._load_map] *)
Definition _load_map (d : option file) : categorizer file :=
  let '(frame, d') :=
    match d with
    | Some f => (read_csv f, d)
    | None => ([], Some (to_csv []))
    end in
  let df :=
    match frame with
    | [] => []
    | _ => map (fun p => mkRow (fst p) (snd p) (strip (upper (fst p)))) frame
    end in
  mkCategorizer df d'.

(** [MerchantCategorizer.save] *)
Definition save (self : categorizer file) : categorizer file :=
  let out := essential (map_df self) in
  mkCategorizer (map_df self) (Some (to_csv out)).

(** The update of [map_df] made by [learn], lines 69-77. *)
Definition learn_df (df : list row) (merchant_raw category : string) : list row :=
  let merchant_norm' := strip (upper merchant_raw) in
  let exists_ := map (fun r => String.eqb (merchant_norm r) merchant_norm') df in
  if existsb (fun b => b) exists_ then
    map (fun r => if String.eqb (merchant_norm r) merchant_norm'
                  then set_category category r else r) df
  else
    df ++ [mkRow merchant_raw category merchant_norm'].

(** [MerchantCategorizer.learn] *)
Definition learn (self : categorizer file) (merchant_raw category : string)
  : categorizer file :=
  save (mkCategorizer (learn_df (map_df self) merchant_raw category) (disk self)).

(** The frame after a sequence of [learn] calls. *)
Definition learn_all_df (df : list row) (calls : list (string * string)) : list row :=
  fold_left (fun d mc => learn_df d (fst mc) (snd mc)) calls df.

(** A sequence of [learn] calls. *)
Definition learn_all (self : categorizer file) (calls : list (string * string))
  : categorizer file :=
  fold_left (fun st mc => learn st (fst mc) (snd mc)) calls self.
End Store.

End Memory.

(** ** [re]: the fragment used by the keyword rules *)
Module Regex.
Import PyStr.

(** Every pattern of [KEYWORDS_TO_CATEGORY] is [\b(a1|...|an)\b] compiled with
    [re.I]; an alternative is a run of literal characters, some of them made
    optional by a following [?]. *)
Inductive atom : Set :=
| Lit (c : ascii)
| Opt (c : ascii).

Definition alternative : Set := list atom.

Record regex : Set := mkRegex { alternatives : list alternative }.

(** Reads one alternative as it is written in the pattern. *)
Fixpoint parse_alternative (s : string) : alternative :=
  match s with
  | EmptyString => []
  | String c (String "?" rest) => Opt c :: parse_alternative rest
  | String c rest => Lit c :: parse_alternative rest
  end.

(** [re.compile(r"\b(a1|...|an)\b", re.I)] *)
Definition word_alternation (alts : list string) : regex :=
  mkRegex (map parse_alternative alts).

(** [\w] on ASCII. *)
Definition is_word (c : ascii) : bool :=
  is_lower c || is_upper c || is_digit c || Ascii.eqb c "_".

Definition is_word_opt (c : option ascii) : bool :=
  match c with Some x => is_word x | None => false end.

(** [\b] between the character before the position and the one after it;
    outside the text counts as a non-word character. *)
Definition boundary (prev next : option ascii) : bool :=
  xorb (is_word_opt prev) (is_word_opt next).

(** Comparison of two characters under [re.I]. *)
Definition char_eq_i (a b : ascii) : bool :=
  Ascii.eqb (lower_char a) (lower_char b).

Definition first_char (t : string) : option ascii :=
  match t with EmptyString => None | String c _ => Some c end.

(** Every way the alternative matches a prefix of [t]: the last character
    before the end of the match and the text that remains. *)
Fixpoint match_atoms (a : alternative) (prev : option ascii) (t : string)
  : list (option ascii * string) :=
  match a with
  | [] => [(prev, t)]
  | Lit c :: a' =>
      match t with
      | String x t' => if char_eq_i c x then match_atoms a' (Some x) t' else []
      | EmptyString => []
      end
  | Opt c :: a' =>
      (match t with
       | String x t' => if char_eq_i c x then match_atoms a' (Some x) t' else []
       | EmptyString => []
       end) ++ match_atoms a' prev t
  end.

(** A match of the whole pattern starting at the current position. *)
Definition match_here (r : regex) (prev : option ascii) (t : string) : bool :=
  boundary prev (first_char t) &&
  existsb (fun a =>
             existsb (fun e => boundary (fst e) (first_char (snd e)))
                     (match_atoms a prev t))
          (alternatives r).

Fixpoint search_from (r : regex) (prev : option ascii) (t : string) : bool :=
  match_here r prev t ||
  match t with
  | EmptyString => false
  | String c t' => search_from r (Some c) t'
  end.

(** Truth value of [pat.search(text)]. *)
Definition search (r : regex) (text : string) : bool := search_from r None text.

(** *** What a match is *)

(** The text is the alternative read under [re.I]: its literal characters
    up to case, each optional character present or left out. *)
Inductive instance_of : alternative -> string -> Prop :=
| inst_end : instance_of [] EmptyString
| inst_lit c x a s :
    char_eq_i c x = true -> instance_of a s ->
    instance_of (Lit c :: a) (String x s)
| inst_opt c x a s :
    char_eq_i c x = true -> instance_of a s ->
    instance_of (Opt c :: a) (String x s)
| inst_skip c a s :
    instance_of a s -> instance_of (Opt c :: a) s.

(** The last character of [s], or [prev] when [s] is empty. *)
Fixpoint last_char (prev : option ascii) (s : string) : option ascii :=
  match s with
  | EmptyString => prev
  | String c s' => last_char (Some c) s'
  end.

(** The pattern occurs in the text that follows the character [prev]: the
    text is [pre ++ mid ++ post] with [mid] an instance of one alternative
    and a word boundary on each side of [mid]. *)
Definition occurs_after (prev : option ascii) (r : regex) (text : string) : Prop :=
  exists pre mid post a,
    text = (pre ++ mid ++ post)%string /\
    In a (alternatives r) /\
    instance_of a mid /\
    boundary (last_char prev pre) (first_char (mid ++ post)%string) = true /\
    boundary (last_char prev (pre ++ mid)%string) (first_char post) = true.

Definition occurs (r : regex) (text : string) : Prop := occurs_after None r text.

End Regex.

(** ** [categorize.py]: categories and keyword rules *)
Module Keywords.
Import Regex.

Definition DEFAULT_CATEGORIES : list string :=
  [ "Food & Drink"; "Groceries"; "Transport"; "Shopping"; "Travel";
    "Entertainment"; "Bills & Utilities"; "Health"; "Education";
    "Income"; "Other" ].

Definition KEYWORDS_TO_CATEGORY : list (regex * string) :=
  [ (word_alternation ["supermarket"; "grocery"; "grocer"; "market"], "Groceries");
    (word_alternation ["cafe"; "coffee"; "restaurant"; "bar"; "pub"; "pizza";
                       "burger"; "kitchen"; "bakery"], "Food & Drink");
    (word_alternation ["uber"; "lyft"; "taxi"; "ride ?hail"; "cab"; "metro";
                       "subway"; "train"; "bus"; "transit"; "fuel";
                       "gas station"], "Transport");
    (word_alternation ["pharmacy"; "drugstore"; "clinic"; "dental"; "optical";
                       "health"; "wellness"], "Health");
    (word_alternation ["hotel"; "airlines?"; "flight"; "airways"; "hostel";
                       "bnb"; "booking"; "travel"; "tour"; "resort"], "Travel");
    (word_alternation ["cinema"; "theater"; "theatre"; "movie"; "concert";
                       "museum"; "park"; "stadium"; "ticket"], "Entertainment");
    (word_alternation ["utility"; "electric"; "water"; "gas bill"; "internet";
                       "broadband"; "mobile"; "cellular"; "phone"],
     "Bills & Utilities");
    (word_alternation ["college"; "university"; "tuition"; "course"; "class";
                       "learning"; "education"; "school"], "Education");
    (word_alternation ["amazon"; "target"; "walmart"; "costco"; "mall";
                       "boutique"; "store"; "retail"; "shop"; "outlet"],
     "Shopping") ].

(** The loop [for pat, cat in rules: if pat.search(text): return cat],
    falling through to [None]. *)
Fixpoint scan (rules : list (regex * string)) (text : string) : option string :=
  match rules with
  | [] => None
  | (pat, cat) :: rest => if search pat text then Some cat else scan rest text
  end.

(** The keyword scan of lines 103-105 and 118-120. *)
Definition keyword_scan (text : string) : option string :=
  scan KEYWORDS_TO_CATEGORY text.

End Keywords.

(** ** Values decoded from JSON *)
Module Json.
Import PyStr.

(** The Python objects [r.json()] returns; a float is [mantissa * 2 ^ exponent]. *)
#[local] Unset Elimination Schemes.
Inductive json : Type :=
| JNull
| JBool (b : bool)
| JInt (n : Z)
| JFloat (mantissa exponent : Z)
| JStr (s : string)
| JArr (elems : list json)
| JObj (fields : list (string * json)).
#[local] Set Elimination Schemes.

(** Truth value of an object in a condition. *)
Definition truthy (v : json) : bool :=
  match v with
  | JNull => false
  | JBool b => b
  | JInt n => negb (n =? 0)%Z
  | JFloat mantissa _ => negb (mantissa =? 0)%Z
  | JStr s => nonempty s
  | JArr elems => match elems with [] => false | _ => true end
  | JObj fields => match fields with [] => false | _ => true end
  end.

(** [v[0]] *)
Definition subscript0 (v : json) : result json :=
  match v with
  | JArr (x :: _) => Ok x
  | JArr [] => Raise IndexError
  | JStr (String c _) => Ok (JStr (String c EmptyString))
  | JStr EmptyString => Raise IndexError
  | JObj _ => Raise KeyError
  | JNull | JBool _ | JInt _ | JFloat _ _ => Raise TypeError
  end.

(** [v.get(key)]: only a dict has the method; a missing key gives [None]. *)
Definition get (v : json) (key : string) : result json :=
  match v with
  | JObj fields =>
      match find (fun kv => String.eqb (fst kv) key) fields with
      | Some kv => Ok (snd kv)
      | None => Ok JNull
      end
  | _ => Raise AttributeError
  end.

(** [x or ""] *)
Definition or_empty (v : json) : json :=
  if truthy v then v else JStr EmptyString.

End Json.

(** ** [categorize.py]: the online guesser *)
Module Online.
Import PyStr Json Keywords.

(** What the program does to the outside, in the order it does it. *)
Inductive event : Set :=
| Sleep
| OsmGet (q : string)
| WikiSearch (q : string)
| WikiPage (title : string).

Record response : Type := mkResponse {
  status_code : Z;
  json_body : result json          (* [r.json()] *)
}.

Record page : Type := mkPage {
  summary : result (option string) (* [page.summary] *)
}.

(** The remote services.  The first argument is the number of events that
    happened before the call, so a service may answer the same request
    differently at different times; [Raise] stands for any exception of the
    call (connection error, timeout, malformed payload). *)
Record world : Type := mkWorld {
  session_get : nat -> string -> result response;
  wikipedia_search : nat -> string -> result (list string);
  wikipedia_page : nat -> string -> result page
}.

(** Computations that log events and may raise. *)
Definition io (A : Type) : Type := list event -> result A * list event.

Definition ret {A} (a : A) : io A := fun log => (Ok a, log).

Definition throw {A} (e : exn) : io A := fun log => (Raise e, log).

Definition bind {A B} (m : io A) (k : A -> io B) : io B :=
  fun log =>
    match m log with
    | (Ok a, log') => k a log'
    | (Raise e, log') => (Raise e, log')
    end.

(** [try: m except Exception: h] *)
Definition try_except {A} (m : io A) (h : io A) : io A :=
  fun log =>
    match m log with
    | (Ok a, log') => (Ok a, log')
    | (Raise _, log') => h log'
    end.

Definition lift {A} (r : result A) : io A := fun log => (r, log).

(** An outside call: logged, then answered by the world. *)
Definition call {A} (e : event) (answer : nat -> result A) : io A :=
  fun log => (answer (length log), e :: log).

Declare Scope io_scope.
Delimit Scope io_scope with io.
Notation "x <- m ;; k" := (bind m (fun x => k))
  (at level 61, m at next level, right associativity) : io_scope.
Notation "m ;;; k" := (bind m (fun _ => k))
  (at level 61, right associativity) : io_scope.

Section Guesser.
Variable w : world.
(** [str(v)] of an object that is not a [str], as an f-string formats it. *)
Variable py_str : json -> string.

(** [f"{v}"] *)
Definition format (v : json) : string :=
  match v with JStr s => s | _ => py_str v end.

(** Lines 91-102 of [_from_osm]: [None] is an early [return None], a text
    is the [hint]. *)
Definition osm_hint (name : string) : io (option string) :=
  (r <- call (OsmGet name) (fun t => session_get w t name) ;;
   if negb (status_code r =? 200)%Z then ret None else
   items <- lift (json_body r) ;;
   if negb (truthy items) then ret None else
   item <- lift (subscript0 items) ;;
   display <- lift (get item "display_name") ;;
   clazz <- lift (get item "class") ;;
   typ <- lift (get item "type") ;;
   ret (Some (format (or_empty display) ++ " " ++ format (or_empty clazz)
              ++ " " ++ format (or_empty typ))%string))%io.

(** [OnlineGuesser._from_osm] *)
Definition _from_osm (name : string) : io (option string) :=
  try_except
    (hint <- osm_hint name ;;
     match hint with
     | None => ret None
     | Some text => ret (keyword_scan text)
     end)%io
    (ret None).

(** Lines 112-117 of [_from_wikipedia]: [None] is an early [return None],
    a text is the truncated summary.  The call [set_rate_limiting(True)] of
    line 112 sets a flag of the library and is not an event. *)
Definition wikipedia_text (name : string) : io (option string) :=
  (results <- call (WikiSearch name) (fun t => wikipedia_search w t name) ;;
   match results with
   | [] => ret None
   | title :: _ =>
       p <- call (WikiPage title) (fun t => wikipedia_page w t title) ;;
       s <- lift (summary p) ;;
       let text := match s with
                   | Some x => if nonempty x then x else EmptyString
                   | None => EmptyString
                   end in
       ret (Some (prefix_slice 1000 text))
   end)%io.

(** [OnlineGuesser._from_wikipedia] *)
Definition _from_wikipedia (name : string) : io (option string) :=
  try_except
    (text <- wikipedia_text name ;;
     match text with
     | None => ret None
     | Some t => ret (keyword_scan t)
     end)%io
    (ret None).

(** Truth value of a [str | None]. *)
Definition truthy_opt (c : option string) : bool :=
  match c with Some s => nonempty s | None => false end.

(** [OnlineGuesser.guess] *)
Definition guess (name : string) : io (option string) :=
  (call Sleep (fun _ => Ok tt) ;;;
   a <- _from_osm name ;;
   if truthy_opt a then ret a else _from_wikipedia name)%io.
End Guesser.

(** *** Observations on the log and on the world *)

(** The event is a request to the encyclopedic source. *)
Definition is_wiki_event (e : event) : bool :=
  match e with
  | WikiSearch _ | WikiPage _ => true
  | Sleep | OsmGet _ => false
  end.

(** The event is the place lookup of the name [m]; [guess m] makes exactly
    one. *)
Definition is_lookup (m : string) (e : event) : bool :=
  match e with
  | OsmGet q => String.eqb q m
  | _ => false
  end.

(** Number of external lookups of [m] recorded in the log. *)
Definition lookups (m : string) (log : list event) : nat :=
  length (filter (is_lookup m) log).

(** The payload is not a list whose first element is an object: indexing
    it or reading a field of its first element raises. *)
Definition malformed (v : json) : Prop :=
  match subscript0 v with
  | Raise _ => True
  | Ok item => exists e, get item "display_name" = Raise e
  end.

(** The place source fails whenever it is called: the request raises, the
    status is not 200, the body does not parse, the result set is empty, or
    the payload is malformed. *)
Definition osm_fails (w : world) : Prop :=
  forall t q,
    match session_get w t q with
    | Raise _ => True
    | Ok r =>
        status_code r <> 200%Z \/
        (exists e, json_body r = Raise e) \/
        (exists v, json_body r = Ok v /\ (truthy v = false \/ malformed v))
    end.

(** The encyclopedic source fails whenever it is called: the search raises
    or finds nothing, or the page or its summary cannot be fetched. *)
Definition wikipedia_fails (w : world) : Prop :=
  forall t q,
    match wikipedia_search w t q with
    | Raise _ => True
    | Ok [] => True
    | Ok (title :: _) =>
        forall t',
          match wikipedia_page w t' title with
          | Raise _ => True
          | Ok p => exists e, summary p = Raise e
          end
    end.

(** The category the place source gives: the keyword scan of its hint, when
    it has one. *)
Definition osm_answer (w : world) (py_str : json -> string)
           (name : string) (log : list event) : option string :=
  match fst (osm_hint w py_str name log) with
  | Ok (Some text) => keyword_scan text
  | _ => None
  end.

(** The category the encyclopedic source gives. *)
Definition wikipedia_answer (w : world) (name : string) (log : list event)
  : option string :=
  match fst (wikipedia_text w name log) with
  | Ok (Some text) => keyword_scan text
  | _ => None
  end.

(** The services answer a request the same way whenever it is made. *)
Definition stable (w : world) : Prop :=
  (forall t t' q, session_get w t q = session_get w t' q) /\
  (forall t t' q, wikipedia_search w t q = wikipedia_search w t' q) /\
  (forall t t' q, wikipedia_page w t q = wikipedia_page w t' q).

End Online.

(** ** [app.py]: the working set and the resolution steps *)
Module App.
Import PyStr Memory Keywords Online.

(** A cell of the uploaded frame as [pd.read_csv] types it: an empty field
    is NaN, a field of a numeric column is a number, any other is text. *)
Inductive cell (num : Type) : Type :=
| NaN
| Text (s : string)
| Number (x : num).
Arguments NaN {num}.
Arguments Text {num} s.
Arguments Number {num} x.

(** [Series.apply(f)] for an [f] that may raise: the first exception ends
    the call. *)
Fixpoint apply_result {A B} (f : A -> result B) (l : list A) : result (list B) :=
  match l with
  | [] => Ok []
  | x :: xs =>
      match f x with
      | Raise e => Raise e
      | Ok y =>
          match apply_result f xs with
          | Raise e => Raise e
          | Ok ys => Ok (y :: ys)
          end
      end
  end.

Section Batch.
Variables num datetime timestamp : Type.
(** [str(x)] of a number. *)
Variable str_of_num : num -> string.
(** What [.astype(str)] makes of a missing value: the text [nan] with
    pandas before 3.0 ([true]), a missing value still with the [str] dtype
    of pandas 3 ([false]). *)
Variable nan_as_text : bool.
(** [parser.parse(s, dayfirst=False, fuzzy=True)] of [dateutil]. *)
Variable parser_parse : string -> result datetime.
(** [pd.to_datetime(series, errors="coerce")] on the Series of the parsed
    values: a Series over the same lines, where [None] is NaT.  The
    conversion is that of the whole column: what becomes of one value may
    depend on the others. *)
Variable to_datetime : list datetime -> list (option timestamp).
(** [pd.to_numeric(..., errors="coerce")] on one text field: [None] is
    NaN. *)
Variable numeric_of_text : string -> option num.

(** The three mapped columns of one line of [df_raw]. *)
Record raw_row : Type := mkRaw {
  date_cell : cell num;
  desc_cell : cell num;
  amt_cell : cell num
}.

(** One line of the frame built at lines 43-47, before [dropna]. *)
Record frame_row : Type := mkFrame {
  f_date : option timestamp;
  f_merchant : option string;
  f_amount : option num
}.

(** One line of the working set [df]. *)
Record txn : Type := mkTxn {
  date : timestamp;
  merchant : string;
  amount : num
}.

(** The built-in [str(x)] on a cell: NaN is a float, and its text is
    [nan]. *)
Definition str (c : cell num) : string :=
  match c with
  | NaN => "nan"
  | Text s => s
  | Number x => str_of_num x
  end.

(** [.astype(str)] on a cell of a column: [None] is a missing value. *)
Definition astype_str (c : cell num) : option string :=
  match c with
  | NaN => if nan_as_text then Some "nan" else None
  | Text s => Some s
  | Number x => Some (str_of_num x)
  end.

(** [.str.strip()] on a cell of a text column: a missing value stays
    missing. *)
Definition str_strip (c : option string) : option string :=
  option_map strip c.

Definition to_numeric (c : cell num) : option num :=
  match c with
  | NaN => None
  | Text s => numeric_of_text s
  | Number x => Some x
  end.

(** [.dropna(subset=["date", "merchant", "amount"])] *)
Definition dropna (rows : list frame_row) : list txn :=
  flat_map (fun r =>
              match f_date r, f_merchant r, f_amount r with
              | Some d, Some m, Some a => [mkTxn d m a]
              | _, _, _ => []
              end) rows.

(** Lines 43-47: the working set, or the exception that ends the run.  The
    three columns are put side by side on their line numbers; a line that a
    column does not have is missing there, and [dropna] drops it. *)
Definition working_set (df_raw : list raw_row) : result (list txn) :=
  match apply_result (fun x => parser_parse (str x)) (map date_cell df_raw) with
  | Raise e => Raise e
  | Ok parsed =>
      let dates := to_datetime parsed in
      let merchants := map (fun r => str_strip (astype_str (desc_cell r))) df_raw in
      let amounts := map (fun r => to_numeric (amt_cell r)) df_raw in
      Ok (dropna (map (fun x => mkFrame (fst (fst x)) (snd (fst x)) (snd x))
                      (combine (combine dates merchants) amounts)))
  end.

(** What becomes of one line of [df_raw] given the entry of the converted
    date column on that line: one line of the working set, or nothing when
    the date is NaT, the merchant is missing or the amount is not
    numeric. *)
Definition line_of (r : raw_row) (ts : option timestamp) : list txn :=
  match ts, str_strip (astype_str (desc_cell r)), to_numeric (amt_cell r) with
  | Some t, Some m, Some a => [mkTxn t m a]
  | _, _, _ => []
  end.
End Batch.

(** [Series.isna()] on one category. *)
Definition isna (c : option string) : bool :=
  match c with None => true | Some _ => false end.

(** [Series.any()] *)
Definition any (mask : list bool) : bool := existsb (fun b => b) mask.

(** [df.loc[mask, col]] *)
Fixpoint loc {A} (mask : list bool) (col : list A) : list A :=
  match mask, col with
  | b :: m, x :: c => if b then x :: loc m c else loc m c
  | _, _ => []
  end.

(** [df.loc[mask, col] = values], the values aligned on the selected lines. *)
Fixpoint loc_assign {A} (mask : list bool) (col values : list A) : list A :=
  match mask, col with
  | true :: m, x :: c =>
      match values with
      | v :: vs => v :: loc_assign m c vs
      | [] => x :: loc_assign m c []
      end
  | false :: m, x :: c => x :: loc_assign m c values
  | _, _ => col
  end.

(** [.drop_duplicates()]: the first occurrence of each value is kept. *)
Fixpoint drop_duplicates_from (seen l : list string) : list string :=
  match l with
  | [] => []
  | x :: xs =>
      if existsb (String.eqb x) seen then drop_duplicates_from seen xs
      else x :: drop_duplicates_from (x :: seen) xs
  end.

Definition drop_duplicates (l : list string) : list string :=
  drop_duplicates_from [] l.

(** [options.index(g) if g in options else 0] *)
Fixpoint index_or_zero (g : string) (options : list string) : nat :=
  match options with
  | [] => 0
  | o :: rest =>
      if String.eqb o g then 0
      else if existsb (String.eqb g) rest then S (index_or_zero g rest) else 0
  end.

(** One expander of the manual step. *)
Record prompt : Set := mkPrompt {
  p_merchant : string;
  p_guess : option string;
  p_preselect : nat;
  p_choice : string;
  p_saved : bool
}.

Section Pipeline.
Variable token_set_ratio : string -> string -> Z.
Variable w : world.
Variable py_str : Json.json -> string.
Variable file : Type.
Variable to_csv : list (string * string) -> file.
(** The user: the option [st.selectbox] returns for the widget of key [i]
    given the options and the preselected index, and whether the button of
    key [i] was pressed. *)
Variable selectbox : nat -> list string -> nat -> string.
Variable button : nat -> bool.
Variable enable_online : bool.

(** [Series.apply(f)] for an [f] that calls outside. *)
Fixpoint apply_io {A B} (f : A -> io B) (l : list A) : io (list B) :=
  match l with
  | [] => ret []
  | x :: xs => (y <- f x ;; ys <- apply_io f xs ;; ret (y :: ys))%io
  end.

(** Line 54: the category column from the saved map. *)
Definition step_memory (cat : categorizer file) (merchants : list string)
  : result (list (option string)) :=
  apply_result (get_category token_set_ratio (map_df cat)) merchants.

(** Lines 57-61: the online guesses for the lines still unknown. *)
Definition step_online (merchants : list string) (categories : list (option string))
  : io (list (option string)) :=
  if enable_online then
    let unknown_idx := map isna categories in
    if any unknown_idx then
      (guesses <- apply_io (guess w py_str) (loc unknown_idx merchants) ;;
       ret (loc_assign unknown_idx categories guesses))%io
    else ret categories
  else ret categories.

(** Lines 68-78: one expander per line of [unk_df]; [i] is the index of
    the line after [reset_index]. *)
Fixpoint manual_loop (i : nat) (unk : list string) (cat : categorizer file)
  : io (list prompt * categorizer file) :=
  match unk with
  | [] => ret ([], cat)
  | m :: rest =>
      (g <- (if enable_online then guess w py_str m else ret None) ;;
       let options := DEFAULT_CATEGORIES ++ ["Other"] in
       let preselect := match g with
                        | Some c => index_or_zero c options
                        | None => 0
                        end in
       let new_cat := selectbox i options preselect in
       let cat' := if button i then learn file to_csv cat m new_cat else cat in
       r <- manual_loop (S i) rest cat' ;;
       ret (mkPrompt m g preselect new_cat (button i) :: fst r, snd r))%io
  end.

(** Lines 53-81 on the merchant column of the working set: the category
    column, the expanders shown and the memory afterwards. *)
Definition resolve (cat : categorizer file) (merchants : list string)
  : io (list (option string) * list prompt * categorizer file) :=
  (from_map <- lift (step_memory cat merchants) ;;
   categories <- step_online merchants from_map ;;
   let unknown_mask := map isna categories in
   if any unknown_mask then
     let unk := drop_duplicates (loc unknown_mask merchants) in
     r <- manual_loop 0 unk cat ;;
     ret (categories, fst r, snd r)
   else ret (categories, [], cat))%io.
End Pipeline.

(** *** Observations on the resolution steps *)

(** The category the saved map gives for a merchant. *)
Definition from_memory (token_set_ratio : string -> string -> Z)
           (df : list row) (m : string) : option string :=
  match get_category token_set_ratio df m with
  | Ok r => r
  | Raise _ => None
  end.

(** The category the online guesser gives for a merchant when asked first. *)
Definition from_online (w : world) (py_str : Json.json -> string) (m : string)
  : option string :=
  match fst (guess w py_str m []) with
  | Ok r => r
  | Raise _ => None
  end.

(** The options of the select box, line 71. *)
Definition manual_options : list string := DEFAULT_CATEGORIES ++ ["Other"].

(** The mappings the user saved in the manual step: the merchant and the
    chosen category of each expander whose button was pressed. *)
Definition saved_mappings (prompts : list prompt) : list (string * string) :=
  map (fun p => (p_merchant p, p_choice p)) (filter p_saved prompts).

(** The suggestion of an expander is a category of the keyword rules and is
    the preselected option; without suggestion the first option is
    preselected. *)
Definition suggestion_preselected (p : prompt) : Prop :=
  match p_guess p with
  | Some c =>
      In c (map snd KEYWORDS_TO_CATEGORY) /\
      nth_error manual_options (p_preselect p) = Some c
  | None => p_preselect p = 0
  end.

End App.

(** ** Sample data *)
Module Samples.
Import PyStr Memory.

(** A scorer that only recognises equal strings. *)
Definition exact_ratio (q c : string) : Z :=
  if String.eqb q c then 100%Z else 0%Z.

Definition sample_df : list row :=
  [ mkRow "Uber *Trip" "Transport" "UBER *TRIP";
    mkRow "Starbucks Coffee" "Food & Drink" "STARBUCKS COFFEE" ].

(** A plain CSV layer for fields without commas, quotes or line breaks. *)
Definition newline : ascii := ascii_of_nat 10.

Fixpoint split_on (sep : ascii) (s : string) : list string :=
  match s with
  | EmptyString => [EmptyString]
  | String c s' =>
      if Ascii.eqb c sep then EmptyString :: split_on sep s'
      else match split_on sep s' with
           | [] => [String c EmptyString]
           | h :: t => String c h :: t
           end
  end.

Definition to_csv_text (rows : list (string * string)) : string :=
  String.concat EmptyString
    (map (fun p => (fst p ++ "," ++ snd p ++ String newline EmptyString)%string)
         (("merchant", "category") :: rows)).

Definition read_csv_text (f : string) : list (string * string) :=
  match split_on newline f with
  | [] => []
  | _ :: lines =>
      flat_map (fun l => match split_on "," l with
                         | [a; b] => [(a, b)]
                         | _ => []
                         end) lines
  end.

(** The same layer with the column typing of [pd.read_csv], for the one
    case used below: a column whose fields are all strings of decimal digits
    is read as integers, and the text of an integer has no leading zero; any
    other column is read as text. *)
Fixpoint all_digits (s : string) : bool :=
  match s with
  | EmptyString => true
  | String c s' => is_digit c && all_digits s'
  end.

Definition integer_field (s : string) : bool :=
  match s with
  | EmptyString => false
  | _ => all_digits s
  end.

Fixpoint drop_zeros (s : string) : string :=
  match s with
  | EmptyString => s
  | String c s' =>
      if Ascii.eqb c "0"
      then match s' with
           | EmptyString => s
           | _ => drop_zeros s'
           end
      else s
  end.

Definition read_column (col : list string) : list string :=
  if forallb integer_field col then map drop_zeros col else col.

Definition read_csv_typed (f : string) : list (string * string) :=
  let rows := read_csv_text f in
  combine (read_column (map fst rows)) (read_column (map snd rows)).

Definition sample_store : categorizer string :=
  mkCategorizer sample_df (Some (to_csv_text (essential sample_df))).

Definition sample_calls : list (string * string) :=
  [ ("Starbucks Coffee", "Food & Drink");
    ("Uber *Trip", "Transport");
    (" starbucks coffee", "Other") ].

(** A world whose place source knows a street and whose encyclopedic source
    finds nothing. *)
Definition street_world : Online.world :=
  Online.mkWorld
    (fun _ _ => Ok (Online.mkResponse 200
                      (Ok (Json.JArr
                             [Json.JObj [ ("display_name", Json.JStr "Main Street");
                                          ("class", Json.JStr "highway");
                                          ("type", Json.JStr "residential") ]]))))
    (fun _ _ => Ok [])
    (fun _ _ => Raise WikipediaException).

(** A world in which every request fails. *)
Definition offline_world : Online.world :=
  Online.mkWorld
    (fun _ _ => Raise RequestException)
    (fun _ _ => Raise WikipediaException)
    (fun _ _ => Raise WikipediaException).

Definition no_str (v : Json.json) : string := EmptyString.

(** A user who keeps the preselected option and presses no button. *)
Definition keep_preselected (i : nat) (options : list string) (k : nat) : string :=
  nth k options "Other".

Definition never_pressed (i : nat) : bool := false.

Definition fresh_store : categorizer string :=
  _load_map string to_csv_text read_csv_text None.

(** The two transactions of the end-to-end scenario. *)
Definition walmart_twice : list string := [ "WALMART #2291"; "WALMART #2291" ].

(** A date parser that accepts the texts starting with a digit, with dates
    kept as text, and a numeric reader that accepts no text. *)
Definition digits_first (s : string) : result string :=
  match s with
  | String c _ => if is_digit c then Ok s else Raise ParserError
  | EmptyString => Raise ParserError
  end.

Definition always_in_range (ds : list string) : list (option string) := map Some ds.

Definition no_number (s : string) : option Z := None.

Definition zero_text (x : Z) : string := "0".

(** A world whose place source is down for the first requests and then
    knows a supermarket. *)
Definition grocer_response : Online.response :=
  Online.mkResponse 200
    (Ok (Json.JArr
           [Json.JObj [ ("display_name", Json.JStr "Corner Supermarket");
                        ("class", Json.JStr "shop");
                        ("type", Json.JStr "supermarket") ]])).

Definition flaky_world : Online.world :=
  Online.mkWorld
    (fun t _ => if (t <? 3)%nat then Raise RequestException else Ok grocer_response)
    (fun _ _ => Raise WikipediaException)
    (fun _ _ => Raise WikipediaException).

(** A user who presses every button. *)
Definition always_pressed (i : nat) : bool := true.

(** A world whose place source knows a supermarket at once. *)
Definition grocer_world : Online.world :=
  Online.mkWorld
    (fun _ _ => Ok grocer_response)
    (fun _ _ => Raise WikipediaException)
    (fun _ _ => Raise WikipediaException).

Lemma exact_ratio_not_negative : forall q c, (0 <= exact_ratio q c)%Z.
Proof. intros q c. unfold exact_ratio. destruct (String.eqb q c); lia. Defined.

End Samples.

(* ================================================================== *)
(** * Part II: properties *)
(* ================================================================== *)

(** ** The pattern matcher *)
Section RegexFacts.
Import PyStr Regex.

Lemma last_char_app (prev : option ascii) (s t : string) :
  last_char prev (s ++ t)%string = last_char (last_char prev s) t.
Proof.
  revert prev. induction s as [|c s IH]; intros prev; simpl; [reflexivity|].
  apply IH.
Qed.

(** [match_atoms] lists exactly the instances of the alternative that
    start the text. *)
Lemma match_atoms_sound (a : alternative) (prev l : option ascii) (t rest : string) :
  In (l, rest) (match_atoms a prev t) ->
  exists mid, t = (mid ++ rest)%string /\ instance_of a mid /\ l = last_char prev mid.
Proof.
  revert prev t. induction a as [|[c|c] a IH]; intros prev t; simpl.
  - intros [[= <- <-]|[]]. exists EmptyString. repeat split. constructor.
  - destruct t as [|x t]; [intros []|].
    destruct (char_eq_i c x) eqn:E; [|intros []].
    intros H. apply IH in H. destruct H as (mid & -> & Hi & ->).
    exists (String x mid). repeat split. now constructor.
  - intros H. apply in_app_or in H. destruct H as [H|H].
    + destruct t as [|x t]; [destruct H|].
      destruct (char_eq_i c x) eqn:E; [|destruct H].
      apply IH in H. destruct H as (mid & -> & Hi & ->).
      exists (String x mid). repeat split. now apply inst_opt.
    + apply IH in H. destruct H as (mid & -> & Hi & ->).
      exists mid. repeat split. now apply inst_skip.
Qed.

Lemma match_atoms_complete (a : alternative) (mid : string) :
  instance_of a mid ->
  forall prev rest,
    In (last_char prev mid, rest) (match_atoms a prev (mid ++ rest)%string).
Proof.
  induction 1 as [|c x a s E _ IH|c x a s E _ IH|c a s _ IH]; intros prev rest; simpl.
  - now left.
  - rewrite E. apply IH.
  - rewrite E. apply in_or_app. left. apply IH.
  - apply in_or_app. right. apply IH.
Qed.

Lemma match_here_spec (r : regex) (prev : option ascii) (t : string) :
  match_here r prev t = true <->
  exists mid post a,
    t = (mid ++ post)%string /\
    In a (alternatives r) /\
    instance_of a mid /\
    boundary prev (first_char t) = true /\
    boundary (last_char prev mid) (first_char post) = true.
Proof.
  unfold match_here. rewrite andb_true_iff, existsb_exists. split.
  - intros (Hb & a & Ha & He). apply existsb_exists in He.
    destruct He as ([l rest] & Hin & Hl). simpl in Hl.
    apply match_atoms_sound in Hin. destruct Hin as (mid & -> & Hi & ->).
    exists mid, rest, a. auto.
  - intros (mid & post & a & -> & Ha & Hi & Hb & Hl).
    split; [exact Hb|]. exists a. split; [exact Ha|].
    apply existsb_exists. exists (last_char prev mid, post).
    split; [now apply match_atoms_complete | exact Hl].
Qed.

(** [search] answers whether the pattern occurs in the text. *)
Lemma search_from_spec (r : regex) (t : string) (prev : option ascii) :
  search_from r prev t = true <-> occurs_after prev r t.
Proof.
  revert prev. induction t as [|c t IH]; intros prev.
  - simpl. rewrite orb_false_r, match_here_spec. unfold occurs_after. split.
    + intros (mid & post & a & E & Ha & Hi & Hb & Hl).
      exists EmptyString, mid, post, a. simpl. rewrite <- E. auto.
    + intros (pre & mid & post & a & E & Ha & Hi & Hb & Hl).
      destruct pre; [|discriminate]. simpl in *.
      exists mid, post, a. rewrite <- E in Hb. auto.
  - cbn [search_from]. rewrite orb_true_iff, match_here_spec, IH.
    unfold occurs_after. split.
    + intros [(mid & post & a & E & Ha & Hi & Hb & Hl)
             |(pre & mid & post & a & E & Ha & Hi & Hb & Hl)].
      * exists EmptyString, mid, post, a. simpl. rewrite <- E. auto.
      * exists (String c pre), mid, post, a. simpl. rewrite <- E. auto.
    + intros (pre & mid & post & a & E & Ha & Hi & Hb & Hl).
      destruct pre as [|c' pre]; simpl in *.
      * left. exists mid, post, a. rewrite <- E in Hb. auto.
      * injection E as <- E. right. exists pre, mid, post, a. auto.
Qed.

Lemma search_spec (r : regex) (t : string) :
  search r t = true <-> occurs r t.
Proof. apply search_from_spec. Qed.

Lemma search_false_spec (r : regex) (t : string) :
  search r t = false <-> ~ occurs r t.
Proof.
  rewrite <- search_spec. destruct (search r t); split; congruence.
Qed.
End RegexFacts.

(** ** The keyword rules *)
Section KeywordFacts.
Import Regex Keywords.

(** What [scan] returns, for any rule list: the category of the first
    rule that matches, and [None] exactly when none does. *)
Lemma scan_spec (rules : list (regex * string)) (t : string) :
  match scan rules t with
  | Some c =>
      exists before pat after,
        rules = before ++ (pat, c) :: after /\
        search pat t = true /\
        Forall (fun r => search (fst r) t = false) before
  | None => Forall (fun r => search (fst r) t = false) rules
  end.
Proof.
  induction rules as [|[pat cat] rest IH]; simpl.
  - constructor.
  - destruct (search pat t) eqn:E.
    + exists [], pat, rest. repeat split; auto.
    + destruct (scan rest t) as [c|].
      * destruct IH as (before & p & after & -> & Hp & Hb).
        exists ((pat, cat) :: before), p, after. repeat split; auto.
      * constructor; auto.
Qed.

Lemma scan_in (rules : list (regex * string)) (t c : string) :
  scan rules t = Some c -> In c (map snd rules).
Proof.
  induction rules as [|[pat cat] rest IH]; simpl; [discriminate|].
  destruct (search pat t); [intros [= ->]; now left | right; auto].
Qed.

(** A rule that matches bounds the position of the rule that answers. *)
Lemma scan_earliest (rules : list (regex * string)) (t : string)
      (i : nat) (pat : regex) (cat : string) :
  nth_error rules i = Some (pat, cat) ->
  search pat t = true ->
  exists k pk ck,
    (k <= i)%nat /\ nth_error rules k = Some (pk, ck) /\
    search pk t = true /\ scan rules t = Some ck /\
    (forall j r, (j < k)%nat -> nth_error rules j = Some r -> search (fst r) t = false).
Proof.
  revert i. induction rules as [|[p0 c0] rest IH]; intros i Hi Hs.
  - destruct i; discriminate.
  - simpl. destruct (search p0 t) eqn:E0.
    + exists 0%nat, p0, c0. repeat split; auto; try lia.
    + destruct i as [|i]; simpl in Hi.
      * injection Hi as -> ->. congruence.
      * destruct (IH i Hi Hs) as (k & pk & ck & Hk & Hn & Hpk & Hscan & Hbefore).
        exists (S k), pk, ck. repeat split; auto; try lia.
        intros [|j] r Hj Hr; simpl in Hr.
        -- injection Hr as <-. exact E0.
        -- apply (Hbefore j); auto; lia.
Qed.
End KeywordFacts.

(** ** The merchant memory: lookup *)
Section LookupFacts.
Import PyStr Memory.
Variable token_set_ratio : string -> string -> Z.

Let step (best y : string * Z) : string * Z :=
  if (snd best <? snd y)%Z then y else best.

(** The fold of [py_max] keeps the first element of maximal score. *)
Lemma fold_first_max (xs pre mid : list (string * Z)) (best : string * Z) :
  (forall y, In y pre -> (snd y < snd best)%Z) ->
  (forall y, In y mid -> (snd y <= snd best)%Z) ->
  exists pre' post',
    pre ++ best :: mid ++ xs = pre' ++ fold_left step xs best :: post' /\
    (forall y, In y pre' -> (snd y < snd (fold_left step xs best))%Z) /\
    (forall y, In y post' -> (snd y <= snd (fold_left step xs best))%Z).
Proof.
  revert pre mid best.
  induction xs as [|y ys IH]; intros pre mid best Hpre Hmid; simpl.
  - exists pre, mid. rewrite app_nil_r. auto.
  - unfold step at 2 4 6. destruct (snd best <? snd y)%Z eqn:E.
    + apply Z.ltb_lt in E.
      destruct (IH (pre ++ best :: mid) [] y) as (p & q & Heq & Hp & Hq).
      * intros z Hz. apply in_app_or in Hz. destruct Hz as [Hz|[<-|Hz]].
        -- specialize (Hpre z Hz). lia.
        -- exact E.
        -- specialize (Hmid z Hz). lia.
      * intros z [].
      * exists p, q. split; [|auto].
        rewrite <- Heq. simpl. rewrite <- app_assoc. reflexivity.
    + apply Z.ltb_ge in E.
      destruct (IH pre (mid ++ [y]) best) as (p & q & Heq & Hp & Hq); auto.
      * intros z Hz. apply in_app_or in Hz. destruct Hz as [Hz|[<-|[]]]; auto.
      * exists p, q. split; [|auto].
        rewrite <- Heq. rewrite <- app_assoc. reflexivity.
Qed.

Lemma py_max_spec (l : list (string * Z)) :
  match py_max l with
  | None => l = []
  | Some b =>
      exists pre post,
        l = pre ++ b :: post /\
        (forall y, In y pre -> (snd y < snd b)%Z) /\
        (forall y, In y post -> (snd y <= snd b)%Z)
  end.
Proof.
  destruct l as [|x xs]; simpl; [reflexivity|].
  destruct (fold_first_max xs [] [] x) as (p & q & Heq & Hp & Hq);
    try (intros z []).
  exists p, q. auto.
Qed.

(** With scores that are never negative the cutoff drops nothing: every
    choice is scored and yielded. *)
Lemma extractWithoutOrder_all (q : string) (choices : list string) :
  (forall c, (0 <= token_set_ratio q c)%Z) ->
  extractWithoutOrder token_set_ratio q choices
  = map (fun c => (c, token_set_ratio q c)) choices.
Proof.
  intros Hpos. unfold extractWithoutOrder.
  induction choices as [|c cs IH]; simpl; [reflexivity|].
  destruct (0 <=? token_set_ratio q c)%Z eqn:E.
  - now rewrite IH.
  - apply Z.leb_gt in E. specialize (Hpos c). lia.
Qed.

(** The selection of [get_category] lands on the record [extractOne]
    chose: no earlier record carries the same key. *)
Lemma first_with_key (before after : list row) (r : row) :
  (forall r', In r' before -> merchant_norm r' <> merchant_norm r) ->
  filter (fun x => String.eqb (merchant_norm x) (merchant_norm r))
         (before ++ r :: after)
  = r :: filter (fun x => String.eqb (merchant_norm x) (merchant_norm r)) after.
Proof.
  intros Hne. rewrite filter_app. simpl. rewrite String.eqb_refl.
  replace (filter _ before) with (@nil row); [reflexivity|].
  symmetry. induction before as [|b bs IH]; simpl; [reflexivity|].
  destruct (String.eqb_spec (merchant_norm b) (merchant_norm r)) as [E|E].
  - exfalso. apply (Hne b); simpl; auto.
  - apply IH. intros r' Hr'. apply Hne. now right.
Qed.

Lemma get_category_nonempty (df : list row) (description : string) :
  (forall q c, (0 <= token_set_ratio q c)%Z) ->
  df <> [] ->
  let q := strip (upper description) in
  let score := fun r => token_set_ratio q (merchant_norm r) in
  exists before r after,
    df = before ++ r :: after /\
    (forall r', In r' before -> (score r' < score r)%Z) /\
    (forall r', In r' after -> (score r' <= score r)%Z) /\
    get_category token_set_ratio df description
    = Ok (if (85 <=? score r)%Z then Some (category r) else None).
Proof.
  intros Hpos Hne q score.
  unfold get_category, _best_match, extractOne, keys.
  fold q. rewrite (extractWithoutOrder_all q _ (Hpos q)).
  rewrite map_map.
  pose proof (py_max_spec (map (fun x => (merchant_norm x, token_set_ratio q (merchant_norm x))) df)) as Hmax.
  destruct df as [|r0 rest]; [congruence|].
  set (df := r0 :: rest) in *.
  destruct (py_max _) as [[m s]|].
  - destruct Hmax as (pre & post & Heq & Hpre & Hpost).
    apply map_eq_app in Heq. destruct Heq as (before & tl & Hdf & Hb & Htl).
    apply map_eq_cons in Htl. destruct Htl as (r & after & -> & Hr & Ha).
    injection Hr as Hm Hs. subst pre post.
    exists before, r, after.
    assert (Hlt : forall r', In r' before -> (score r' < score r)%Z).
    { intros r' Hr'. unfold score. rewrite Hs.
      apply (Hpre (merchant_norm r', token_set_ratio q (merchant_norm r'))).
      apply (in_map (fun x => (merchant_norm x, token_set_ratio q (merchant_norm x)))).
      exact Hr'. }
    assert (Hle : forall r', In r' after -> (score r' <= score r)%Z).
    { intros r' Hr'. unfold score. rewrite Hs.
      apply (Hpost (merchant_norm r', token_set_ratio q (merchant_norm r'))).
      apply (in_map (fun x => (merchant_norm x, token_set_ratio q (merchant_norm x)))).
      exact Hr'. }
    repeat split; auto.
    unfold score. rewrite Hs.
    destruct (85 <=? s)%Z; [|reflexivity].
    rewrite Hdf, <- Hm. rewrite first_with_key; [reflexivity|].
    intros r' Hr' E. specialize (Hlt r' Hr'). unfold score in Hlt.
    rewrite E in Hlt. lia.
  - discriminate.
Qed.
End LookupFacts.

(** C1.  [get_category] uppercases and trims the description, scores it
    against the key of every stored record and answers with the category of
    the highest-scoring record (the first one among equals) when that score
    is at least 85, with [None] otherwise.  On an empty store the answer is
    [None] whatever the scorer is, so no score is computed. *)
Theorem get_category_returns_best
        (token_set_ratio : string -> string -> Z)
        (df : list Memory.row) (description : string) :
  Memory.get_category token_set_ratio [] description = Ok None /\
  ((forall q c, (0 <= token_set_ratio q c)%Z) ->
   df <> [] ->
   let q := PyStr.strip (PyStr.upper description) in
   let score := fun r => token_set_ratio q (Memory.merchant_norm r) in
   map fst (Memory.extractWithoutOrder token_set_ratio q (map Memory.merchant_norm df))
   = map Memory.merchant_norm df /\
   exists before r after,
     df = before ++ r :: after /\
     (forall r', In r' before -> (score r' < score r)%Z) /\
     (forall r', In r' after -> (score r' <= score r)%Z) /\
     Memory.get_category token_set_ratio df description
     = Ok (if (85 <=? score r)%Z then Some (Memory.category r) else None)).
Proof.
  split; [reflexivity|].
  intros Hpos Hne q score. split.
  - rewrite (extractWithoutOrder_all token_set_ratio q _ (Hpos q)).
    induction (map Memory.merchant_norm df) as [|c cs IH]; simpl; congruence.
  - apply get_category_nonempty; assumption.
Qed.

Lemma get_category_returns_best_witness :
  (forall q c, (0 <= Samples.exact_ratio q c)%Z) /\
  Samples.sample_df <> [] /\
  let q := PyStr.strip (PyStr.upper "  starbucks coffee ") in
  let score := fun r => Samples.exact_ratio q (Memory.merchant_norm r) in
  map fst (Memory.extractWithoutOrder Samples.exact_ratio q
             (map Memory.merchant_norm Samples.sample_df))
  = map Memory.merchant_norm Samples.sample_df /\
  exists before r after,
    Samples.sample_df = before ++ r :: after /\
    (forall r', In r' before -> (score r' < score r)%Z) /\
    (forall r', In r' after -> (score r' <= score r)%Z) /\
    Memory.get_category Samples.exact_ratio Samples.sample_df "  starbucks coffee "
    = Ok (if (85 <=? score r)%Z then Some (Memory.category r) else None).
Proof.
  assert (Hpos : forall q c, (0 <= Samples.exact_ratio q c)%Z).
  { intros q c. unfold Samples.exact_ratio. destruct (String.eqb q c); lia. }
  assert (Hne : Samples.sample_df <> []) by discriminate.
  split; [exact Hpos|]. split; [exact Hne|].
  exact (proj2 (get_category_returns_best Samples.exact_ratio Samples.sample_df
                  "  starbucks coffee ") Hpos Hne).
Defined.

Example get_category_sample :
  Memory.get_category Samples.exact_ratio Samples.sample_df "  starbucks coffee "
  = Ok (Some "Food & Drink") /\
  Memory.get_category Samples.exact_ratio Samples.sample_df "Uber Eats" = Ok None.
Proof. split; reflexivity. Qed.

(** ** The merchant memory: learning *)
Section LearnFacts.
Import PyStr Memory.

Lemma key_present (df : list row) (k : string) :
  existsb (fun b => b) (map (fun r => String.eqb (merchant_norm r) k) df) = true
  <-> In k (keys df).
Proof.
  induction df as [|r rs IH]; simpl.
  - split; [discriminate | intros []].
  - rewrite orb_true_iff, IH. rewrite String.eqb_eq. tauto.
Qed.

Lemma key_absent (df : list row) (k : string) :
  existsb (fun b => b) (map (fun r => String.eqb (merchant_norm r) k) df) = false
  <-> ~ In k (keys df).
Proof.
  rewrite <- key_present. destruct (existsb _ _); split; congruence.
Qed.

Lemma overwrite_keys (df : list row) (k c : string) :
  keys (map (fun r => if String.eqb (merchant_norm r) k
                      then set_category c r else r) df) = keys df.
Proof.
  unfold keys. rewrite map_map. apply map_ext.
  intros r. destruct (String.eqb (merchant_norm r) k); reflexivity.
Qed.

(** [learn] on a stored key rewrites categories in place. *)
Lemma learn_df_present (df : list row) (m c : string) :
  In (normalize m) (keys df) ->
  learn_df df m c
  = map (fun r => if String.eqb (merchant_norm r) (normalize m)
                  then set_category c r else r) df.
Proof.
  intros Hin. unfold learn_df. fold (normalize m).
  apply key_present in Hin. now rewrite Hin.
Qed.

(** [learn] on a new key appends one record. *)
Lemma learn_df_absent (df : list row) (m c : string) :
  ~ In (normalize m) (keys df) ->
  learn_df df m c = df ++ [mkRow m c (normalize m)].
Proof.
  intros Hin. unfold learn_df. fold (normalize m).
  apply key_absent in Hin. now rewrite Hin.
Qed.

Lemma learn_df_keys (df : list row) (m c : string) :
  keys (learn_df df m c)
  = if in_dec string_dec (normalize m) (keys df) then keys df
    else keys df ++ [normalize m].
Proof.
  destruct (in_dec string_dec (normalize m) (keys df)) as [Hin|Hin].
  - rewrite learn_df_present by assumption. apply overwrite_keys.
  - rewrite learn_df_absent by assumption. unfold keys. now rewrite map_app.
Qed.

Lemma learn_df_key_stored (df : list row) (m c : string) :
  In (normalize m) (keys (learn_df df m c)).
Proof.
  rewrite learn_df_keys.
  destruct (in_dec string_dec (normalize m) (keys df)); [assumption|].
  apply in_or_app. right. now left.
Qed.

Lemma learn_df_unique (df : list row) (m c : string) :
  NoDup (keys df) -> NoDup (keys (learn_df df m c)).
Proof.
  intros Hnd. rewrite learn_df_keys.
  destruct (in_dec string_dec (normalize m) (keys df)) as [Hin|Hin]; [assumption|].
  apply NoDup_app; [assumption | repeat constructor; intros [] | ].
  intros x Hx [<-|[]]. contradiction.
Qed.

Lemma overwrite_twice (df : list row) (k c : string) :
  let f := fun r => if String.eqb (merchant_norm r) k
                    then set_category c r else r in
  map f (map f df) = map f df.
Proof.
  intros f. rewrite map_map. apply map_ext. intros r. unfold f.
  destruct (String.eqb (merchant_norm r) k) eqn:E; simpl.
  - rewrite E. reflexivity.
  - rewrite E. reflexivity.
Qed.

(** Learning the same pair a second time changes nothing. *)
Lemma learn_df_idempotent (df : list row) (m c : string) :
  learn_df (learn_df df m c) m c = learn_df df m c.
Proof.
  rewrite (learn_df_present (learn_df df m c)) by apply learn_df_key_stored.
  destruct (in_dec string_dec (normalize m) (keys df)) as [Hin|Hin].
  - rewrite learn_df_present by assumption. apply overwrite_twice.
  - rewrite learn_df_absent by assumption.
    rewrite map_app. simpl. rewrite String.eqb_refl.
    f_equal. rewrite <- (map_id df) at 2. apply map_ext_in.
    intros r Hr. destruct (String.eqb_spec (merchant_norm r) (normalize m)) as [E|E];
      [|reflexivity].
    exfalso. apply Hin. rewrite <- E. unfold keys. now apply in_map.
Qed.

Lemma overwritten_category (df : list row) (k c : string) (r : row) :
  In r (map (fun r => if String.eqb (merchant_norm r) k
                      then set_category c r else r) df) ->
  merchant_norm r = k -> category r = c.
Proof.
  intros Hin Hk. apply in_map_iff in Hin. destruct Hin as (r0 & <- & _).
  destruct (String.eqb_spec (merchant_norm r0) k) as [E|E]; [reflexivity|].
  contradiction.
Qed.

Lemma count_occ_unique (l : list string) (k : string) :
  NoDup l -> In k l -> count_occ string_dec l k = 1%nat.
Proof.
  intros Hnd Hin.
  pose proof (proj1 (NoDup_count_occ string_dec l) Hnd k) as Hle.
  pose proof (proj1 (count_occ_In string_dec l k) Hin) as Hpos. lia.
Qed.
Lemma seen_spec (x : string) (seen : list string) :
  existsb (String.eqb x) seen = true <-> In x seen.
Proof.
  rewrite existsb_exists. split.
  - intros (y & Hy & E). apply String.eqb_eq in E. now subst.
  - intros Hx. exists x. split; [assumption | apply String.eqb_refl].
Qed.

(** The keys after a run of [learn] calls: the keys before, then the new
    keys in the order of their first call. *)
Lemma learn_all_df_keys (calls : list (string * string)) (df : list row)
      (seen : list string) :
  (forall x, In x seen <-> In x (keys df)) ->
  keys (learn_all_df df calls)
  = keys df ++ App.drop_duplicates_from seen
                 (map (fun mc => normalize (fst mc)) calls).
Proof.
  revert df seen. induction calls as [|[m c] rest IH]; intros df seen Hseen; simpl.
  - now rewrite app_nil_r.
  - destruct (existsb (String.eqb (normalize m)) seen) eqn:E.
    + apply seen_spec in E. apply Hseen in E.
      rewrite (IH (learn_df df m c) seen).
      * rewrite learn_df_keys.
        destruct (in_dec string_dec (normalize m) (keys df)); [reflexivity|contradiction].
      * intros x. rewrite learn_df_keys.
        destruct (in_dec string_dec (normalize m) (keys df)); [apply Hseen|contradiction].
    + assert (Hnew : ~ In (normalize m) (keys df)).
      { intros Hin. apply Hseen in Hin. apply seen_spec in Hin. congruence. }
      rewrite (IH (learn_df df m c) (normalize m :: seen)).
      * rewrite learn_df_keys.
        destruct (in_dec string_dec (normalize m) (keys df)); [contradiction|].
        now rewrite <- app_assoc.
      * intros x. rewrite learn_df_keys.
        destruct (in_dec string_dec (normalize m) (keys df)); [contradiction|].
        rewrite in_app_iff. simpl. rewrite (Hseen x). tauto.
Qed.
End LearnFacts.

Section LearnClaims.
Import PyStr Memory.
Variable file : Type.
Variable to_csv : list (string * string) -> file.

(** C2.  [learn] on a stored key overwrites the category in place and adds
    no record; on a new key it appends one record.  Learning the same pair a
    second time changes nothing, and the key of [m] is then carried by as
    many records as before the first call, or by one when it was new.  In a
    memory whose keys are unique the keys are unique again after [learn], and
    after [learn m c] twice exactly one record carries the key of [m]. *)
Theorem learn_keeps_one_record_per_key
        (self : categorizer file) (m c : string) :
let key := normalize m in
let once := learn file to_csv self m c in
let twice := learn file to_csv once m c in
(In key (keys (map_df self)) ->
 length (map_df once) = length (map_df self) /\
 keys (map_df once) = keys (map_df self) /\
 forall r, In r (map_df once) -> merchant_norm r = key -> category r = c) /\
(~ In key (keys (map_df self)) ->
 map_df once = map_df self ++ [mkRow m c key]) /\
map_df twice = map_df once /\
count_occ string_dec (keys (map_df twice)) key
= Nat.max 1 (count_occ string_dec (keys (map_df self)) key) /\
(NoDup (keys (map_df self)) ->
 count_occ string_dec (keys (map_df twice)) key = 1%nat /\
 NoDup (keys (map_df once)) /\
 NoDup (keys (map_df twice))).
Proof.
intros key once twice. simpl in once, twice.
assert (Honce : map_df once = learn_df (map_df self) m c) by reflexivity.
assert (Htwice : map_df twice = learn_df (learn_df (map_df self) m c) m c)
  by reflexivity.
assert (Hsame : map_df twice = map_df once).
{ rewrite Htwice, Honce. apply learn_df_idempotent. }
assert (Hcount : count_occ string_dec (keys (map_df twice)) key
                 = Nat.max 1 (count_occ string_dec (keys (map_df self)) key)).
{ rewrite Hsame, Honce, learn_df_keys. fold key.
  destruct (in_dec string_dec key (keys (map_df self))) as [Hin|Hin].
  - apply (count_occ_In string_dec) in Hin. lia.
  - rewrite count_occ_app. simpl.
    rewrite (proj1 (count_occ_not_In string_dec _ _) Hin).
    destruct (string_dec key key); [reflexivity | contradiction]. }
split; [|split; [|split; [|split]]].
- intros Hin. repeat split.
  + rewrite Honce, learn_df_present by assumption. apply length_map.
  + rewrite Honce, learn_df_present by assumption. apply overwrite_keys.
  + intros r Hr Hk. rewrite Honce, learn_df_present in Hr by assumption.
    eapply overwritten_category; eassumption.
- intros Hnew. rewrite Honce. now apply learn_df_absent.
- exact Hsame.
- exact Hcount.
- intros Hnd.
  assert (Hnd1 : NoDup (keys (map_df once))).
  { rewrite Honce. now apply learn_df_unique. }
  repeat split.
  + rewrite Hsame. apply count_occ_unique; [assumption|].
    rewrite Honce. apply learn_df_key_stored.
  + exact Hnd1.
  + now rewrite Hsame.
Qed.

(** C10.  [learn] on a stored key keeps the number and order of the
    records; every record keeps its merchant string and its key, a record
    with another key is unchanged, and a record with the key of [m] has the
    new category. *)
Theorem learn_changes_only_category
        (self : categorizer file) (m c : string) :
  In (normalize m) (keys (map_df self)) ->
  let after := map_df (learn file to_csv self m c) in
  length after = length (map_df self) /\
  forall i r,
    nth_error (map_df self) i = Some r ->
    exists r',
      nth_error after i = Some r' /\
      merchant r' = merchant r /\
      merchant_norm r' = merchant_norm r /\
      (merchant_norm r <> normalize m -> r' = r) /\
      (merchant_norm r = normalize m -> category r' = c).
Proof.
  intros Hin after.
  assert (Hafter : after = map (fun r => if String.eqb (merchant_norm r) (normalize m)
                                         then set_category c r else r) (map_df self)).
  { unfold after. simpl. now apply learn_df_present. }
  rewrite Hafter. split; [apply length_map|].
  intros i r Hi. rewrite nth_error_map, Hi. simpl.
  eexists. split; [reflexivity|].
  destruct (String.eqb_spec (merchant_norm r) (normalize m)) as [E|E]; simpl;
    repeat split; auto; congruence.
Qed.
End LearnClaims.

Lemma learn_keeps_one_record_per_key_witness :
  let self := Samples.sample_store in
  let key := Memory.normalize " starbucks coffee" in
  let once := Memory.learn string Samples.to_csv_text self " starbucks coffee" "Other" in
  let twice := Memory.learn string Samples.to_csv_text once " starbucks coffee" "Other" in
  NoDup (Memory.keys (Memory.map_df self)) /\
  In key (Memory.keys (Memory.map_df self)) /\
  (length (Memory.map_df once) = length (Memory.map_df self) /\
   Memory.keys (Memory.map_df once) = Memory.keys (Memory.map_df self) /\
   forall r, In r (Memory.map_df once) -> Memory.merchant_norm r = key ->
             Memory.category r = "Other") /\
  Memory.map_df twice = Memory.map_df once /\
  (count_occ string_dec (Memory.keys (Memory.map_df twice)) key = 1%nat /\
   NoDup (Memory.keys (Memory.map_df once)) /\
   NoDup (Memory.keys (Memory.map_df twice))).
Proof.
  intros self key once twice.
  assert (Hnd : NoDup (Memory.keys (Memory.map_df self))).
  { simpl. repeat constructor; simpl; intuition discriminate. }
  assert (Hin : In key (Memory.keys (Memory.map_df self))).
  { simpl. right. left. reflexivity. }
  destruct (learn_keeps_one_record_per_key string Samples.to_csv_text
              self " starbucks coffee" "Other")
    as (Hstored & _ & Hsame & _ & Hunique).
  split; [exact Hnd|]. split; [exact Hin|].
  split; [exact (Hstored Hin)|]. split; [exact Hsame|].
  exact (Hunique Hnd).
Defined.

Lemma learn_changes_only_category_witness :
  In (Memory.normalize " starbucks coffee") (Memory.keys (Memory.map_df Samples.sample_store)) /\
  let after := Memory.map_df
                 (Memory.learn string Samples.to_csv_text Samples.sample_store
                               " starbucks coffee" "Other") in
  length after = length (Memory.map_df Samples.sample_store) /\
  forall i r,
    nth_error (Memory.map_df Samples.sample_store) i = Some r ->
    exists r',
      nth_error after i = Some r' /\
      Memory.merchant r' = Memory.merchant r /\
      Memory.merchant_norm r' = Memory.merchant_norm r /\
      (Memory.merchant_norm r <> Memory.normalize " starbucks coffee" -> r' = r) /\
      (Memory.merchant_norm r = Memory.normalize " starbucks coffee" ->
       Memory.category r' = "Other").
Proof.
  assert (Hin : In (Memory.normalize " starbucks coffee")
                   (Memory.keys (Memory.map_df Samples.sample_store))).
  { simpl. right. left. reflexivity. }
  split; [exact Hin|].
  exact (learn_changes_only_category string Samples.to_csv_text
           Samples.sample_store " starbucks coffee" "Other" Hin).
Defined.

Example learn_sample :
  Memory.map_df (Memory.learn string Samples.to_csv_text Samples.sample_store
                              " starbucks coffee" "Other")
  = [ Memory.mkRow "Uber *Trip" "Transport" "UBER *TRIP";
      Memory.mkRow "Starbucks Coffee" "Other" "STARBUCKS COFFEE" ].
Proof. reflexivity. Qed.

(** ** The merchant memory: persistence *)
Section StoreFacts.
Import PyStr Memory.
Variable file : Type.
Variable to_csv : list (string * string) -> file.
Variable read_csv : file -> list (string * string).

Lemma learn_df_derived (df : list row) (m c : string) :
  derived df -> derived (learn_df df m c).
Proof.
  intros Hd. unfold learn_df.
  destruct (existsb _ _).
  - apply Forall_map. eapply Forall_impl; [|exact Hd].
    intros r Hr. simpl. destruct (String.eqb _ _); exact Hr.
  - apply Forall_app. split; [exact Hd|]. repeat constructor.
Qed.

Lemma learn_all_map_df (self : categorizer file) (calls : list (string * string)) :
  map_df (learn_all file to_csv self calls) = learn_all_df (map_df self) calls.
Proof.
  unfold learn_all, learn_all_df. revert self.
  induction calls as [|[m c] rest IH]; intros self; [reflexivity|].
  cbn [fold_left]. rewrite IH. reflexivity.
Qed.

(** Every [learn] ends with [save]: the file holds the two essential
    columns of the frame. *)
Lemma learn_all_disk (self : categorizer file) (calls : list (string * string)) :
  disk self = Some (to_csv (essential (map_df self))) ->
  disk (learn_all file to_csv self calls)
  = Some (to_csv (essential (map_df (learn_all file to_csv self calls)))).
Proof.
  unfold learn_all. revert self.
  induction calls as [|[m c] rest IH]; intros self Hd; [exact Hd|].
  cbn [fold_left]. apply IH. reflexivity.
Qed.

Lemma learn_all_df_derived (df : list row) (calls : list (string * string)) :
  derived df -> derived (learn_all_df df calls).
Proof.
  revert df. induction calls as [|[m c] rest IH]; intros df Hd; simpl; auto.
  apply IH. now apply learn_df_derived.
Qed.

Lemma learn_all_df_unique (df : list row) (calls : list (string * string)) :
  NoDup (keys df) -> NoDup (keys (learn_all_df df calls)).
Proof.
  revert df. induction calls as [|[m c] rest IH]; intros df Hd; simpl; auto.
  apply IH. now apply learn_df_unique.
Qed.

(** Reading back a file that holds the essential columns of a frame whose
    derived column is right gives the frame again. *)
Lemma reload_frame (df : list row) :
  derived df ->
  read_csv (to_csv (essential df)) = essential df ->
  map_df (_load_map file to_csv read_csv (Some (to_csv (essential df)))) = df.
Proof.
  intros Hd Hrt. unfold _load_map. rewrite Hrt. simpl.
  assert (H : map (fun p => mkRow (fst p) (snd p) (strip (upper (fst p)))) (essential df) = df).
  { unfold essential. rewrite map_map. rewrite <- (map_id df) at 2.
    apply map_ext_in. intros r Hr. simpl.
    pose proof (proj1 (Forall_forall _ _) Hd r Hr) as E. simpl in E.
    destruct r as [a b n]. simpl in *. unfold normalize in E. now rewrite <- E. }
  destruct (essential df) eqn:Ee; [|exact H].
  destruct df; [reflexivity | discriminate].
Qed.
(** Reloading gives the records the reader returns, with the derived
    column computed from their merchant column. *)
Lemma reload_essential (f : file) :
  essential (map_df (_load_map file to_csv read_csv (Some f))) = read_csv f /\
  derived (map_df (_load_map file to_csv read_csv (Some f))).
Proof.
  unfold _load_map. destruct (read_csv f) as [|p ps]; simpl.
  - split; constructor.
  - split.
    + destruct p. simpl. f_equal. unfold essential. rewrite map_map. simpl.
      rewrite <- (map_id ps) at 2. apply map_ext. now intros [a b].
    + constructor; [reflexivity|]. apply Forall_map, Forall_forall.
      intros q _. reflexivity.
Qed.

(** Every [learn] call ends with [save]. *)
Lemma learn_all_saved (self : categorizer file) (calls : list (string * string)) :
  calls <> [] ->
  disk (learn_all file to_csv self calls)
  = Some (to_csv (essential (map_df (learn_all file to_csv self calls)))).
Proof.
  destruct calls as [|[m c] rest]; [congruence|]. intros _.
  change (learn_all file to_csv self ((m, c) :: rest))
    with (learn_all file to_csv (learn file to_csv self m c) rest).
  apply learn_all_disk. reflexivity.
Qed.
End StoreFacts.

(** C6, on the code.  Starting from a fresh store, after any sequence of
    [learn] calls the file holds exactly the two essential columns of the
    frame, and the frame has one record per distinct normalized key of the
    calls.  Reloading gives the records that [pd.read_csv] returns for that
    file, with the derived column computed from them: they are the records
    written exactly when the reader returns the text that was written.  It
    does not for a merchant made of digits: [007] is written as it is, the
    reader types the column as integers, and the record comes back with
    merchant [7] and key [7]. *)
Theorem reload_gives_what_read_csv_returns
        (file : Type)
        (to_csv : list (string * string) -> file)
        (read_csv : file -> list (string * string))
        (calls : list (string * string)) :
  (let st := Memory.learn_all file to_csv
               (Memory._load_map file to_csv read_csv None) calls in
   let reloaded := Memory._load_map file to_csv read_csv (Memory.disk st) in
   Memory.disk st = Some (to_csv (Memory.essential (Memory.map_df st))) /\
   Memory.keys (Memory.map_df st)
   = App.drop_duplicates (map (fun mc => Memory.normalize (fst mc)) calls) /\
   NoDup (Memory.keys (Memory.map_df st)) /\
   Memory.essential (Memory.map_df reloaded)
   = read_csv (to_csv (Memory.essential (Memory.map_df st))) /\
   Memory.derived (Memory.map_df reloaded) /\
   (Memory.map_df reloaded = Memory.map_df st <->
    read_csv (to_csv (Memory.essential (Memory.map_df st)))
    = Memory.essential (Memory.map_df st))) /\
  (let st := Memory.learn string Samples.to_csv_text
               (Memory._load_map string Samples.to_csv_text Samples.read_csv_typed None)
               "007" "Shopping" in
   let reloaded := Memory._load_map string Samples.to_csv_text Samples.read_csv_typed
                     (Memory.disk st) in
   Memory.map_df st = [ Memory.mkRow "007" "Shopping" "007" ] /\
   Memory.disk st = Some (Samples.to_csv_text [ ("007", "Shopping") ]) /\
   Memory.map_df reloaded = [ Memory.mkRow "7" "Shopping" "7" ] /\
   Memory.essential (Memory.map_df reloaded) <> Memory.essential (Memory.map_df st)).
Proof.
  split.
  - intros st reloaded.
    assert (Hdisk : Memory.disk st
                    = Some (to_csv (Memory.essential (Memory.map_df st)))).
    { unfold st. apply learn_all_disk. reflexivity. }
    assert (Hdf : Memory.map_df st = Memory.learn_all_df [] calls).
    { unfold st. rewrite learn_all_map_df. reflexivity. }
    assert (Hder : Memory.derived (Memory.map_df st)).
    { rewrite Hdf. apply learn_all_df_derived. constructor. }
    destruct (reload_essential file to_csv read_csv
                (to_csv (Memory.essential (Memory.map_df st)))) as [Hess Hder'].
    split; [exact Hdisk|]. split; [|split; [|split; [|split; [|split]]]].
    + rewrite Hdf. rewrite (learn_all_df_keys calls [] []); [reflexivity|].
      intros x. simpl. tauto.
    + rewrite Hdf. apply learn_all_df_unique. constructor.
    + unfold reloaded. rewrite Hdisk. exact Hess.
    + unfold reloaded. rewrite Hdisk. exact Hder'.
    + intros Heq. unfold reloaded in Heq. rewrite Hdisk in Heq.
      rewrite <- Hess, Heq. reflexivity.
    + intros Hrt. unfold reloaded. rewrite Hdisk. now apply reload_frame.
  - intros st reloaded.
    split; [reflexivity|]. split; [reflexivity|]. split; [reflexivity|].
    discriminate.
Qed.

Example reload_sample :
  let st := Memory.learn_all string Samples.to_csv_text
              (Memory._load_map string Samples.to_csv_text Samples.read_csv_text None)
              Samples.sample_calls in
  Memory.map_df (Memory._load_map string Samples.to_csv_text Samples.read_csv_text
                                  (Memory.disk st))
  = [ Memory.mkRow "Starbucks Coffee" "Other" "STARBUCKS COFFEE";
      Memory.mkRow "Uber *Trip" "Transport" "UBER *TRIP" ].
Proof. reflexivity. Qed.

(** ** The online guesser *)
Section GuesserFacts.
Import PyStr Json Keywords Online.
Variable w : world.
Variable py_str : json -> string.

(** The place lookup is one request, whatever comes back. *)
Lemma osm_hint_log (name : string) (log : list event) :
  snd (osm_hint w py_str name log) = OsmGet name :: log.
Proof.
  unfold osm_hint, bind, call, lift, ret. simpl.
  destruct (session_get w (length log) name) as [r|e]; simpl; [|reflexivity].
  destruct (negb (status_code r =? 200)%Z); simpl; [reflexivity|].
  destruct (json_body r) as [items|e]; simpl; [|reflexivity].
  destruct (negb (truthy items)); simpl; [reflexivity|].
  destruct (subscript0 items) as [item|e]; simpl; [|reflexivity].
  destruct (get item "display_name") as [d|e]; simpl; [|reflexivity].
  destruct (get item "class") as [c|e]; simpl; [|reflexivity].
  destruct (get item "type") as [t|e]; simpl; reflexivity.
Qed.

(** [_from_osm] in terms of the hint: no exception leaves it. *)
Lemma _from_osm_eq (name : string) (log : list event) :
  _from_osm w py_str name log
  = (Ok (osm_answer w py_str name log), OsmGet name :: log).
Proof.
  pose proof (osm_hint_log name log) as Hlog.
  unfold _from_osm, osm_answer, try_except, bind, ret.
  destruct (osm_hint w py_str name log) as [[[text|]|e] log']; simpl in *;
    subst log'; reflexivity.
Qed.

(** The summary lookup is a search, followed by a page request when the
    search found a title. *)
Lemma wikipedia_text_log (name : string) (log : list event) :
  exists events,
    snd (wikipedia_text w name log) = events ++ WikiSearch name :: log /\
    Forall (fun e => is_wiki_event e = true) events.
Proof.
  unfold wikipedia_text, bind, call, lift, ret. simpl.
  destruct (wikipedia_search w (length log) name) as [[|title rest]|e]; simpl;
    try (exists []; split; [reflexivity | constructor]).
  exists [WikiPage title].
  destruct (wikipedia_page w (S (length log)) title) as [p|e]; simpl;
    [destruct (summary p) as [s|e]; simpl|];
    (split; [reflexivity | repeat constructor]).
Qed.

Lemma _from_wikipedia_eq (name : string) (log : list event) :
  exists events,
    _from_wikipedia w name log
    = (Ok (wikipedia_answer w name log), events ++ WikiSearch name :: log) /\
    Forall (fun e => is_wiki_event e = true) events.
Proof.
  destruct (wikipedia_text_log name log) as (events & Hlog & Hev).
  exists events. split; [|exact Hev].
  unfold _from_wikipedia, wikipedia_answer, try_except, bind, ret.
  destruct (wikipedia_text w name log) as [[[text|]|e] log']; simpl in *;
    subst log'; reflexivity.
Qed.

(** Every category of the rule list is a non-empty string. *)
Lemma keyword_scan_truthy (text c : string) :
  keyword_scan text = Some c -> nonempty c = true.
Proof.
  intros H. apply scan_in in H. simpl in H.
  repeat (destruct H as [<-|H]; [reflexivity|]). destruct H.
Qed.

Lemma guess_eq (name : string) (log : list event) :
  guess w py_str name log
  = match osm_answer w py_str name (Sleep :: log) with
    | Some c => (Ok (Some c), OsmGet name :: Sleep :: log)
    | None => _from_wikipedia w name (OsmGet name :: Sleep :: log)
    end.
Proof.
  unfold guess, bind, call. simpl.
  rewrite _from_osm_eq.
  destruct (osm_answer w py_str name (Sleep :: log)) as [c|] eqn:E; simpl; [|reflexivity].
  unfold osm_answer in E.
  destruct (fst (osm_hint w py_str name (Sleep :: log))) as [[text|]|e];
    try discriminate.
  now rewrite (keyword_scan_truthy text c E).
Qed.
End GuesserFacts.

Section GuesserClaims.
Import PyStr Json Keywords Online.
Variable w : world.
Variable py_str : json -> string.

Lemma osm_answer_in_rules (name : string) (log : list event) (c : string) :
  osm_answer w py_str name log = Some c -> In c (map snd KEYWORDS_TO_CATEGORY).
Proof.
  unfold osm_answer.
  destruct (fst (osm_hint w py_str name log)) as [[text|]|e]; try discriminate.
  apply scan_in.
Qed.

Lemma wikipedia_answer_in_rules (name : string) (log : list event) (c : string) :
  wikipedia_answer w name log = Some c -> In c (map snd KEYWORDS_TO_CATEGORY).
Proof.
  unfold wikipedia_answer.
  destruct (fst (wikipedia_text w name log)) as [[text|]|e]; try discriminate.
  apply scan_in.
Qed.

(** [guess] never raises, and a category it returns is a category of the
    rule list. *)
Lemma guess_value (name : string) (log : list event) :
  exists r,
    fst (guess w py_str name log) = Ok r /\
    forall c, r = Some c -> In c (map snd KEYWORDS_TO_CATEGORY).
Proof.
  rewrite guess_eq.
  destruct (osm_answer w py_str name (Sleep :: log)) as [c|] eqn:E.
  - exists (Some c). split; [reflexivity|].
    intros c' [= <-]. eapply osm_answer_in_rules; eassumption.
  - destruct (_from_wikipedia_eq w name (OsmGet name :: Sleep :: log))
      as (events & -> & _).
    exists (wikipedia_answer w name (OsmGet name :: Sleep :: log)).
    split; [reflexivity|]. intros c. apply wikipedia_answer_in_rules.
Qed.

(** C9.  [guess] returns [None] or one of the nine categories of the
    keyword rules; it never returns ["Income"], ["Other"] or
    ["Uncategorized"], and it never raises. *)
Theorem guess_returns_none_or_rule_category (name : string) (log : list event) :
  map snd KEYWORDS_TO_CATEGORY
  = [ "Groceries"; "Food & Drink"; "Transport"; "Health"; "Travel";
      "Entertainment"; "Bills & Utilities"; "Education"; "Shopping" ] /\
  (exists r,
      fst (guess w py_str name log) = Ok r /\
      (r = None \/
       exists c, r = Some c /\ In c (map snd KEYWORDS_TO_CATEGORY))) /\
  fst (guess w py_str name log) <> Ok (Some "Income") /\
  fst (guess w py_str name log) <> Ok (Some "Other") /\
  fst (guess w py_str name log) <> Ok (Some "Uncategorized").
Proof.
  destruct (guess_value name log) as (r & Hr & Hin).
  split; [reflexivity|]. split.
  - exists r. split; [exact Hr|].
    destruct r as [c|]; [right; exists c; auto | now left].
  - rewrite Hr.
    repeat split; intros [= ->];
      specialize (Hin _ eq_refl); simpl in Hin;
      repeat (destruct Hin as [Hin|Hin]; [discriminate|]); destruct Hin.
Qed.

(** C5 (amended).  [guess] sleeps, asks the place source, and only then
    may ask the encyclopedic source.  The second source is skipped exactly
    when the first one gives a category, that is when the keyword scan of
    its text finds a rule; when the place source gives no category, also
    when it produced a text that no rule matches, the encyclopedic source
    is searched and its answer is the result. *)
Theorem guess_short_circuits_on_category (name : string) (log : list event) :
  exists wiki_events,
    snd (guess w py_str name log) = wiki_events ++ OsmGet name :: Sleep :: log /\
    Forall (fun e => is_wiki_event e = true) wiki_events /\
    match osm_answer w py_str name (Sleep :: log) with
    | Some c =>
        wiki_events = [] /\ fst (guess w py_str name log) = Ok (Some c)
    | None =>
        (exists later, wiki_events = later ++ [WikiSearch name]) /\
        fst (guess w py_str name log)
        = Ok (wikipedia_answer w name (OsmGet name :: Sleep :: log))
    end.
Proof.
  rewrite guess_eq.
  destruct (osm_answer w py_str name (Sleep :: log)) as [c|] eqn:E.
  - exists []. repeat split; constructor.
  - destruct (_from_wikipedia_eq w name (OsmGet name :: Sleep :: log))
      as (events & -> & Hev).
    exists (events ++ [WikiSearch name]). simpl. repeat split.
    + now rewrite <- app_assoc.
    + apply Forall_app. split; [exact Hev | repeat constructor].
    + exists events. reflexivity.
Qed.
End GuesserClaims.

(** C5 as stated fails: the place source produces a text, no rule matches
    it, and the encyclopedic source is consulted all the same. *)
Lemma place_text_does_not_stop_summary_lookup :
  fst (Online.osm_hint Samples.street_world Samples.no_str "Main St Parking"
                       [Online.Sleep])
  = Ok (Some "Main Street highway residential") /\
  In (Online.WikiSearch "Main St Parking")
     (snd (Online.guess Samples.street_world Samples.no_str "Main St Parking" [])).
Proof. split; [reflexivity | simpl; auto]. Qed.

(** ** Frame operations of the resolution steps *)
Section FrameFacts.
Import App.

Lemma any_spec (mask : list bool) : any mask = true <-> In true mask.
Proof.
  unfold any. rewrite existsb_exists. split.
  - intros (b & Hb & ->). exact Hb.
  - intros H. exists true. auto.
Qed.

Lemma loc_In {A} (mask : list bool) (col : list A) (x : A) :
  In x (loc mask col) <->
  exists i, nth_error mask i = Some true /\ nth_error col i = Some x.
Proof.
  revert col. induction mask as [|b mask IH]; intros col; simpl.
  - split; [intros [] | intros ([|i] & H & _); discriminate].
  - destruct col as [|y col].
    + split; [intros [] | intros ([|i] & _ & H); discriminate].
    + split.
      * destruct b; simpl.
        -- intros [<-|H]; [exists 0%nat; auto|].
           apply IH in H. destruct H as (i & H1 & H2). exists (S i); auto.
        -- intros H. apply IH in H. destruct H as (i & H1 & H2). exists (S i); auto.
      * intros ([|i] & H1 & H2); simpl in *.
        -- injection H1 as ->. injection H2 as ->. now left.
        -- assert (In x (loc mask col)) by (apply IH; eauto).
           destruct b; simpl; auto.
Qed.

Lemma drop_duplicates_from_In (l seen : list string) (x : string) :
  In x (drop_duplicates_from seen l) <-> In x l /\ ~ In x seen.
Proof.
  revert seen. induction l as [|y ys IH]; intros seen; simpl.
  - tauto.
  - destruct (existsb (String.eqb y) seen) eqn:E.
    + apply seen_spec in E. rewrite IH. split.
      * tauto.
      * intros [[<-|H] Hn]; [contradiction | auto].
    + assert (Hy : ~ In y seen).
      { intros H. apply seen_spec in H. congruence. }
      simpl. rewrite IH. simpl. split.
      * intros [<-|[H Hn]]; [auto | tauto].
      * intros [[<-|H] Hn]; [now left|].
        destruct (string_dec y x) as [->|Hne]; [now left | right; tauto].
Qed.

Lemma drop_duplicates_from_NoDup (l seen : list string) :
  NoDup (drop_duplicates_from seen l).
Proof.
  revert seen. induction l as [|y ys IH]; intros seen; simpl.
  - constructor.
  - destruct (existsb (String.eqb y) seen); [apply IH|].
    constructor; [|apply IH].
    rewrite drop_duplicates_from_In. simpl. tauto.
Qed.

Lemma drop_duplicates_In (l : list string) (x : string) :
  In x (drop_duplicates l) <-> In x l.
Proof.
  unfold drop_duplicates. rewrite drop_duplicates_from_In. simpl. tauto.
Qed.

Lemma drop_duplicates_NoDup (l : list string) : NoDup (drop_duplicates l).
Proof. apply drop_duplicates_from_NoDup. Qed.

(** The lines selected by the mask of the unknown categories: a merchant
    is selected as often as it occurs, or not at all. *)
Lemma count_unknown (f : string -> option string) (ms : list string) (m : string) :
  count_occ string_dec (loc (map isna (map f ms)) ms) m
  = if isna (f m) then count_occ string_dec ms m else 0%nat.
Proof.
  induction ms as [|x xs IH]; simpl.
  - now destruct (isna (f m)).
  - destruct (string_dec x m) as [->|Hne].
    + destruct (isna (f m)) eqn:E; simpl.
      * destruct (string_dec m m); [|contradiction]. now rewrite IH.
      * exact IH.
    + destruct (isna (f x)); simpl.
      * destruct (string_dec x m); [contradiction|]. exact IH.
      * exact IH.
Qed.

(** Assigning to the unknown lines the value a function gives for their
    merchant makes the column a function of the merchant. *)
Lemma loc_assign_by_merchant (f g : string -> option string) (ms : list string) :
  loc_assign (map isna (map f ms)) (map f ms)
             (map g (loc (map isna (map f ms)) ms))
  = map (fun m => match f m with Some c => Some c | None => g m end) ms.
Proof.
  induction ms as [|x xs IH]; simpl; [reflexivity|].
  destruct (f x) as [c|] eqn:E; simpl; now rewrite IH.
Qed.

Lemma loc_assign_length {A} (mask : list bool) (col values : list A) :
  length (loc_assign mask col values) = length col.
Proof.
  revert col values. induction mask as [|b mask IH]; intros col values; simpl.
  - reflexivity.
  - destruct b, col as [|x col]; simpl; auto.
    destruct values; simpl; now rewrite IH.
Qed.
End FrameFacts.

(** ** The resolution steps *)
Section PipelineFacts.
Import PyStr Json Keywords Memory Online App.
Variable token_set_ratio : string -> string -> Z.
Variable w : world.
Variable py_str : json -> string.

Lemma osm_answer_stable (name : string) (log1 log2 : list event) :
  stable w ->
  osm_answer w py_str name log1 = osm_answer w py_str name log2.
Proof.
  intros (Hs & _ & _).
  unfold osm_answer, osm_hint, bind, call, lift, ret. simpl.
  rewrite (Hs (length log1) (length log2) name).
  destruct (session_get w (length log2) name) as [r|e]; simpl; [|reflexivity].
  destruct (negb (status_code r =? 200)%Z); simpl; [reflexivity|].
  destruct (json_body r) as [items|e]; simpl; [|reflexivity].
  destruct (negb (truthy items)); simpl; [reflexivity|].
  destruct (subscript0 items) as [item|e]; simpl; [|reflexivity].
  destruct (get item "display_name") as [d|e]; simpl; [|reflexivity].
  destruct (get item "class") as [c|e]; simpl; [|reflexivity].
  destruct (get item "type") as [t|e]; simpl; reflexivity.
Qed.

Lemma wikipedia_answer_stable (name : string) (log1 log2 : list event) :
  stable w ->
  wikipedia_answer w name log1 = wikipedia_answer w name log2.
Proof.
  intros (_ & Hs & Hp).
  unfold wikipedia_answer, wikipedia_text, bind, call, lift, ret. simpl.
  rewrite (Hs (length log1) (length log2) name).
  destruct (wikipedia_search w (length log2) name) as [[|title rest]|e]; simpl;
    try reflexivity.
  rewrite (Hp (S (length log1)) (S (length log2)) title).
  destruct (wikipedia_page w (S (length log2)) title) as [p|e]; simpl; [|reflexivity].
  destruct (summary p) as [s|e]; simpl; reflexivity.
Qed.

(** What a call of [guess] adds to the log. *)
Lemma guess_trace (name : string) (log : list event) :
  exists wiki_events,
    snd (guess w py_str name log) = wiki_events ++ OsmGet name :: Sleep :: log /\
    Forall (fun e => is_wiki_event e = true) wiki_events.
Proof.
  rewrite guess_eq.
  destruct (osm_answer w py_str name (Sleep :: log)) as [c|].
  - exists []. split; [reflexivity | constructor].
  - destruct (_from_wikipedia_eq w name (OsmGet name :: Sleep :: log))
      as (events & -> & Hev).
    exists (events ++ [WikiSearch name]). simpl. split.
    + now rewrite <- app_assoc.
    + apply Forall_app. split; [exact Hev | repeat constructor].
Qed.

Lemma wiki_events_no_lookup (m : string) (events : list event) :
  Forall (fun e => is_wiki_event e = true) events ->
  filter (is_lookup m) events = [].
Proof.
  induction 1 as [|e es He _ IH]; simpl; [reflexivity|].
  destruct e; simpl in *; try discriminate; exact IH.
Qed.

(** A call of [guess] is one external lookup of its argument. *)
Lemma guess_lookups (name m : string) (log : list event) :
  lookups m (snd (guess w py_str name log))
  = (lookups m log + if string_dec name m then 1 else 0)%nat.
Proof.
  destruct (guess_trace name log) as (events & -> & Hev).
  unfold lookups. rewrite filter_app, length_app.
  rewrite (wiki_events_no_lookup m events Hev). simpl.
  destruct (String.eqb_spec name m) as [E|E];
    destruct (string_dec name m); try contradiction; simpl; lia.
Qed.

(** With services that always answer alike, the result of [guess] is a
    function of the name. *)
Lemma guess_stable (name : string) (log : list event) :
  stable w ->
  fst (guess w py_str name log) = Ok (from_online w py_str name).
Proof.
  intros Hs.
  assert (E : fst (guess w py_str name log) = fst (guess w py_str name [])).
  { rewrite !guess_eq.
    rewrite (osm_answer_stable name (Sleep :: log) [Sleep] Hs).
    destruct (osm_answer w py_str name [Sleep]); [reflexivity|].
    destruct (_from_wikipedia_eq w name (OsmGet name :: Sleep :: log))
      as (e1 & -> & _).
    destruct (_from_wikipedia_eq w name [OsmGet name; Sleep]) as (e2 & -> & _).
    simpl. f_equal. now apply wikipedia_answer_stable. }
  unfold from_online. rewrite E.
  destruct (guess_value w py_str name []) as (r & -> & _). reflexivity.
Qed.
End PipelineFacts.

Section ResolveFacts.
Import PyStr Json Keywords Memory Online App.
Variable token_set_ratio : string -> string -> Z.
Variable w : world.
Variable py_str : json -> string.
Variable file : Type.
Variable to_csv : list (string * string) -> file.
Variable selectbox : nat -> list string -> nat -> string.
Variable button : nat -> bool.
Variable enable_online : bool.

Hypothesis scores_not_negative : forall q c, (0 <= token_set_ratio q c)%Z.

Lemma get_category_ok (df : list row) (m : string) :
  get_category token_set_ratio df m = Ok (from_memory token_set_ratio df m).
Proof.
  unfold from_memory. destruct df as [|r rs]; [reflexivity|].
  destruct (get_category_nonempty token_set_ratio (r :: rs) m scores_not_negative)
    as (b & x & a & _ & _ & _ & ->); [discriminate | reflexivity].
Qed.

Lemma step_memory_ok (cat : categorizer file) (ms : list string) :
  step_memory token_set_ratio file cat ms
  = Ok (map (from_memory token_set_ratio (map_df cat)) ms).
Proof.
  unfold step_memory. induction ms as [|m ms IH]; simpl; [reflexivity|].
  now rewrite get_category_ok, IH.
Qed.

(** [guess] over a column: one result and one lookup per line. *)
Lemma apply_io_guess (g : string -> option string) (l : list string)
      (log : list event) :
  exists rs log',
    apply_io (guess w py_str) l log = (Ok rs, log') /\
    length rs = length l /\
    (forall m, lookups m log' = (lookups m log + count_occ string_dec l m)%nat) /\
    ((forall name lg, fst (guess w py_str name lg) = Ok (g name)) -> rs = map g l).
Proof.
  revert log. induction l as [|x xs IH]; intros log; simpl.
  - exists [], log. repeat split; auto.
  - unfold bind.
    destruct (guess_value w py_str x log) as (r & Hr & _).
    pose proof (guess_lookups w py_str x) as Hl.
    destruct (guess w py_str x log) as [v log1] eqn:G. simpl in Hr. subst v.
    destruct (IH log1) as (rs & log2 & -> & Hlen & Hcount & Hg).
    exists (r :: rs), log2. unfold ret. repeat split.
    + simpl. now rewrite Hlen.
    + intros m. rewrite Hcount. specialize (Hl m log). rewrite G in Hl.
      simpl in Hl. rewrite Hl. destruct (string_dec x m); lia.
    + intros Hdet. rewrite (Hg Hdet). f_equal.
      specialize (Hdet x log). rewrite G in Hdet. simpl in Hdet. congruence.
Qed.

Lemma loc_none {A} (mask : list bool) (col : list A) :
  any mask = false -> loc mask col = [].
Proof.
  revert col. induction mask as [|b mask IH]; intros col H; simpl; [reflexivity|].
  destruct col as [|x col]; [reflexivity|].
  unfold any in H. simpl in H. apply orb_false_iff in H. destruct H as [-> H].
  now apply IH.
Qed.

Lemma all_known (f g : string -> option string) (ms : list string) :
  any (map isna (map f ms)) = false ->
  map f ms = map (fun m => match f m with Some c => Some c | None => g m end) ms.
Proof.
  induction ms as [|m ms IH]; simpl; [reflexivity|].
  unfold any. simpl. intros H. apply orb_false_iff in H. destruct H as [H1 H2].
  rewrite (IH H2). destruct (f m); [reflexivity | discriminate].
Qed.

(** The online step on the column the saved map produced. *)
Lemma step_online_spec (f : string -> option string) (ms : list string)
      (log : list event) :
  exists categories log',
    step_online w py_str enable_online ms (map f ms) log = (Ok categories, log') /\
    length categories = length ms /\
    (forall m, lookups m log'
               = (lookups m log +
                  if enable_online
                  then (if isna (f m) then count_occ string_dec ms m else 0)
                  else 0)%nat) /\
    (enable_online = false -> categories = map f ms) /\
    (forall g, (forall name lg, fst (guess w py_str name lg) = Ok (g name)) ->
               enable_online = true ->
               categories
               = map (fun m => match f m with Some c => Some c | None => g m end) ms).
Proof.
  unfold step_online. destruct enable_online.
  - destruct (any (map isna (map f ms))) eqn:Hany.
    + unfold bind.
      destruct (apply_io_guess (fun _ => None) (loc (map isna (map f ms)) ms) log)
        as (rs & log' & Happ & Hlen & Hcount & _).
      rewrite Happ. unfold ret.
      exists (loc_assign (map isna (map f ms)) (map f ms) rs), log'.
      repeat split.
      * rewrite loc_assign_length. apply length_map.
      * intros m. rewrite Hcount. now rewrite count_unknown.
      * discriminate.
      * intros g Hdet _.
        destruct (apply_io_guess g (loc (map isna (map f ms)) ms) log)
          as (rs' & log'' & Happ' & _ & _ & Hg).
        rewrite Happ in Happ'. injection Happ' as <- <-.
        rewrite (Hg Hdet). apply loc_assign_by_merchant.
    + exists (map f ms), log. unfold ret.
      split; [reflexivity|]. split; [apply length_map|]. split; [|split].
      * intros m. rewrite <- count_unknown. rewrite (loc_none _ _ Hany). simpl. lia.
      * reflexivity.
      * intros g _ _. now apply all_known.
  - exists (map f ms), log. unfold ret.
    split; [reflexivity|]. split; [apply length_map|]. split; [|split].
    + intros m. lia.
    + reflexivity.
    + discriminate.
Qed.

(** The manual step: one expander per line of [unk_df], in order, and one
    more lookup per expander when the online guesser is enabled. *)
Lemma manual_loop_spec (unk : list string) (i : nat) (cat : categorizer file)
      (log : list event) :
  exists prompts cat' log',
    manual_loop w py_str file to_csv selectbox button enable_online i unk cat log
    = (Ok (prompts, cat'), log') /\
    map p_merchant prompts = unk /\
    (forall m, lookups m log'
               = (lookups m log +
                  if enable_online then count_occ string_dec unk m else 0)%nat).
Proof.
  revert i cat log. induction unk as [|x xs IH]; intros i cat log; simpl.
  - exists [], cat, log. unfold ret. repeat split. intros m.
    destruct enable_online; lia.
  - unfold bind. destruct enable_online eqn:En.
    + destruct (guess_value w py_str x log) as (r & Hr & _).
      pose proof (guess_lookups w py_str x) as Hl.
      destruct (guess w py_str x log) as [v log1] eqn:G. simpl in Hr. subst v.
      match goal with
      | |- context [manual_loop _ _ _ _ _ _ _ (S i) xs ?c log1] =>
          destruct (IH (S i) c log1) as (ps & cat' & log2 & -> & Hm & Hcount)
      end.
      unfold ret. simpl. eexists _, cat', log2. repeat split.
      * simpl. now rewrite Hm.
      * intros m. rewrite Hcount. specialize (Hl m log). rewrite G in Hl.
        simpl in Hl. rewrite Hl. destruct (string_dec x m); lia.
    + unfold ret at 1.
      match goal with
      | |- context [manual_loop _ _ _ _ _ _ _ (S i) xs ?c log] =>
          destruct (IH (S i) c log) as (ps & cat' & log2 & -> & Hm & Hcount)
      end.
      unfold ret. simpl. eexists _, cat', log2. repeat split.
      * simpl. now rewrite Hm.
      * intros m. rewrite Hcount. lia.
Qed.
End ResolveFacts.

Section ResolveSpec.
Import PyStr Json Keywords Memory Online App.
Variable token_set_ratio : string -> string -> Z.
Variable w : world.
Variable py_str : json -> string.
Variable file : Type.
Variable to_csv : list (string * string) -> file.
Variable selectbox : nat -> list string -> nat -> string.
Variable button : nat -> bool.
Variable enable_online : bool.

Hypothesis scores_not_negative : forall q c, (0 <= token_set_ratio q c)%Z.

(** One run of the resolution steps: it ends without an exception, and the
    category column, the expanders and the lookups are as follows. *)
Lemma resolve_spec (cat : categorizer file) (ms : list string) (log : list event) :
  exists categories prompts cat' log',
    resolve token_set_ratio w py_str file to_csv selectbox button enable_online
            cat ms log
    = (Ok (categories, prompts, cat'), log') /\
    length categories = length ms /\
    map p_merchant prompts = drop_duplicates (loc (map isna categories) ms) /\
    (forall m,
        lookups m log'
        = (lookups m log +
           if enable_online
           then (if isna (from_memory token_set_ratio (map_df cat) m)
                 then count_occ string_dec ms m else 0)
                + count_occ string_dec (map p_merchant prompts) m
           else 0)%nat) /\
    (enable_online = false ->
     categories = map (from_memory token_set_ratio (map_df cat)) ms) /\
    (forall g,
        (forall name lg, fst (guess w py_str name lg) = Ok (g name)) ->
        enable_online = true ->
        categories
        = map (fun m => match from_memory token_set_ratio (map_df cat) m with
                        | Some c => Some c
                        | None => g m
                        end) ms).
Proof.
  unfold resolve, bind, lift.
  rewrite (step_memory_ok token_set_ratio file scores_not_negative).
  destruct (step_online_spec w py_str enable_online
              (from_memory token_set_ratio (map_df cat)) ms log)
    as (categories & log1 & -> & Hlen & Hcount & Hoff & Hon).
  destruct (any (map isna categories)) eqn:Hany.
  - destruct (manual_loop_spec w py_str file to_csv selectbox button enable_online
                (drop_duplicates (loc (map isna categories) ms)) 0 cat log1)
      as (prompts & cat' & log2 & -> & Hm & Hcount2).
    unfold ret. simpl. exists categories, prompts, cat', log2.
    split; [reflexivity|]. split; [exact Hlen|]. split; [exact Hm|].
    split; [|split; assumption].
    intros m. rewrite Hcount2, Hcount, Hm. destruct enable_online; lia.
  - unfold ret. exists categories, [], cat, log1.
    split; [reflexivity|]. split; [exact Hlen|].
    split; [now rewrite (loc_none _ _ Hany)|].
    split; [|split; assumption].
    intros m. rewrite Hcount. simpl. destruct enable_online; lia.
Qed.

(** The expanders are the merchants of the lines left without category. *)
Lemma unknown_merchants (categories : list (option string)) (ms : list string)
      (m : string) :
  In m (drop_duplicates (loc (map isna categories) ms)) <->
  exists i, nth_error ms i = Some m /\ nth_error categories i = Some None.
Proof.
  rewrite drop_duplicates_In, loc_In. split.
  - intros (i & Hmask & Hm). exists i. split; [exact Hm|].
    rewrite nth_error_map in Hmask.
    destruct (nth_error categories i) as [[c|]|]; simpl in Hmask;
      try discriminate; reflexivity.
  - intros (i & Hm & Hc). exists i. split; [|exact Hm].
    rewrite nth_error_map, Hc. reflexivity.
Qed.

Lemma count_occ_NoDup_dec (l : list string) (m : string) :
  NoDup l ->
  count_occ string_dec l m = if in_dec string_dec m l then 1%nat else 0%nat.
Proof.
  intros Hnd. destruct (in_dec string_dec m l) as [Hin|Hin].
  - now apply count_occ_unique.
  - now apply count_occ_not_In.
Qed.

Lemma osm_fails_answer (name : string) (log : list event) :
  osm_fails w -> osm_answer w py_str name log = None.
Proof.
  intros Hf. specialize (Hf (length log) name).
  unfold osm_answer, osm_hint, bind, call, lift, ret. simpl.
  destruct (session_get w (length log) name) as [r|e]; simpl; [|reflexivity].
  destruct (status_code r =? 200)%Z eqn:Es; simpl; [|reflexivity].
  apply Z.eqb_eq in Es.
  destruct Hf as [Hf|[(e & Hf)|(v & Hf & Hv)]]; [contradiction| |];
    rewrite Hf; simpl; [reflexivity|].
  destruct Hv as [Hv|Hv]; [now rewrite Hv|].
  destruct (negb (truthy v)); simpl; [reflexivity|].
  unfold malformed in Hv.
  destruct (subscript0 v) as [item|e]; simpl; [|reflexivity].
  destruct Hv as (e & ->). reflexivity.
Qed.

Lemma wikipedia_fails_answer (name : string) (log : list event) :
  wikipedia_fails w -> wikipedia_answer w name log = None.
Proof.
  intros Hf. specialize (Hf (length log) name).
  unfold wikipedia_answer, wikipedia_text, bind, call, lift, ret. simpl.
  destruct (wikipedia_search w (length log) name) as [[|title rest]|e]; simpl;
    try reflexivity.
  specialize (Hf (S (length log))).
  destruct (wikipedia_page w (S (length log)) title) as [p|e]; simpl; [|reflexivity].
  destruct Hf as (e & ->). reflexivity.
Qed.

Lemma guess_fails (name : string) (log : list event) :
  osm_fails w -> wikipedia_fails w ->
  fst (guess w py_str name log) = Ok None.
Proof.
  intros Ho Hw. rewrite guess_eq, (osm_fails_answer _ _ Ho).
  destruct (_from_wikipedia_eq w name (OsmGet name :: Sleep :: log))
    as (events & -> & _).
  simpl. now rewrite (wikipedia_fails_answer _ _ Hw).
Qed.
End ResolveSpec.

(** C4 (amended).  A run of the resolution steps ends without an exception.
    The manual step works on distinct merchants: the expanders carry no
    merchant twice, and a merchant has an expander exactly when one of its
    transactions is left without category.  The online step works on
    transactions: a merchant the saved map does not resolve is looked up once
    for each of its transactions, and once more for its expander.
    Transactions sharing a merchant description receive the same category
    when the online step is disabled or the services answer a repeated
    request alike. *)
Theorem prompts_per_merchant_lookups_per_transaction
        (token_set_ratio : string -> string -> Z)
        (w : Online.world) (py_str : Json.json -> string)
        (file : Type) (to_csv : list (string * string) -> file)
        (selectbox : nat -> list string -> nat -> string) (button : nat -> bool)
        (enable_online : bool)
        (cat : Memory.categorizer file) (ms : list string)
        (log : list Online.event) :
  (forall q c, (0 <= token_set_ratio q c)%Z) ->
  exists categories prompts cat' log',
    App.resolve token_set_ratio w py_str file to_csv selectbox button
                enable_online cat ms log
    = (Ok (categories, prompts, cat'), log') /\
    length categories = length ms /\
    NoDup (map App.p_merchant prompts) /\
    (forall m,
        In m (map App.p_merchant prompts) <->
        exists i, nth_error ms i = Some m /\ nth_error categories i = Some None) /\
    (forall m,
        Online.lookups m log'
        = (Online.lookups m log +
           if enable_online
           then (if App.isna (App.from_memory token_set_ratio (Memory.map_df cat) m)
                 then count_occ string_dec ms m else 0)
                + (if in_dec string_dec m (map App.p_merchant prompts) then 1 else 0)
           else 0)%nat) /\
    (enable_online = false \/ Online.stable w ->
     forall i j m,
       nth_error ms i = Some m -> nth_error ms j = Some m ->
       nth_error categories i = nth_error categories j).
Proof.
  intros Hpos.
  destruct (resolve_spec token_set_ratio w py_str file to_csv selectbox button
              enable_online Hpos cat ms log)
    as (categories & prompts & cat' & log' & Hrun & Hlen & Hm & Hcount & Hoff & Hon).
  assert (Hnd : NoDup (map App.p_merchant prompts)).
  { rewrite Hm. apply drop_duplicates_NoDup. }
  exists categories, prompts, cat', log'.
  split; [exact Hrun|]. split; [exact Hlen|]. split; [exact Hnd|].
  split; [|split].
  - intros m. rewrite Hm. apply unknown_merchants.
  - intros m. rewrite Hcount. now rewrite (count_occ_NoDup_dec _ m Hnd).
  - intros Hsame i j m Hi Hj.
    assert (Hfun : exists h : string -> option string, categories = map h ms).
    { destruct enable_online eqn:En.
      - destruct Hsame as [?|Hst]; [discriminate|].
        eexists. apply (Hon (App.from_online w py_str)); [|reflexivity].
        intros name lg. now apply guess_stable.
      - eexists. now apply Hoff. }
    destruct Hfun as (h & ->).
    now rewrite !nth_error_map, Hi, Hj.
Qed.

Lemma prompts_per_merchant_lookups_per_transaction_witness :
  (forall q c, (0 <= Samples.exact_ratio q c)%Z) /\
  exists categories prompts cat' log',
    App.resolve Samples.exact_ratio Samples.offline_world Samples.no_str
                string Samples.to_csv_text
                Samples.keep_preselected Samples.never_pressed true
                Samples.fresh_store Samples.walmart_twice []
    = (Ok (categories, prompts, cat'), log') /\
    length categories = length Samples.walmart_twice /\
    NoDup (map App.p_merchant prompts) /\
    (forall m,
        In m (map App.p_merchant prompts) <->
        exists i, nth_error Samples.walmart_twice i = Some m /\
                  nth_error categories i = Some None) /\
    (forall m,
        Online.lookups m log'
        = (Online.lookups m [] +
           if true
           then (if App.isna (App.from_memory Samples.exact_ratio
                                (Memory.map_df Samples.fresh_store) m)
                 then count_occ string_dec Samples.walmart_twice m else 0)
                + (if in_dec string_dec m (map App.p_merchant prompts) then 1 else 0)
           else 0)%nat) /\
    (true = false \/ Online.stable Samples.offline_world ->
     forall i j m,
       nth_error Samples.walmart_twice i = Some m ->
       nth_error Samples.walmart_twice j = Some m ->
       nth_error categories i = nth_error categories j).
Proof.
  assert (Hpos : forall q c, (0 <= Samples.exact_ratio q c)%Z).
  { intros q c. unfold Samples.exact_ratio. destruct (String.eqb q c); lia. }
  split; [exact Hpos|].
  exact (prompts_per_merchant_lookups_per_transaction
           Samples.exact_ratio Samples.offline_world Samples.no_str
           string Samples.to_csv_text Samples.keep_preselected Samples.never_pressed
           true Samples.fresh_store Samples.walmart_twice [] Hpos).
Defined.

(** C4 as stated fails on the end-to-end scenario: the merchant of two
    transactions is looked up three times, twice by the online step and once
    by its expander, while it gets one expander; and when the place source
    answers the second request differently, the two transactions receive
    different categories. *)
Lemma repeated_merchant_is_looked_up_again :
  let run := App.resolve Samples.exact_ratio Samples.offline_world Samples.no_str
                         string Samples.to_csv_text
                         Samples.keep_preselected Samples.never_pressed true
                         Samples.fresh_store Samples.walmart_twice [] in
  let flaky := App.resolve Samples.exact_ratio Samples.flaky_world Samples.no_str
                           string Samples.to_csv_text
                           Samples.keep_preselected Samples.never_pressed true
                           Samples.fresh_store Samples.walmart_twice [] in
  Online.lookups "WALMART #2291" (snd run) = 3%nat /\
  ~ (Online.lookups "WALMART #2291" (snd run) <= 1)%nat /\
  (exists categories prompts cat',
      fst run = Ok (categories, prompts, cat') /\
      map App.p_merchant prompts = [ "WALMART #2291" ]) /\
  (exists prompts cat',
      fst flaky = Ok ([ None; Some "Groceries" ], prompts, cat')).
Proof.
  cbv zeta. split; [reflexivity|]. split; [|split].
  - intros H. vm_compute in H. lia.
  - eexists _, _, _. split; reflexivity.
  - eexists _, _. reflexivity.
Qed.

(** C3.  When every call of both sources fails (the request raises, the
    status is not 200, the body does not parse or is malformed, the result
    set is empty, the page or its summary cannot be fetched), each
    source returns [None] without raising, [guess] returns [None], and a run
    of the resolution steps ends normally with every merchant the saved map
    does not resolve among the expanders of the manual step. *)
Theorem failing_sources_route_to_manual
        (token_set_ratio : string -> string -> Z)
        (w : Online.world) (py_str : Json.json -> string)
        (file : Type) (to_csv : list (string * string) -> file)
        (selectbox : nat -> list string -> nat -> string) (button : nat -> bool)
        (cat : Memory.categorizer file) (ms : list string)
        (log : list Online.event) :
  (forall q c, (0 <= token_set_ratio q c)%Z) ->
  Online.osm_fails w ->
  Online.wikipedia_fails w ->
  (forall name lg, fst (Online._from_osm w py_str name lg) = Ok None) /\
  (forall name lg, fst (Online._from_wikipedia w name lg) = Ok None) /\
  (forall name lg, fst (Online.guess w py_str name lg) = Ok None) /\
  exists categories prompts cat' log',
    App.resolve token_set_ratio w py_str file to_csv selectbox button true
                cat ms log
    = (Ok (categories, prompts, cat'), log') /\
    categories = map (App.from_memory token_set_ratio (Memory.map_df cat)) ms /\
    forall m,
      In m ms ->
      App.from_memory token_set_ratio (Memory.map_df cat) m = None ->
      In m (map App.p_merchant prompts).
Proof.
  intros Hpos Ho Hw.
  split; [|split; [|split]].
  - intros name lg. rewrite _from_osm_eq. simpl.
    now rewrite (osm_fails_answer w py_str name lg Ho).
  - intros name lg. destruct (_from_wikipedia_eq w name lg) as (events & -> & _).
    simpl. now rewrite (wikipedia_fails_answer w name lg Hw).
  - intros name lg. now apply guess_fails.
  - destruct (resolve_spec token_set_ratio w py_str file to_csv selectbox button
                true Hpos cat ms log)
      as (categories & prompts & cat' & log' & Hrun & Hlen & Hm & _ & _ & Hon).
    assert (Hcat : categories
                   = map (App.from_memory token_set_ratio (Memory.map_df cat)) ms).
    { rewrite (Hon (fun _ => None)); [|intros; now apply guess_fails|reflexivity].
      apply map_ext. intros m.
      now destruct (App.from_memory token_set_ratio (Memory.map_df cat) m). }
    exists categories, prompts, cat', log'.
    split; [exact Hrun|]. split; [exact Hcat|].
    intros m Hin Hmiss. rewrite Hm. apply unknown_merchants.
    apply In_nth_error in Hin. destruct Hin as (i & Hi).
    exists i. split; [exact Hi|].
    rewrite Hcat, nth_error_map, Hi. simpl. now rewrite Hmiss.
Qed.

Lemma failing_sources_route_to_manual_witness :
  (forall q c, (0 <= Samples.exact_ratio q c)%Z) /\
  Online.osm_fails Samples.offline_world /\
  Online.wikipedia_fails Samples.offline_world /\
  (forall name lg,
      fst (Online._from_osm Samples.offline_world Samples.no_str name lg) = Ok None) /\
  (forall name lg,
      fst (Online._from_wikipedia Samples.offline_world name lg) = Ok None) /\
  (forall name lg,
      fst (Online.guess Samples.offline_world Samples.no_str name lg) = Ok None) /\
  exists categories prompts cat' log',
    App.resolve Samples.exact_ratio Samples.offline_world Samples.no_str
                string Samples.to_csv_text
                Samples.keep_preselected Samples.never_pressed true
                Samples.sample_store [ "Uber *Trip"; "WALMART #2291" ] []
    = (Ok (categories, prompts, cat'), log') /\
    categories = map (App.from_memory Samples.exact_ratio
                        (Memory.map_df Samples.sample_store))
                     [ "Uber *Trip"; "WALMART #2291" ] /\
    forall m,
      In m [ "Uber *Trip"; "WALMART #2291" ] ->
      App.from_memory Samples.exact_ratio (Memory.map_df Samples.sample_store) m = None ->
      In m (map App.p_merchant prompts).
Proof.
  assert (Hpos : forall q c, (0 <= Samples.exact_ratio q c)%Z).
  { intros q c. unfold Samples.exact_ratio. destruct (String.eqb q c); lia. }
  assert (Ho : Online.osm_fails Samples.offline_world).
  { intros t q. exact I. }
  assert (Hw : Online.wikipedia_fails Samples.offline_world).
  { intros t q. exact I. }
  split; [exact Hpos|]. split; [exact Ho|]. split; [exact Hw|].
  exact (failing_sources_route_to_manual
           Samples.exact_ratio Samples.offline_world Samples.no_str
           string Samples.to_csv_text Samples.keep_preselected Samples.never_pressed
           Samples.sample_store [ "Uber *Trip"; "WALMART #2291" ] [] Hpos Ho Hw).
Defined.

Example offline_run :
  fst (App.resolve Samples.exact_ratio Samples.offline_world Samples.no_str
                   string Samples.to_csv_text
                   Samples.keep_preselected Samples.never_pressed true
                   Samples.sample_store [ "Uber *Trip"; "WALMART #2291" ] [])
  = Ok ([ Some "Transport"; None ],
        [ App.mkPrompt "WALMART #2291" None 0 "Food & Drink" false ],
        Samples.sample_store).
Proof. reflexivity. Qed.

(** ** The working set *)

Section BatchFacts.
Import PyStr App.
Variables num datetime timestamp : Type.
Variable str_of_num : num -> string.
Variable nan_as_text : bool.
Variable parser_parse : string -> result datetime.
Variable to_datetime : list datetime -> list (option timestamp).
Variable numeric_of_text : string -> option num.

Lemma apply_result_ok {A B} (f : A -> result B) (l : list A) (ys : list B) :
  apply_result f l = Ok ys -> Forall2 (fun x y => f x = Ok y) l ys.
Proof.
  revert ys. induction l as [|x xs IH]; intros ys; simpl.
  - intros [= <-]. constructor.
  - destruct (f x) as [y|e] eqn:E; [|discriminate].
    destruct (apply_result f xs) as [ys'|e]; [|discriminate].
    intros [= <-]. constructor; auto.
Qed.

Lemma apply_result_raises {A B} (f : A -> result B) (l : list A) (x : A) (e : exn) :
  In x l -> f x = Raise e -> exists e', apply_result f l = Raise e'.
Proof.
  induction l as [|y ys IH]; simpl; [intros []|].
  intros [->|Hin] Hx.
  - rewrite Hx. eauto.
  - destruct (f y); [|eauto].
    destruct (IH Hin Hx) as (e' & ->). eauto.
Qed.

Lemma apply_result_total {A B} (f : A -> result B) (l : list A) :
  (forall x, In x l -> exists y, f x = Ok y) -> exists ys, apply_result f l = Ok ys.
Proof.
  induction l as [|x xs IH]; simpl; intros H; [eauto|].
  destruct (H x (or_introl eq_refl)) as (y & ->).
  destruct IH as (ys & ->); eauto.
Qed.

Lemma parsed_dates (df_raw : list (raw_row num)) (parsed : list datetime) :
  apply_result (fun x => parser_parse (str num str_of_num x))
               (map (date_cell num) df_raw) = Ok parsed ->
  Forall2 (fun r d => parser_parse (str num str_of_num (date_cell num r)) = Ok d)
          df_raw parsed.
Proof.
  intros E. apply apply_result_ok in E.
  revert parsed E. induction df_raw as [|r rs IH]; intros parsed E;
    inversion E; subst; constructor; auto.
Qed.

(** The frame of lines 43-47 after [dropna], line by line. *)
Lemma frame_rows (df_raw : list (raw_row num)) (dates : list (option timestamp)) :
  dropna num timestamp
    (map (fun x => mkFrame num timestamp (fst (fst x)) (snd (fst x)) (snd x))
         (combine (combine dates
                           (map (fun r => str_strip (astype_str num str_of_num nan_as_text
                                                                (desc_cell num r)))
                                df_raw))
                  (map (fun r => to_numeric num numeric_of_text (amt_cell num r)) df_raw)))
  = flat_map (fun p => line_of num timestamp str_of_num nan_as_text
                               numeric_of_text (fst p) (snd p))
             (combine df_raw dates).
Proof.
  revert dates. induction df_raw as [|r rs IH]; intros [|d ds];
    try reflexivity.
  simpl. rewrite <- (IH ds). unfold line_of. simpl.
  destruct d; [|reflexivity].
  destruct (str_strip _); [|reflexivity].
  destruct (to_numeric num numeric_of_text (amt_cell num r)); reflexivity.
Qed.

(** The working set, line by line: one unparseable date ends the run with
    the parser's exception; otherwise every line is kept or dropped on the
    entry of the converted date column on its line, its merchant and its
    amount. *)
Lemma working_set_by_line (df_raw : list (raw_row num)) :
  let run := working_set num datetime timestamp str_of_num nan_as_text parser_parse
                         to_datetime numeric_of_text in
  (forall r e,
      In r df_raw ->
      parser_parse (str num str_of_num (date_cell num r)) = Raise e ->
      exists e', run df_raw = Raise e') /\
  ((forall r, In r df_raw ->
              exists d, parser_parse (str num str_of_num (date_cell num r)) = Ok d) ->
   exists parsed,
     Forall2 (fun r d => parser_parse (str num str_of_num (date_cell num r)) = Ok d)
             df_raw parsed /\
     run df_raw
     = Ok (flat_map (fun p => line_of num timestamp str_of_num nan_as_text
                                      numeric_of_text (fst p) (snd p))
                    (combine df_raw (to_datetime parsed)))).
Proof.
  intros run. unfold run, working_set. split.
  - intros r e Hin Hr.
    destruct (apply_result_raises
                (fun x => parser_parse (str num str_of_num x))
                (map (date_cell num) df_raw) (date_cell num r) e) as (e' & ->); eauto.
    now apply in_map.
  - intros Hall.
    destruct (apply_result_total
                (fun x => parser_parse (str num str_of_num x))
                (map (date_cell num) df_raw)) as (parsed & Hp).
    { intros x Hx. apply in_map_iff in Hx. destruct Hx as (r & <- & Hr). auto. }
    rewrite Hp. exists parsed. split; [now apply parsed_dates|].
    f_equal. apply frame_rows.
Qed.
End BatchFacts.

(** C8, on the code.  A line whose amount is not numeric is dropped and the
    other lines are kept.  A line whose date the parser rejects is not
    dropped: the exception of [parser.parse] leaves [Series.apply] before
    [errors="coerce"] and [dropna] can act, and no working set is built.  A
    line whose merchant field is blank is not dropped either: it is text,
    [.str.strip()] makes the empty string of it, and [dropna] keeps the empty
    string.  A line whose merchant field is empty is dropped exactly when
    [astype(str)] keeps a missing value missing. *)
Theorem working_set_on_bad_rows
        (num datetime timestamp : Type)
        (str_of_num : num -> string)
        (nan_as_text : bool)
        (parser_parse : string -> result datetime)
        (to_datetime : list datetime -> list (option timestamp))
        (numeric_of_text : string -> option num)
        (d : datetime) (ts : timestamp) (x : num) :
  parser_parse "2024-01-05" = Ok d ->
  to_datetime [d; d] = [Some ts; Some ts] ->
  parser_parse "not a date" = Raise ParserError ->
  numeric_of_text "twelve" = None ->
  let run := App.working_set num datetime timestamp str_of_num nan_as_text
                             parser_parse to_datetime numeric_of_text in
  let good := App.mkRaw num (App.Text "2024-01-05") (App.Text "Cafe Roma") (App.Number x) in
  run [ good; App.mkRaw num (App.Text "2024-01-05") (App.Text "Shop") (App.Text "twelve") ]
  = Ok [ App.mkTxn num timestamp ts "Cafe Roma" x ] /\
  run [ good; App.mkRaw num (App.Text "not a date") (App.Text "Shop") (App.Number x) ]
  = Raise ParserError /\
  run [ good; App.mkRaw num (App.Text "2024-01-05") (App.Text "   ") (App.Number x) ]
  = Ok [ App.mkTxn num timestamp ts "Cafe Roma" x;
         App.mkTxn num timestamp ts EmptyString x ] /\
  run [ good; App.mkRaw num (App.Text "2024-01-05") App.NaN (App.Number x) ]
  = Ok (App.mkTxn num timestamp ts "Cafe Roma" x
        :: if nan_as_text then [ App.mkTxn num timestamp ts "nan" x ] else []).
Proof.
  intros Hd Hts Hbad Hnum run good.
  unfold run, good, App.working_set. simpl.
  rewrite Hd, Hbad. simpl. rewrite Hts. simpl. rewrite Hnum.
  split; [reflexivity|]. split; [reflexivity|]. split; [reflexivity|].
  destruct nan_as_text; reflexivity.
Qed.

Lemma working_set_on_bad_rows_witness :
  Samples.digits_first "2024-01-05" = Ok "2024-01-05" /\
  Samples.always_in_range ["2024-01-05"; "2024-01-05"]
  = [Some "2024-01-05"; Some "2024-01-05"] /\
  Samples.digits_first "not a date" = Raise ParserError /\
  Samples.no_number "twelve" = None /\
  let run := App.working_set Z string string Samples.zero_text false
                             Samples.digits_first Samples.always_in_range
                             Samples.no_number in
  let good := App.mkRaw Z (App.Text "2024-01-05") (App.Text "Cafe Roma") (App.Number 5%Z) in
  run [ good; App.mkRaw Z (App.Text "2024-01-05") (App.Text "Shop") (App.Text "twelve") ]
  = Ok [ App.mkTxn Z string "2024-01-05" "Cafe Roma" 5%Z ] /\
  run [ good; App.mkRaw Z (App.Text "not a date") (App.Text "Shop") (App.Number 5%Z) ]
  = Raise ParserError /\
  run [ good; App.mkRaw Z (App.Text "2024-01-05") (App.Text "   ") (App.Number 5%Z) ]
  = Ok [ App.mkTxn Z string "2024-01-05" "Cafe Roma" 5%Z;
         App.mkTxn Z string "2024-01-05" EmptyString 5%Z ] /\
  run [ good; App.mkRaw Z (App.Text "2024-01-05") App.NaN (App.Number 5%Z) ]
  = Ok (App.mkTxn Z string "2024-01-05" "Cafe Roma" 5%Z
        :: if false then [ App.mkTxn Z string "2024-01-05" "nan" 5%Z ] else []).
Proof.
  split; [reflexivity|]. split; [reflexivity|]. split; [reflexivity|].
  split; [reflexivity|].
  exact (working_set_on_bad_rows Z string string Samples.zero_text false
           Samples.digits_first Samples.always_in_range Samples.no_number
           "2024-01-05" "2024-01-05" 5%Z eq_refl eq_refl eq_refl eq_refl).
Defined.

(** ** The keyword scan *)
Section KeywordClaims.
Import Regex Keywords.

Lemma scan_skip (before rest : list (regex * string)) (t : string) :
  Forall (fun r => search (fst r) t = false) before ->
  scan (before ++ rest) t = scan rest t.
Proof.
  induction 1 as [|[p c] before Hp _ IH]; simpl; [reflexivity|].
  simpl in Hp. now rewrite Hp.
Qed.

Lemma no_occurrence (rules : list (regex * string)) (t : string) :
  Forall (fun r => search (fst r) t = false) rules <->
  Forall (fun r => ~ occurs (fst r) t) rules.
Proof.
  split; intros H; eapply Forall_impl; try exact H;
    intros r Hr; now apply search_false_spec.
Qed.

Lemma rule_categories_distinct : NoDup (map snd KEYWORDS_TO_CATEGORY).
Proof.
  simpl. repeat constructor; simpl; intuition discriminate.
Qed.

(** C7.  The keyword scan returns the category of the first rule of the
    list whose pattern occurs in the text, where a pattern occurs when one
    of its keywords stands in the text, in any letter case, between two
    word boundaries; it returns [None] exactly when no pattern occurs.  It
    is a function of the text, and when the patterns of two rules occur the
    answer is the category of a rule placed no later than the earlier of
    the two, never that of the later one. *)
Theorem keyword_scan_first_rule_wins (t : string) :
  (forall c,
      keyword_scan t = Some c <->
      exists before pat after,
        KEYWORDS_TO_CATEGORY = before ++ (pat, c) :: after /\
        occurs pat t /\
        Forall (fun r => ~ occurs (fst r) t) before) /\
  (keyword_scan t = None <->
   Forall (fun r => ~ occurs (fst r) t) KEYWORDS_TO_CATEGORY) /\
  (forall t', t' = t -> keyword_scan t' = keyword_scan t) /\
  (forall i j pi ci pj cj,
      (i < j)%nat ->
      nth_error KEYWORDS_TO_CATEGORY i = Some (pi, ci) ->
      nth_error KEYWORDS_TO_CATEGORY j = Some (pj, cj) ->
      occurs pi t -> occurs pj t ->
      exists k pk ck,
        (k <= i)%nat /\
        nth_error KEYWORDS_TO_CATEGORY k = Some (pk, ck) /\
        occurs pk t /\
        keyword_scan t = Some ck /\
        ck <> cj).
Proof.
  pose proof (scan_spec KEYWORDS_TO_CATEGORY t) as Hspec.
  fold (keyword_scan t) in Hspec.
  split; [|split; [|split]].
  - intros c. split.
    + intros E. rewrite E in Hspec.
      destruct Hspec as (before & pat & after & Hk & Hp & Hb).
      exists before, pat, after. split; [exact Hk|].
      split; [now apply search_spec | now apply no_occurrence].
    + intros (before & pat & after & Hk & Hp & Hb).
      unfold keyword_scan. rewrite Hk, scan_skip by now apply no_occurrence.
      simpl. apply search_spec in Hp. now rewrite Hp.
  - split.
    + intros E. rewrite E in Hspec. now apply no_occurrence.
    + intros Hnone. destruct (keyword_scan t) as [c|]; [|reflexivity].
      destruct Hspec as (before & pat & after & Hk & Hp & _).
      apply no_occurrence in Hnone. rewrite Hk in Hnone.
      apply Forall_app in Hnone. destruct Hnone as [_ Hnone].
      inversion Hnone as [|? ? Hpat _]. simpl in Hpat. congruence.
  - intros t' ->. reflexivity.
  - intros i j pi ci pj cj Hij Hi Hj Hoi Hoj.
    apply search_spec in Hoi.
    destruct (scan_earliest KEYWORDS_TO_CATEGORY t i pi ci Hi Hoi)
      as (k & pk & ck & Hk & Hnk & Hpk & Hscan & _).
    exists k, pk, ck. split; [exact Hk|]. split; [exact Hnk|].
    split; [now apply search_spec|]. split; [exact Hscan|].
    intros ->.
    assert (Hkj : k = j).
    { apply (proj1 (NoDup_nth_error (map snd KEYWORDS_TO_CATEGORY))
                   rule_categories_distinct).
      - rewrite length_map. apply nth_error_Some. congruence.
      - now rewrite !nth_error_map, Hnk, Hj. }
    lia.
Qed.

Example pharmacy_and_restaurant :
  keyword_scan "Joe's Pharmacy and Restaurant" = Some "Food & Drink" /\
  keyword_scan "CVS PHARMACY #114" = Some "Health" /\
  keyword_scan "barn door" = None.
Proof. repeat split; reflexivity. Qed.
End KeywordClaims.

(* ================================================================== *)
(** * Part III: further properties of the code *)
(* ================================================================== *)

(** ** Keys: [.upper().strip()] *)
Section KeyFacts.
Import PyStr Memory.

Lemma is_space_upper_char (c : ascii) : is_space (upper_char c) = is_space c.
Proof. destruct c as [[] [] [] [] [] [] [] []]; reflexivity. Qed.

Lemma upper_char_twice (c : ascii) : upper_char (upper_char c) = upper_char c.
Proof. destruct c as [[] [] [] [] [] [] [] []]; reflexivity. Qed.

Lemma upper_twice (s : string) : upper (upper s) = upper s.
Proof.
  induction s as [|c s IH]; simpl; [reflexivity|].
  now rewrite upper_char_twice, IH.
Qed.

Lemma lstrip_upper (s : string) : lstrip (upper s) = upper (lstrip s).
Proof.
  induction s as [|c s IH]; simpl; [reflexivity|].
  rewrite is_space_upper_char. destruct (is_space c); [exact IH | reflexivity].
Qed.

Lemma rstrip_upper (s : string) : rstrip (upper s) = upper (rstrip s).
Proof.
  induction s as [|c s IH]; simpl; [reflexivity|].
  rewrite IH, is_space_upper_char.
  destruct (rstrip s); simpl; [destruct (is_space c)|]; reflexivity.
Qed.

Lemma strip_upper (s : string) : strip (upper s) = upper (strip s).
Proof. unfold strip. now rewrite lstrip_upper, rstrip_upper. Qed.

Lemma rstrip_twice (s : string) : rstrip (rstrip s) = rstrip s.
Proof.
  induction s as [|c s IH]; simpl; [reflexivity|].
  destruct (rstrip s) as [|d r] eqn:E.
  - destruct (is_space c) eqn:Ec; simpl; [reflexivity | now rewrite Ec].
  - change (rstrip (String c (String d r))) with
      (match rstrip (String d r) with
       | EmptyString => if is_space c then EmptyString else String c EmptyString
       | String x y => String c (String x y)
       end).
    now rewrite IH.
Qed.

(** The string does not start with whitespace. *)
Let clean_start (s : string) : Prop :=
  match s with
  | EmptyString => True
  | String c _ => is_space c = false
  end.

Lemma lstrip_clean (s : string) : clean_start (lstrip s).
Proof.
  induction s as [|c s IH]; simpl; [exact I|].
  destruct (is_space c) eqn:E; [exact IH | exact E].
Qed.

Lemma lstrip_of_clean (s : string) : clean_start s -> lstrip s = s.
Proof. destruct s as [|c s]; simpl; [reflexivity | now intros ->]. Qed.

Lemma rstrip_clean (s : string) : clean_start s -> clean_start (rstrip s).
Proof.
  destruct s as [|c s]; simpl; [exact id|]. intros E.
  destruct (rstrip s); [rewrite E|]; exact E.
Qed.

Lemma strip_twice (s : string) : strip (strip s) = strip s.
Proof.
  unfold strip.
  rewrite (lstrip_of_clean (rstrip (lstrip s))).
  - apply rstrip_twice.
  - apply rstrip_clean, lstrip_clean.
Qed.

Lemma normalize_twice (s : string) : normalize (normalize s) = normalize s.
Proof.
  unfold normalize. rewrite (strip_upper s), upper_twice, <- (strip_upper s).
  apply strip_twice.
Qed.

Lemma rstrip_blank (ws : string) : blank ws = true -> rstrip ws = EmptyString.
Proof.
  induction ws as [|c ws IH]; simpl; [reflexivity|].
  intros H. apply andb_true_iff in H. destruct H as [Hc Hw].
  now rewrite (IH Hw), Hc.
Qed.

Lemma rstrip_padded (s ws : string) :
  blank ws = true -> rstrip (s ++ ws)%string = rstrip s.
Proof.
  intros Hw. induction s as [|c s IH]; simpl.
  - now apply rstrip_blank.
  - now rewrite IH.
Qed.

Lemma lstrip_padded (ws s : string) :
  blank ws = true -> lstrip (ws ++ s)%string = lstrip s.
Proof.
  induction ws as [|c ws IH]; simpl; [reflexivity|].
  intros H. apply andb_true_iff in H. destruct H as [-> Hw]. auto.
Qed.

Lemma lstrip_blank (ws : string) : blank ws = true -> lstrip ws = EmptyString.
Proof.
  induction ws as [|c ws IH]; simpl; [reflexivity|].
  intros H. apply andb_true_iff in H. destruct H as [-> Hw]. auto.
Qed.

Lemma strip_right_padded (s ws : string) :
  blank ws = true -> rstrip (lstrip (s ++ ws)%string) = rstrip (lstrip s).
Proof.
  intros Hw. induction s as [|c s IH]; simpl.
  - now rewrite (lstrip_blank ws Hw).
  - destruct (is_space c); [exact IH|].
    apply (rstrip_padded (String c s) ws Hw).
Qed.

Lemma strip_padded (ws1 s ws2 : string) :
  blank ws1 = true -> blank ws2 = true ->
  strip (ws1 ++ s ++ ws2)%string = strip s.
Proof.
  intros H1 H2. unfold strip.
  now rewrite lstrip_padded, strip_right_padded.
Qed.

Lemma blank_upper (s : string) : blank (upper s) = blank s.
Proof.
  induction s as [|c s IH]; simpl; [reflexivity|].
  now rewrite is_space_upper_char, IH.
Qed.

Lemma upper_app (s t : string) : upper (s ++ t)%string = (upper s ++ upper t)%string.
Proof. induction s as [|c s IH]; simpl; [reflexivity | now rewrite IH]. Qed.

(** The key ignores letter case and surrounding whitespace. *)
Lemma normalize_padded (ws1 s ws2 : string) :
  blank ws1 = true -> blank ws2 = true ->
  normalize (ws1 ++ upper s ++ ws2)%string = normalize s.
Proof.
  intros H1 H2. unfold normalize.
  rewrite !upper_app, upper_twice.
  apply strip_padded; now rewrite blank_upper.
Qed.
End KeyFacts.

(** X1.  Lookup and learning go by the key alone: a description that differs
    from [s] only by letter case and by whitespace around it is looked up
    like [s], and learning it reaches the same key as learning [s]; when the
    key is already stored the two calls leave the same memory. *)
Theorem lookup_and_learn_ignore_case_and_padding
        (token_set_ratio : string -> string -> Z)
        (file : Type) (to_csv : list (string * string) -> file)
        (self : Memory.categorizer file) (ws1 s ws2 c : string) :
  PyStr.blank ws1 = true ->
  PyStr.blank ws2 = true ->
  let d := (ws1 ++ PyStr.upper s ++ ws2)%string in
  Memory.get_category token_set_ratio (Memory.map_df self) d
  = Memory.get_category token_set_ratio (Memory.map_df self) s /\
  Memory.keys (Memory.map_df (Memory.learn file to_csv self d c))
  = Memory.keys (Memory.map_df (Memory.learn file to_csv self s c)) /\
  (In (Memory.normalize s) (Memory.keys (Memory.map_df self)) ->
   Memory.learn file to_csv self d c = Memory.learn file to_csv self s c).
Proof.
  intros H1 H2 d.
  assert (Hk : Memory.normalize d = Memory.normalize s)
    by now apply normalize_padded.
  split; [|split].
  - unfold Memory.get_category, Memory._best_match.
    change (PyStr.strip (PyStr.upper d)) with (Memory.normalize d).
    change (PyStr.strip (PyStr.upper s)) with (Memory.normalize s).
    now rewrite Hk.
  - simpl. rewrite !learn_df_keys. now rewrite Hk.
  - intros Hin. unfold Memory.learn, Memory.save. simpl.
    rewrite (learn_df_present (Memory.map_df self) s c Hin).
    rewrite (learn_df_present (Memory.map_df self) d c) by now rewrite Hk.
    now rewrite Hk.
Qed.

Lemma lookup_and_learn_ignore_case_and_padding_witness :
  PyStr.blank "  " = true /\
  PyStr.blank " " = true /\
  let d := ("  " ++ PyStr.upper "Starbucks Coffee" ++ " ")%string in
  Memory.get_category Samples.exact_ratio (Memory.map_df Samples.sample_store) d
  = Memory.get_category Samples.exact_ratio (Memory.map_df Samples.sample_store)
                        "Starbucks Coffee" /\
  Memory.keys (Memory.map_df
                 (Memory.learn string Samples.to_csv_text Samples.sample_store d "Other"))
  = Memory.keys (Memory.map_df
                   (Memory.learn string Samples.to_csv_text Samples.sample_store
                                 "Starbucks Coffee" "Other")) /\
  (In (Memory.normalize "Starbucks Coffee")
      (Memory.keys (Memory.map_df Samples.sample_store)) ->
   Memory.learn string Samples.to_csv_text Samples.sample_store d "Other"
   = Memory.learn string Samples.to_csv_text Samples.sample_store
                  "Starbucks Coffee" "Other").
Proof.
  split; [reflexivity|]. split; [reflexivity|].
  exact (lookup_and_learn_ignore_case_and_padding
           Samples.exact_ratio string Samples.to_csv_text Samples.sample_store
           "  " "Starbucks Coffee" " " "Other" eq_refl eq_refl).
Defined.

(** X2.  Whatever the file held at start-up and whatever was learned since,
    the derived column of every record is the key of its merchant column, and
    every stored key is already in normal form: computing the key of a key
    changes nothing. *)
Theorem stored_keys_are_normalized
        (file : Type)
        (to_csv : list (string * string) -> file)
        (read_csv : file -> list (string * string))
        (d : option file) (calls : list (string * string)) :
  let st := Memory.learn_all file to_csv
              (Memory._load_map file to_csv read_csv d) calls in
  Forall (fun r =>
            Memory.merchant_norm r = Memory.normalize (Memory.merchant r) /\
            Memory.normalize (Memory.merchant_norm r) = Memory.merchant_norm r)
         (Memory.map_df st).
Proof.
  intros st.
  assert (Hload : Memory.derived
                    (Memory.map_df (Memory._load_map file to_csv read_csv d))).
  { unfold Memory._load_map.
    destruct d as [f|]; simpl; [|constructor].
    destruct (read_csv f) as [|p ps]; [constructor|].
    apply Forall_map. apply Forall_forall. intros x _. reflexivity. }
  assert (Hder : Memory.derived (Memory.map_df st)).
  { unfold st. rewrite learn_all_map_df. now apply learn_all_df_derived. }
  eapply Forall_impl; [|exact Hder].
  intros r Hr. simpl in Hr. split; [exact Hr|].
  rewrite Hr. apply normalize_twice.
Qed.

(** ** Lookup: how learning changes the answers *)
Section LookupMoreFacts.
Import PyStr Memory.
Variable token_set_ratio : string -> string -> Z.

(** Two ways of cutting one list at an element. *)
Lemma two_cuts {A} (b1 a1 b2 a2 : list A) (x1 x2 : A) :
  b1 ++ x1 :: a1 = b2 ++ x2 :: a2 ->
  (b1 = b2 /\ x1 = x2 /\ a1 = a2) \/
  (In x1 b2 /\ In x2 a1) \/
  (In x2 b1 /\ In x1 a2).
Proof.
  revert b2. induction b1 as [|y b1 IH]; intros [|z b2] H; simpl in H.
  - injection H as -> ->. auto.
  - injection H as -> ->. right. left. split; [now left|].
    apply in_or_app. right. now left.
  - injection H as -> <-. right. right. split; [now left|].
    apply in_or_app. right. now left.
  - injection H as -> H. destruct (IH b2 H) as [(-> & -> & ->)|[[H1 H2]|[H1 H2]]].
    + auto.
    + right. left. split; [now right | exact H2].
    + right. right. split; [now right | exact H2].
Qed.

Hypothesis scores_not_negative : forall q c, (0 <= token_set_ratio q c)%Z.

(** The record that answers a lookup is determined by the scores: it is the
    first one no other record beats. *)
Lemma get_category_at (df before after : list row) (r : row) (d : string) :
  let score := fun x => token_set_ratio (normalize d) (merchant_norm x) in
  df = before ++ r :: after ->
  (forall x, In x before -> (score x < score r)%Z) ->
  (forall x, In x after -> (score x <= score r)%Z) ->
  get_category token_set_ratio df d
  = Ok (if (85 <=? score r)%Z then Some (category r) else None).
Proof.
  intros score Hdf Hb Ha.
  destruct (get_category_nonempty token_set_ratio df d scores_not_negative)
    as (b' & r' & a' & Hdf' & Hb' & Ha' & ->).
  { rewrite Hdf. now destruct before. }
  rewrite Hdf in Hdf'. unfold score, normalize in *. cbv zeta in *.
  destruct (two_cuts _ _ _ _ _ _ Hdf') as [(_ & <- & _)|[[H1 H2]|[H1 H2]]].
  - reflexivity.
  - specialize (Hb' _ H1). specialize (Ha _ H2). simpl in *. lia.
  - specialize (Hb _ H1). specialize (Ha' _ H2). simpl in *. lia.
Qed.

Lemma learn_df_category (df : list row) (m c : string) (r : row) :
  In r (learn_df df m c) -> merchant_norm r = normalize m -> category r = c.
Proof.
  intros Hin Hk.
  destruct (in_dec string_dec (normalize m) (keys df)) as [Hp|Hp].
  - rewrite learn_df_present in Hin by assumption.
    eapply overwritten_category; eassumption.
  - rewrite learn_df_absent in Hin by assumption.
    apply in_app_or in Hin. destruct Hin as [Hin|[<-|[]]]; [|reflexivity].
    exfalso. apply Hp. rewrite <- Hk. unfold keys. now apply in_map.
Qed.

(** After [learn m c] the lookup of [m] finds a record at least as good as
    the learned one. *)
Lemma learned_is_found (df : list row) (m c : string) :
  exists r,
    In r (learn_df df m c) /\
    (token_set_ratio (normalize m) (normalize m)
     <= token_set_ratio (normalize m) (merchant_norm r))%Z /\
    get_category token_set_ratio (learn_df df m c) m
    = Ok (if (85 <=? token_set_ratio (normalize m) (merchant_norm r))%Z
          then Some (category r) else None).
Proof.
  pose proof (learn_df_key_stored df m c) as Hk.
  apply in_map_iff in Hk. destruct Hk as (r0 & Hk0 & Hr0).
  destruct (get_category_nonempty token_set_ratio (learn_df df m c) m
              scores_not_negative)
    as (b & r & a & Hdf & Hb & Ha & Hget).
  { intros E. rewrite E in Hr0. destruct Hr0. }
  unfold normalize in *. cbv zeta in *.
  exists r. split; [rewrite Hdf; apply in_or_app; right; now left|].
  split; [|exact Hget].
  rewrite Hdf in Hr0. apply in_app_or in Hr0.
  destruct Hr0 as [H|[<-|H]].
  - specialize (Hb _ H). rewrite Hk0 in Hb. lia.
  - rewrite Hk0. lia.
  - specialize (Ha _ H). rewrite Hk0 in Ha. lia.
Qed.
End LookupMoreFacts.

(** X3.  With scores in the range of the scorer, [get_category] raises
    nowhere, whatever the store holds: neither the unpacking of line 62 nor
    [.iloc[0]] of line 65 fails.  It answers [None] exactly when no stored
    key reaches 85, and any category it answers is that of a stored record
    whose key reaches 85. *)
Theorem get_category_never_raises
        (token_set_ratio : string -> string -> Z)
        (df : list Memory.row) (d : string) :
  (forall q k, (0 <= token_set_ratio q k)%Z) ->
  let score := fun r =>
    token_set_ratio (Memory.normalize d) (Memory.merchant_norm r) in
  exists o,
    Memory.get_category token_set_ratio df d = Ok o /\
    (o = None <-> forall r, In r df -> (score r < 85)%Z) /\
    (forall c, o = Some c ->
               exists r, In r df /\ Memory.category r = c /\ (85 <= score r)%Z).
Proof.
  intros Hpos score.
  destruct df as [|r0 rs] eqn:Edf.
  - exists None. split; [reflexivity|]. split; [|discriminate].
    split; [intros _ r []|reflexivity].
  - rewrite <- Edf.
    destruct (get_category_nonempty token_set_ratio df d Hpos)
      as (b & r & a & Hdf & Hb & Ha & ->); [rewrite Edf; discriminate|].
    change (PyStr.strip (PyStr.upper d)) with (Memory.normalize d) in *.
    fold (score r). 
    assert (Hin : In r df) by (rewrite Hdf; apply in_or_app; right; now left).
    assert (Hmax : forall x, In x df -> (score x <= score r)%Z).
    { intros x Hx. rewrite Hdf in Hx. apply in_app_or in Hx.
      destruct Hx as [Hx|[<-|Hx]].
      - specialize (Hb _ Hx). unfold score. lia.
      - lia.
      - specialize (Ha _ Hx). unfold score. lia. }
    destruct (85 <=? score r)%Z eqn:E.
    + apply Z.leb_le in E. exists (Some (Memory.category r)).
      split; [reflexivity|]. split.
      * split; [discriminate|]. intros H. specialize (H r Hin). lia.
      * intros c [= <-]. exists r. auto.
    + apply Z.leb_gt in E. exists None.
      split; [reflexivity|]. split; [|discriminate].
      split; [|reflexivity]. intros _ x Hx. specialize (Hmax x Hx). lia.
Qed.

Lemma get_category_never_raises_witness :
  (forall q k, (0 <= Samples.exact_ratio q k)%Z) /\
  let score := fun r =>
    Samples.exact_ratio (Memory.normalize "uber *trip ") (Memory.merchant_norm r) in
  exists o,
    Memory.get_category Samples.exact_ratio Samples.sample_df "uber *trip " = Ok o /\
    (o = None <-> forall r, In r Samples.sample_df -> (score r < 85)%Z) /\
    (forall c, o = Some c ->
               exists r, In r Samples.sample_df /\ Memory.category r = c /\
                         (85 <= score r)%Z).
Proof.
  split; [exact Samples.exact_ratio_not_negative|].
  exact (get_category_never_raises Samples.exact_ratio Samples.sample_df
           "uber *trip " Samples.exact_ratio_not_negative).
Defined.

(** X4.  A learned merchant is recognised: when scores are never negative
    and the key of [m] scores at least 85 against itself, the lookup of [m]
    after [learn m c] returns a category, and it returns [c] when every record
    with another key scores strictly less than the key of [m] itself. *)
Theorem learned_merchant_is_recognised
        (token_set_ratio : string -> string -> Z)
        (file : Type) (to_csv : list (string * string) -> file)
        (self : Memory.categorizer file) (m c : string) :
  (forall q k, (0 <= token_set_ratio q k)%Z) ->
  (85 <= token_set_ratio (Memory.normalize m) (Memory.normalize m))%Z ->
  let after := Memory.map_df (Memory.learn file to_csv self m c) in
  (exists c', Memory.get_category token_set_ratio after m = Ok (Some c')) /\
  ((forall r, In r after ->
              Memory.merchant_norm r <> Memory.normalize m ->
              (token_set_ratio (Memory.normalize m) (Memory.merchant_norm r)
               < token_set_ratio (Memory.normalize m) (Memory.normalize m))%Z) ->
   Memory.get_category token_set_ratio after m = Ok (Some c)).
Proof.
  intros Hpos Hself after.
  change after with (Memory.learn_df (Memory.map_df self) m c).
  destruct (learned_is_found token_set_ratio Hpos (Memory.map_df self) m c)
    as (r & Hin & Hge & Hget).
  assert (Hbig : (85 <=? token_set_ratio (Memory.normalize m) (Memory.merchant_norm r))%Z
                 = true) by (apply Z.leb_le; lia).
  rewrite Hbig in Hget. split.
  - eauto.
  - intros Hothers. rewrite Hget. do 2 f_equal.
    apply (learn_df_category (Memory.map_df self) m c r Hin).
    destruct (string_dec (Memory.merchant_norm r) (Memory.normalize m)) as [E|E];
      [exact E|].
    specialize (Hothers r Hin E). lia.
Qed.

Lemma learned_merchant_is_recognised_witness :
  (forall q k, (0 <= Samples.exact_ratio q k)%Z) /\
  (85 <= Samples.exact_ratio (Memory.normalize "Walmart #2291")
                             (Memory.normalize "Walmart #2291"))%Z /\
  let after := Memory.map_df (Memory.learn string Samples.to_csv_text
                                Samples.sample_store "Walmart #2291" "Shopping") in
  (exists c', Memory.get_category Samples.exact_ratio after "Walmart #2291"
              = Ok (Some c')) /\
  ((forall r, In r after ->
              Memory.merchant_norm r <> Memory.normalize "Walmart #2291" ->
              (Samples.exact_ratio (Memory.normalize "Walmart #2291")
                                   (Memory.merchant_norm r)
               < Samples.exact_ratio (Memory.normalize "Walmart #2291")
                                     (Memory.normalize "Walmart #2291"))%Z) ->
   Memory.get_category Samples.exact_ratio after "Walmart #2291"
   = Ok (Some "Shopping")).
Proof.
  assert (Hpos : forall q k, (0 <= Samples.exact_ratio q k)%Z).
  { intros q k. unfold Samples.exact_ratio. destruct (String.eqb q k); lia. }
  assert (Hself : (85 <= Samples.exact_ratio (Memory.normalize "Walmart #2291")
                                             (Memory.normalize "Walmart #2291"))%Z).
  { vm_compute. discriminate. }
  split; [exact Hpos|]. split; [exact Hself|].
  exact (learned_merchant_is_recognised Samples.exact_ratio string
           Samples.to_csv_text Samples.sample_store "Walmart #2291" "Shopping"
           Hpos Hself).
Defined.

(** X5.  How a newly learned key changes the lookup of a description [d]:
    the new record is appended last, so it answers only when its key scores
    strictly higher than every stored key; when some stored key scores at
    least as high, the lookup of [d] is what it was. *)
Theorem new_key_answers_only_when_strictly_best
        (token_set_ratio : string -> string -> Z)
        (file : Type) (to_csv : list (string * string) -> file)
        (self : Memory.categorizer file) (m c d : string) :
  (forall q k, (0 <= token_set_ratio q k)%Z) ->
  ~ In (Memory.normalize m) (Memory.keys (Memory.map_df self)) ->
  let score := fun k => token_set_ratio (Memory.normalize d) k in
  let after := Memory.map_df (Memory.learn file to_csv self m c) in
  ((exists r, In r (Memory.map_df self) /\
              (score (Memory.normalize m) <= score (Memory.merchant_norm r))%Z) ->
   Memory.get_category token_set_ratio after d
   = Memory.get_category token_set_ratio (Memory.map_df self) d) /\
  ((forall r, In r (Memory.map_df self) ->
              (score (Memory.merchant_norm r) < score (Memory.normalize m))%Z) ->
   Memory.get_category token_set_ratio after d
   = Ok (if (85 <=? score (Memory.normalize m))%Z then Some c else None)).
Proof.
  intros Hpos Hnew score after.
  assert (Hafter : after = Memory.map_df self
                           ++ [Memory.mkRow m c (Memory.normalize m)]).
  { unfold after. simpl. now apply learn_df_absent. }
  rewrite Hafter. split.
  - intros (r1 & Hr1 & Hle).
    destruct (get_category_nonempty token_set_ratio (Memory.map_df self) d Hpos)
      as (b & r & a & Hdf & Hb & Ha & Hget).
    { intros E. rewrite E in Hr1. destruct Hr1. }
    fold (Memory.normalize d) in Hb, Ha, Hget. rewrite Hget.
    apply (get_category_at token_set_ratio Hpos _ b
             (a ++ [Memory.mkRow m c (Memory.normalize m)]) r d).
    + rewrite Hdf at 1. now rewrite <- app_assoc.
    + exact Hb.
    + intros x Hx. apply in_app_or in Hx. destruct Hx as [Hx|[<-|[]]]; [now apply Ha|].
      simpl. unfold score in Hle.
      rewrite Hdf in Hr1. apply in_app_or in Hr1.
      destruct Hr1 as [H|[<-|H]]; [specialize (Hb _ H)| |specialize (Ha _ H)]; lia.
  - intros Hall.
    rewrite (get_category_at token_set_ratio Hpos _ (Memory.map_df self) []
               (Memory.mkRow m c (Memory.normalize m)) d); try reflexivity.
    + exact Hall.
    + intros x [].
Qed.

Lemma new_key_answers_only_when_strictly_best_witness :
  (forall q k, (0 <= Samples.exact_ratio q k)%Z) /\
  ~ In (Memory.normalize "Walmart #2291")
       (Memory.keys (Memory.map_df Samples.sample_store)) /\
  let score := fun k => Samples.exact_ratio (Memory.normalize "uber *trip") k in
  let after := Memory.map_df (Memory.learn string Samples.to_csv_text
                                Samples.sample_store "Walmart #2291" "Shopping") in
  (exists r, In r (Memory.map_df Samples.sample_store) /\
             (score (Memory.normalize "Walmart #2291")
              <= score (Memory.merchant_norm r))%Z) /\
  Memory.get_category Samples.exact_ratio after "uber *trip"
  = Memory.get_category Samples.exact_ratio (Memory.map_df Samples.sample_store)
                        "uber *trip".
Proof.
  assert (Hpos : forall q k, (0 <= Samples.exact_ratio q k)%Z).
  { intros q k. unfold Samples.exact_ratio. destruct (String.eqb q k); lia. }
  assert (Hnew : ~ In (Memory.normalize "Walmart #2291")
                      (Memory.keys (Memory.map_df Samples.sample_store))).
  { simpl. intuition discriminate. }
  assert (Hex : exists r, In r (Memory.map_df Samples.sample_store) /\
                  (Samples.exact_ratio (Memory.normalize "uber *trip")
                                       (Memory.normalize "Walmart #2291")
                   <= Samples.exact_ratio (Memory.normalize "uber *trip")
                                          (Memory.merchant_norm r))%Z).
  { eexists. split; [left; reflexivity|]. vm_compute. discriminate. }
  split; [exact Hpos|]. split; [exact Hnew|]. cbv zeta. split; [exact Hex|].
  exact (proj1 (new_key_answers_only_when_strictly_best
                  Samples.exact_ratio string Samples.to_csv_text
                  Samples.sample_store "Walmart #2291" "Shopping" "uber *trip"
                  Hpos Hnew) Hex).
Defined.

(** X6.  How overwriting a stored key changes the lookup of a description
    [d]: the record that answered before still answers, so the answer is the
    new category when that record carries the key of [m], and is unchanged
    otherwise. *)
Theorem overwrite_changes_only_answers_of_its_key
        (token_set_ratio : string -> string -> Z)
        (file : Type) (to_csv : list (string * string) -> file)
        (self : Memory.categorizer file) (m c d : string) :
  (forall q k, (0 <= token_set_ratio q k)%Z) ->
  In (Memory.normalize m) (Memory.keys (Memory.map_df self)) ->
  let score := fun r => token_set_ratio (Memory.normalize d) (Memory.merchant_norm r) in
  let after := Memory.map_df (Memory.learn file to_csv self m c) in
  exists r,
    In r (Memory.map_df self) /\
    Memory.get_category token_set_ratio (Memory.map_df self) d
    = Ok (if (85 <=? score r)%Z then Some (Memory.category r) else None) /\
    Memory.get_category token_set_ratio after d
    = Ok (if (85 <=? score r)%Z
          then Some (if String.eqb (Memory.merchant_norm r) (Memory.normalize m)
                     then c else Memory.category r)
          else None).
Proof.
  intros Hpos Hin score after.
  set (f := fun r => if String.eqb (Memory.merchant_norm r) (Memory.normalize m)
                     then Memory.set_category c r else r).
  assert (Hafter : after = map f (Memory.map_df self)).
  { unfold after. simpl. now apply learn_df_present. }
  assert (Hkey : forall r, Memory.merchant_norm (f r) = Memory.merchant_norm r).
  { intros r. unfold f. destruct (String.eqb _ _); reflexivity. }
  destruct (get_category_nonempty token_set_ratio (Memory.map_df self) d Hpos)
    as (b & r & a & Hdf & Hb & Ha & Hget).
  { intros E. rewrite E in Hin. destruct Hin. }
  fold (Memory.normalize d) in Hb, Ha, Hget.
  exists r. split; [rewrite Hdf; apply in_or_app; right; now left|].
  split; [exact Hget|].
  rewrite Hafter.
  rewrite (get_category_at token_set_ratio Hpos _ (map f b) (map f a) (f r) d).
  - rewrite Hkey. unfold score. destruct (85 <=? _)%Z; [|reflexivity].
    do 2 f_equal. unfold f. destruct (String.eqb _ _); reflexivity.
  - rewrite Hdf at 1. now rewrite map_app.
  - intros x Hx. apply in_map_iff in Hx. destruct Hx as (y & <- & Hy).
    rewrite !Hkey. now apply Hb.
  - intros x Hx. apply in_map_iff in Hx. destruct Hx as (y & <- & Hy).
    rewrite !Hkey. now apply Ha.
Qed.

Lemma overwrite_changes_only_answers_of_its_key_witness :
  (forall q k, (0 <= Samples.exact_ratio q k)%Z) /\
  In (Memory.normalize " starbucks coffee")
     (Memory.keys (Memory.map_df Samples.sample_store)) /\
  let score := fun r => Samples.exact_ratio (Memory.normalize "uber *trip")
                                            (Memory.merchant_norm r) in
  let after := Memory.map_df (Memory.learn string Samples.to_csv_text
                                Samples.sample_store " starbucks coffee" "Other") in
  exists r,
    In r (Memory.map_df Samples.sample_store) /\
    Memory.get_category Samples.exact_ratio (Memory.map_df Samples.sample_store)
                        "uber *trip"
    = Ok (if (85 <=? score r)%Z then Some (Memory.category r) else None) /\
    Memory.get_category Samples.exact_ratio after "uber *trip"
    = Ok (if (85 <=? score r)%Z
          then Some (if String.eqb (Memory.merchant_norm r)
                                   (Memory.normalize " starbucks coffee")
                     then "Other" else Memory.category r)
          else None).
Proof.
  assert (Hpos : forall q k, (0 <= Samples.exact_ratio q k)%Z).
  { intros q k. unfold Samples.exact_ratio. destruct (String.eqb q k); lia. }
  assert (Hin : In (Memory.normalize " starbucks coffee")
                   (Memory.keys (Memory.map_df Samples.sample_store))).
  { simpl. right. left. reflexivity. }
  split; [exact Hpos|]. split; [exact Hin|].
  exact (overwrite_changes_only_answers_of_its_key
           Samples.exact_ratio string Samples.to_csv_text Samples.sample_store
           " starbucks coffee" "Other" "uber *trip" Hpos Hin).
Defined.

(** ** The keyword scan and letter case *)
Section CaseFacts.
Import PyStr Regex Keywords.

Lemma lower_char_upper_char (x : ascii) : lower_char (upper_char x) = lower_char x.
Proof. destruct x as [[] [] [] [] [] [] [] []]; reflexivity. Qed.

Lemma is_word_upper_char (x : ascii) : is_word (upper_char x) = is_word x.
Proof. destruct x as [[] [] [] [] [] [] [] []]; reflexivity. Qed.

Lemma char_eq_i_upper_char (c x : ascii) : char_eq_i c (upper_char x) = char_eq_i c x.
Proof. unfold char_eq_i. now rewrite lower_char_upper_char. Qed.

Lemma boundary_upper (p : option ascii) (t : string) :
  boundary (option_map upper_char p) (first_char (upper t))
  = boundary p (first_char t).
Proof.
  unfold boundary. f_equal.
  - destruct p; simpl; [apply is_word_upper_char | reflexivity].
  - destruct t; simpl; [reflexivity | apply is_word_upper_char].
Qed.

Lemma match_atoms_upper (a : alternative) (prev : option ascii) (t : string) :
  match_atoms a (option_map upper_char prev) (upper t)
  = map (fun e => (option_map upper_char (fst e), upper (snd e)))
        (match_atoms a prev t).
Proof.
  revert prev t. induction a as [|[c|c] a IH]; intros prev t; simpl.
  - reflexivity.
  - destruct t as [|x t]; simpl; [reflexivity|].
    rewrite char_eq_i_upper_char. destruct (char_eq_i c x); [|reflexivity].
    apply (IH (Some x) t).
  - rewrite map_app, <- IH. f_equal.
    destruct t as [|x t]; simpl; [reflexivity|].
    rewrite char_eq_i_upper_char. destruct (char_eq_i c x); [|reflexivity].
    apply (IH (Some x) t).
Qed.

Lemma match_here_upper (r : regex) (prev : option ascii) (t : string) :
  match_here r (option_map upper_char prev) (upper t) = match_here r prev t.
Proof.
  unfold match_here. rewrite boundary_upper. f_equal.
  induction (alternatives r) as [|a alts IH]; simpl; [reflexivity|].
  rewrite IH, match_atoms_upper. f_equal.
  induction (match_atoms a prev t) as [|e es IHe]; simpl; [reflexivity|].
  now rewrite IHe, boundary_upper.
Qed.

Lemma search_from_upper (r : regex) (t : string) (prev : option ascii) :
  search_from r (option_map upper_char prev) (upper t) = search_from r prev t.
Proof.
  revert prev. induction t as [|c t IH]; intros prev.
  - pose proof (match_here_upper r prev EmptyString) as H.
    cbn [search_from upper] in *. now rewrite H.
  - pose proof (match_here_upper r prev (String c t)) as H.
    specialize (IH (Some c)).
    cbn [search_from upper option_map] in *. now rewrite H, IH.
Qed.

Lemma scan_upper (rules : list (regex * string)) (t : string) :
  scan rules (upper t) = scan rules t.
Proof.
  induction rules as [|[pat cat] rest IH]; simpl; [reflexivity|].
  pose proof (search_from_upper pat t None) as H. simpl in H.
  unfold search. now rewrite H, IH.
Qed.

(** X7.  The keyword scan does not see letter case: two texts that differ
    only by the case of their letters get the same category. *)
Theorem keyword_scan_ignores_case (t1 t2 : string) :
  upper t1 = upper t2 -> keyword_scan t1 = keyword_scan t2.
Proof.
  intros H. unfold keyword_scan.
  now rewrite <- (scan_upper _ t1), <- (scan_upper _ t2), H.
Qed.
End CaseFacts.

Lemma keyword_scan_ignores_case_witness :
  PyStr.upper "Corner Supermarket" = PyStr.upper "CORNER superMARKET" /\
  Keywords.keyword_scan "Corner Supermarket"
  = Keywords.keyword_scan "CORNER superMARKET".
Proof.
  split; [reflexivity|].
  exact (keyword_scan_ignores_case "Corner Supermarket" "CORNER superMARKET" eq_refl).
Defined.

(** ** The outside calls of one guess *)
Section GuessCalls.
Import PyStr Json Keywords Online.
Variable w : world.
Variable py_str : json -> string.

Lemma wikipedia_text_events (name : string) (log : list event) :
  snd (wikipedia_text w name log)
  = match wikipedia_search w (length log) name with
    | Ok (title :: _) => WikiPage title :: WikiSearch name :: log
    | _ => WikiSearch name :: log
    end.
Proof.
  unfold wikipedia_text, bind, call, lift, ret. simpl.
  destruct (wikipedia_search w (length log) name) as [[|title rest]|e];
    simpl; try reflexivity.
  destruct (wikipedia_page w (S (length log)) title) as [p|e]; simpl;
    [destruct (summary p); reflexivity | reflexivity].
Qed.

Lemma _from_wikipedia_events (name : string) (log : list event) :
  snd (_from_wikipedia w name log) = snd (wikipedia_text w name log).
Proof.
  unfold _from_wikipedia, try_except, bind, ret.
  destruct (wikipedia_text w name log) as [[[t|]|e] log']; reflexivity.
Qed.

(** The log after one call of [guess]. *)
Lemma guess_events (name : string) (log : list event) :
  snd (guess w py_str name log)
  = match osm_answer w py_str name (Sleep :: log) with
    | Some _ => OsmGet name :: Sleep :: log
    | None =>
        match wikipedia_search w (S (S (length log))) name with
        | Ok (title :: _) =>
            WikiPage title :: WikiSearch name :: OsmGet name :: Sleep :: log
        | _ => WikiSearch name :: OsmGet name :: Sleep :: log
        end
    end.
Proof.
  rewrite guess_eq.
  destruct (osm_answer w py_str name (Sleep :: log)); [reflexivity|].
  rewrite _from_wikipedia_events, wikipedia_text_events. reflexivity.
Qed.

Lemma guess_events_bound (name : string) (log : list event) :
  (length log + 2 <= length (snd (guess w py_str name log)) <= length log + 4)%nat.
Proof.
  rewrite guess_events.
  destruct (osm_answer w py_str name (Sleep :: log)); simpl; [lia|].
  destruct (wikipedia_search w (S (S (length log))) name) as [[|t r]|e]; simpl; lia.
Qed.

(** X8.  One call of [guess] sleeps once and then makes one place request;
    it searches the encyclopedia only when the place source gave no
    category, and requests a page, that of the first title found, only when
    the search found one: two to four events, at most three requests. *)
Theorem guess_makes_at_most_three_requests (name : string) (log : list event) :
  snd (guess w py_str name log)
  = match osm_answer w py_str name (Sleep :: log) with
    | Some _ => OsmGet name :: Sleep :: log
    | None =>
        match wikipedia_search w (S (S (length log))) name with
        | Ok (title :: _) =>
            WikiPage title :: WikiSearch name :: OsmGet name :: Sleep :: log
        | _ => WikiSearch name :: OsmGet name :: Sleep :: log
        end
    end /\
  (length log + 2 <= length (snd (guess w py_str name log)) <= length log + 4)%nat.
Proof.
  split; [apply guess_events | apply guess_events_bound].
Qed.
End GuessCalls.

(** ** One run of the resolution steps, in full *)
Section RunFacts.
Import PyStr Json Keywords Memory Online App.
Variable token_set_ratio : string -> string -> Z.
Variable w : world.
Variable py_str : json -> string.
Variable file : Type.
Variable to_csv : list (string * string) -> file.
Variable selectbox : nat -> list string -> nat -> string.
Variable button : nat -> bool.
Variable enable_online : bool.

Lemma index_or_zero_spec (c : string) (options : list string) :
  In c options -> nth_error options (index_or_zero c options) = Some c.
Proof.
  induction options as [|o rest IH]; simpl; [intros []|].
  destruct (String.eqb_spec o c) as [->|Hne]; [reflexivity|].
  intros [E|Hin]; [contradiction|].
  rewrite (proj2 (seen_spec c rest) Hin). simpl. now apply IH.
Qed.

Lemma rule_category_is_option (c : string) :
  In c (map snd KEYWORDS_TO_CATEGORY) -> In c manual_options.
Proof.
  simpl. intros H.
  repeat (destruct H as [<-|H]; [simpl; tauto|]). destruct H.
Qed.

Lemma loc_length {A} (mask : list bool) (col : list A) :
  (length (loc mask col) <= length col)%nat.
Proof.
  revert col. induction mask as [|b mask IH]; intros [|x col]; simpl; try lia.
  specialize (IH col). destruct b; simpl; lia.
Qed.

Lemma loc_assign_known (cats vs : list (option string)) (i : nat) (c : string) :
  nth_error cats i = Some (Some c) ->
  nth_error (loc_assign (map isna cats) cats vs) i = Some (Some c).
Proof.
  revert vs i. induction cats as [|x cats IH]; intros vs [|i] H; simpl in *;
    try discriminate.
  - injection H as ->. reflexivity.
  - destruct x as [y|]; simpl; [now apply IH|].
    destruct vs; simpl; now apply IH.
Qed.

Lemma loc_assign_origin (cats vs : list (option string)) (i : nat) (c : string) :
  nth_error (loc_assign (map isna cats) cats vs) i = Some (Some c) ->
  nth_error cats i = Some (Some c) \/ In (Some c) vs.
Proof.
  revert vs i. induction cats as [|x cats IH]; intros vs i H; simpl in *.
  - now left.
  - destruct x as [y|]; simpl in H.
    + destruct i as [|i]; simpl in H; [now left | exact (IH vs i H)].
    + destruct vs as [|v vs]; destruct i as [|i]; simpl in H.
      * discriminate.
      * exact (IH [] i H).
      * injection H as ->. right. now left.
      * destruct (IH vs i H) as [H1|H1]; [now left | right; now right].
Qed.

(** [guess] over a column: the results are rule categories, and each line
    costs two to four events. *)
Lemma apply_io_guess_run (l : list string) (log : list event) :
  exists rs log',
    apply_io (guess w py_str) l log = (Ok rs, log') /\
    Forall (fun r => forall c, r = Some c -> In c (map snd KEYWORDS_TO_CATEGORY)) rs /\
    (length log <= length log' <= length log + 4 * length l)%nat.
Proof.
  revert log. induction l as [|x xs IH]; intros log; simpl.
  - exists [], log. repeat split; auto; lia.
  - unfold bind.
    destruct (guess_value w py_str x log) as (r & Hr & Hrule).
    pose proof (guess_events_bound w py_str x log) as Hb.
    destruct (guess w py_str x log) as [v log1] eqn:G. simpl in Hr, Hb. subst v.
    destruct (IH log1) as (rs & log2 & -> & Hall & Hlen).
    exists (r :: rs), log2. unfold ret. repeat split; auto; lia.
Qed.

Lemma step_online_run (f : string -> option string) (ms : list string)
      (log : list event) :
  exists categories log',
    step_online w py_str enable_online ms (map f ms) log = (Ok categories, log') /\
    (forall i c, nth_error (map f ms) i = Some (Some c) ->
                 nth_error categories i = Some (Some c)) /\
    (forall i c, nth_error categories i = Some (Some c) ->
                 nth_error (map f ms) i = Some (Some c) \/
                 (enable_online = true /\ In c (map snd KEYWORDS_TO_CATEGORY))) /\
    (enable_online = false -> categories = map f ms /\ log' = log) /\
    (length log <= length log' <= length log + 4 * length ms)%nat.
Proof.
  unfold step_online. destruct enable_online.
  - destruct (any (map isna (map f ms))).
    + unfold bind.
      destruct (apply_io_guess_run (loc (map isna (map f ms)) ms) log)
        as (rs & log' & -> & Hall & Hlen).
      pose proof (loc_length (map isna (map f ms)) ms) as Hloc.
      unfold ret. eexists _, log'. split; [reflexivity|].
      split; [intros i c; apply loc_assign_known|].
      split; [|split; [discriminate | lia]].
      intros i c H. apply loc_assign_origin in H. destruct H as [H|H]; [now left|].
      right. split; [reflexivity|].
      exact (proj1 (Forall_forall _ _) Hall _ H c eq_refl).
    + unfold ret. exists (map f ms), log.
      split; [reflexivity|]. split; [auto|]. split; [auto|].
      split; [discriminate | lia].
  - unfold ret. exists (map f ms), log.
    split; [reflexivity|]. split; [auto|]. split; [auto|].
    split; [auto | lia].
Qed.

(** The manual step, expander by expander. *)
Lemma manual_loop_run (unk : list string) (i : nat) (cat : categorizer file)
      (log : list event) :
  exists prompts cat' log',
    manual_loop w py_str file to_csv selectbox button enable_online i unk cat log
    = (Ok (prompts, cat'), log') /\
    map p_merchant prompts = unk /\
    cat' = learn_all file to_csv cat (saved_mappings prompts) /\
    Forall suggestion_preselected prompts /\
    (forall k p, nth_error prompts k = Some p ->
                 p_choice p = selectbox (i + k) manual_options (p_preselect p) /\
                 p_saved p = button (i + k)) /\
    (enable_online = false ->
     Forall (fun p => p_guess p = None) prompts /\ log' = log) /\
    (length log <= length log' <= length log + 4 * length unk)%nat.
Proof.
  revert i cat log. induction unk as [|x xs IH]; intros i cat log.
  - exists [], cat, log. simpl. unfold ret.
    split; [reflexivity|]. split; [reflexivity|]. split; [reflexivity|].
    split; [constructor|]. split; [intros [|k] p H; discriminate|].
    split; [auto | lia].
  - cbn [manual_loop]. unfold bind.
    assert (Hg : exists g log1,
               (if enable_online then guess w py_str x else ret None) log
               = (Ok g, log1) /\
               (forall c, g = Some c -> In c (map snd KEYWORDS_TO_CATEGORY)) /\
               (enable_online = false -> g = None /\ log1 = log) /\
               (length log <= length log1 <= length log + 4)%nat).
    { destruct enable_online.
      - destruct (guess_value w py_str x log) as (r & Hr & Hrule).
        pose proof (guess_events_bound w py_str x log) as Hb.
        destruct (guess w py_str x log) as [v log1]. simpl in Hr, Hb. subst v.
        exists r, log1. repeat split; auto; try lia; discriminate.
      - exists None, log. unfold ret. repeat split; auto; try lia; discriminate. }
    destruct Hg as (g & log1 & -> & Hrule & Hoff & Hlen1).
    match goal with
    | |- context [manual_loop _ _ _ _ _ _ _ (S i) xs ?c log1] =>
        destruct (IH (S i) c log1)
          as (ps & cat' & log2 & -> & Hm & Hcat & Hfit & Hsel & Hoff2 & Hlen2)
    end.
    unfold ret. cbn [fst snd]. eexists _, cat', log2.
    split; [reflexivity|].
    split; [simpl; now rewrite Hm|].
    split; [|split; [|split; [|split]]].
    + rewrite Hcat. unfold saved_mappings. cbn [filter p_saved].
      destruct (button i); reflexivity.
    + constructor; [|exact Hfit].
      unfold suggestion_preselected. cbn [p_guess p_preselect].
      destruct g as [c|]; [|reflexivity].
      split; [now apply Hrule|].
      apply index_or_zero_spec, rule_category_is_option. now apply Hrule.
    + intros [|k] p H; simpl in H.
      * injection H as <-. simpl. rewrite Nat.add_0_r. split; reflexivity.
      * destruct (Hsel k p H) as [H1 H2].
        rewrite H1, H2. replace (i + S k)%nat with (S i + k)%nat by lia. auto.
    + intros Hen. destruct (Hoff Hen) as [-> ->].
      destruct (Hoff2 Hen) as [Hnone ->]. split; [|reflexivity].
      constructor; [reflexivity | exact Hnone].
    + simpl. lia.
Qed.
End RunFacts.

Section RunSpec.
Import PyStr Json Keywords Memory Online App.
Variable token_set_ratio : string -> string -> Z.
Variable w : world.
Variable py_str : json -> string.
Variable file : Type.
Variable to_csv : list (string * string) -> file.
Variable selectbox : nat -> list string -> nat -> string.
Variable button : nat -> bool.
Variable enable_online : bool.

Hypothesis scores_not_negative : forall q c, (0 <= token_set_ratio q c)%Z.

Lemma drop_duplicates_from_length (l seen : list string) :
  (length (drop_duplicates_from seen l) <= length l)%nat.
Proof.
  revert seen. induction l as [|x xs IH]; intros seen; simpl; [lia|].
  destruct (existsb (String.eqb x) seen); simpl.
  - specialize (IH seen). lia.
  - specialize (IH (x :: seen)). lia.
Qed.

(** One run of the resolution steps, with all that it shows and leaves. *)
Lemma resolve_run (cat : categorizer file) (ms : list string) (log : list event) :
  exists categories prompts cat' log',
    resolve token_set_ratio w py_str file to_csv selectbox button enable_online
            cat ms log
    = (Ok (categories, prompts, cat'), log') /\
    map p_merchant prompts = drop_duplicates (loc (map isna categories) ms) /\
    cat' = learn_all file to_csv cat (saved_mappings prompts) /\
    Forall suggestion_preselected prompts /\
    (forall k p, nth_error prompts k = Some p ->
                 p_choice p = selectbox k manual_options (p_preselect p) /\
                 p_saved p = button k) /\
    (forall i c,
        nth_error (map (from_memory token_set_ratio (map_df cat)) ms) i
        = Some (Some c) ->
        nth_error categories i = Some (Some c)) /\
    (forall i c,
        nth_error categories i = Some (Some c) ->
        nth_error (map (from_memory token_set_ratio (map_df cat)) ms) i
        = Some (Some c) \/
        (enable_online = true /\ In c (map snd KEYWORDS_TO_CATEGORY))) /\
    (enable_online = false ->
     Forall (fun p => p_guess p = None) prompts /\ log' = log) /\
    (length log <= length log' <= length log + 8 * length ms)%nat.
Proof.
  unfold resolve, bind, lift.
  rewrite (step_memory_ok token_set_ratio file scores_not_negative).
  destruct (step_online_run w py_str enable_online
              (from_memory token_set_ratio (map_df cat)) ms log)
    as (categories & log1 & -> & Hknown & Horigin & Hoff & Hlen).
  destruct (any (map isna categories)) eqn:Hany.
  - destruct (manual_loop_run w py_str file to_csv selectbox button enable_online
                (drop_duplicates (loc (map isna categories) ms)) 0 cat log1)
      as (prompts & cat' & log2 & -> & Hm & Hcat & Hfit & Hsel & Hoff2 & Hlen2).
    pose proof (drop_duplicates_from_length (loc (map isna categories) ms) []) as Hd.
    fold (drop_duplicates (loc (map isna categories) ms)) in Hd.
    pose proof (loc_length (map isna categories) ms) as Hl.
    unfold ret. cbn [fst snd]. exists categories, prompts, cat', log2.
    split; [reflexivity|]. split; [exact Hm|]. split; [exact Hcat|].
    split; [exact Hfit|]. split; [exact Hsel|]. split; [exact Hknown|].
    split; [exact Horigin|]. split; [|lia].
    intros Hen. destruct (Hoff Hen) as [_ ->]. now apply Hoff2.
  - unfold ret. exists categories, [], cat, log1.
    split; [reflexivity|]. split; [now rewrite (loc_none _ _ Hany)|].
    split; [reflexivity|]. split; [constructor|].
    split; [intros [|k] p H; discriminate|]. split; [exact Hknown|].
    split; [exact Horigin|]. split; [|lia].
    intros Hen. destruct (Hoff Hen) as [_ ->]. split; [constructor | reflexivity].
Qed.

Lemma nothing_saved (prompts : list prompt) :
  (forall k p, nth_error prompts k = Some p -> p_saved p = false) ->
  saved_mappings prompts = [].
Proof.
  unfold saved_mappings. induction prompts as [|p ps IH]; intros H; simpl.
  - reflexivity.
  - rewrite (H 0%nat p eq_refl). apply IH. intros k q Hq. exact (H (S k) q Hq).
Qed.

Lemma learn_all_df_has_key (calls : list (string * string)) (df : list row)
      (m c : string) :
  In (m, c) calls -> In (normalize m) (keys (learn_all_df df calls)).
Proof.
  intros Hin. rewrite (learn_all_df_keys calls df (keys df)) by tauto.
  apply in_or_app.
  destruct (in_dec string_dec (normalize m) (keys df)) as [H|H]; [now left|].
  right. apply drop_duplicates_from_In. split; [|exact H].
  apply (in_map (fun mc => normalize (fst mc)) calls (m, c) Hin).
Qed.

(** A merchant whose key is stored and scores at least 85 against itself is
    resolved by the saved map. *)
Lemma stored_key_is_found (df : list row) (m : string) :
  In (normalize m) (keys df) ->
  (85 <= token_set_ratio (normalize m) (normalize m))%Z ->
  exists c, from_memory token_set_ratio df m = Some c.
Proof.
  intros Hk Hself. apply in_map_iff in Hk. destruct Hk as (r0 & Hk0 & Hr0).
  destruct (get_category_nonempty token_set_ratio df m scores_not_negative)
    as (b & r & a & Hdf & Hb & Ha & Hget).
  { intros E. rewrite E in Hr0. destruct Hr0. }
  unfold normalize in *. cbv zeta in *.
  assert (Hge : (85 <= token_set_ratio (strip (upper m)) (merchant_norm r))%Z).
  { rewrite Hdf in Hr0. apply in_app_or in Hr0. destruct Hr0 as [H|[<-|H]].
    - specialize (Hb _ H). rewrite Hk0 in Hb. lia.
    - rewrite Hk0. lia.
    - specialize (Ha _ H). rewrite Hk0 in Ha. lia. }
  unfold from_memory. rewrite Hget.
  apply Z.leb_le in Hge. rewrite Hge. eauto.
Qed.
End RunSpec.

(** X9.  What a run writes to the memory: the saved map after the run is the
    map before it with [learn] applied to the merchant and the chosen
    category of each expander whose button was pressed, in the order of the
    expanders, where the choice is the one the select box returned.  The
    lookups and the online guesses write nothing: when no button is pressed
    the memory and its file are what they were. *)
Theorem run_saves_exactly_the_confirmed_mappings
        (token_set_ratio : string -> string -> Z)
        (w : Online.world) (py_str : Json.json -> string)
        (file : Type) (to_csv : list (string * string) -> file)
        (selectbox : nat -> list string -> nat -> string) (button : nat -> bool)
        (enable_online : bool)
        (cat : Memory.categorizer file) (ms : list string)
        (log : list Online.event) :
  (forall q c, (0 <= token_set_ratio q c)%Z) ->
  exists categories prompts cat' log',
    App.resolve token_set_ratio w py_str file to_csv selectbox button
                enable_online cat ms log
    = (Ok (categories, prompts, cat'), log') /\
    cat' = Memory.learn_all file to_csv cat (App.saved_mappings prompts) /\
    (forall k p, nth_error prompts k = Some p ->
                 App.p_choice p
                 = selectbox k App.manual_options (App.p_preselect p) /\
                 App.p_saved p = button k) /\
    ((forall k, button k = false) -> cat' = cat).
Proof.
  intros Hpos.
  destruct (resolve_run token_set_ratio w py_str file to_csv selectbox button
              enable_online Hpos cat ms log)
    as (categories & prompts & cat' & log' & Hrun & _ & Hcat & _ & Hsel & _).
  exists categories, prompts, cat', log'.
  split; [exact Hrun|]. split; [exact Hcat|]. split; [exact Hsel|].
  intros Hnone. rewrite Hcat, nothing_saved; [reflexivity|].
  intros k p Hp. destruct (Hsel k p Hp) as [_ ->]. apply Hnone.
Qed.

Lemma run_saves_exactly_the_confirmed_mappings_witness :
  (forall q c, (0 <= Samples.exact_ratio q c)%Z) /\
  exists categories prompts cat' log',
    App.resolve Samples.exact_ratio Samples.offline_world Samples.no_str
                string Samples.to_csv_text
                Samples.keep_preselected Samples.always_pressed true
                Samples.sample_store Samples.walmart_twice []
    = (Ok (categories, prompts, cat'), log') /\
    cat' = Memory.learn_all string Samples.to_csv_text Samples.sample_store
                            (App.saved_mappings prompts) /\
    (forall k p, nth_error prompts k = Some p ->
                 App.p_choice p
                 = Samples.keep_preselected k App.manual_options (App.p_preselect p) /\
                 App.p_saved p = Samples.always_pressed k) /\
    ((forall k, Samples.always_pressed k = false) -> cat' = Samples.sample_store).
Proof.
  split; [exact Samples.exact_ratio_not_negative|].
  exact (run_saves_exactly_the_confirmed_mappings
           Samples.exact_ratio Samples.offline_world Samples.no_str
           string Samples.to_csv_text Samples.keep_preselected Samples.always_pressed
           true Samples.sample_store Samples.walmart_twice []
           Samples.exact_ratio_not_negative).
Defined.

(** X10.  The suggestion of an expander: it is [None] or a category of the
    keyword rules, and then the preselected index of the select box is the
    place of that category among the options; without a suggestion the first
    option is preselected.  With the online guesser disabled no expander has
    a suggestion. *)
Theorem suggestion_is_the_preselected_option
        (token_set_ratio : string -> string -> Z)
        (w : Online.world) (py_str : Json.json -> string)
        (file : Type) (to_csv : list (string * string) -> file)
        (selectbox : nat -> list string -> nat -> string) (button : nat -> bool)
        (enable_online : bool)
        (cat : Memory.categorizer file) (ms : list string)
        (log : list Online.event) :
  (forall q c, (0 <= token_set_ratio q c)%Z) ->
  exists categories prompts cat' log',
    App.resolve token_set_ratio w py_str file to_csv selectbox button
                enable_online cat ms log
    = (Ok (categories, prompts, cat'), log') /\
    (forall p, In p prompts ->
               match App.p_guess p with
               | Some c =>
                   In c (map snd Keywords.KEYWORDS_TO_CATEGORY) /\
                   nth_error (Keywords.DEFAULT_CATEGORIES ++ ["Other"])
                             (App.p_preselect p) = Some c
               | None => App.p_preselect p = 0%nat
               end) /\
    (enable_online = false -> forall p, In p prompts -> App.p_guess p = None).
Proof.
  intros Hpos.
  destruct (resolve_run token_set_ratio w py_str file to_csv selectbox button
              enable_online Hpos cat ms log)
    as (categories & prompts & cat' & log' & Hrun & _ & _ & Hfit & _ & _ & _ & Hoff & _).
  exists categories, prompts, cat', log'.
  split; [exact Hrun|]. split.
  - intros p Hp. exact (proj1 (Forall_forall _ _) Hfit p Hp).
  - intros Hen p Hp. destruct (Hoff Hen) as [Hnone _].
    exact (proj1 (Forall_forall _ _) Hnone p Hp).
Qed.

Lemma suggestion_is_the_preselected_option_witness :
  (forall q c, (0 <= Samples.exact_ratio q c)%Z) /\
  exists categories prompts cat' log',
    App.resolve Samples.exact_ratio Samples.street_world Samples.no_str
                string Samples.to_csv_text
                Samples.keep_preselected Samples.never_pressed true
                Samples.sample_store Samples.walmart_twice []
    = (Ok (categories, prompts, cat'), log') /\
    (forall p, In p prompts ->
               match App.p_guess p with
               | Some c =>
                   In c (map snd Keywords.KEYWORDS_TO_CATEGORY) /\
                   nth_error (Keywords.DEFAULT_CATEGORIES ++ ["Other"])
                             (App.p_preselect p) = Some c
               | None => App.p_preselect p = 0%nat
               end) /\
    (true = false -> forall p, In p prompts -> App.p_guess p = None).
Proof.
  split; [exact Samples.exact_ratio_not_negative|].
  exact (suggestion_is_the_preselected_option
           Samples.exact_ratio Samples.street_world Samples.no_str
           string Samples.to_csv_text Samples.keep_preselected Samples.never_pressed
           true Samples.sample_store Samples.walmart_twice []
           Samples.exact_ratio_not_negative).
Defined.

(** X11.  The saved map always wins: a transaction whose merchant the saved
    map resolves keeps that category whatever the online guesser would say,
    and any other category of the column is a category of the keyword rules
    given by the online step, which is possible only when it is enabled. *)
Theorem saved_map_always_wins
        (token_set_ratio : string -> string -> Z)
        (w : Online.world) (py_str : Json.json -> string)
        (file : Type) (to_csv : list (string * string) -> file)
        (selectbox : nat -> list string -> nat -> string) (button : nat -> bool)
        (enable_online : bool)
        (cat : Memory.categorizer file) (ms : list string)
        (log : list Online.event) :
  (forall q c, (0 <= token_set_ratio q c)%Z) ->
  exists categories prompts cat' log',
    App.resolve token_set_ratio w py_str file to_csv selectbox button
                enable_online cat ms log
    = (Ok (categories, prompts, cat'), log') /\
    (forall i m c,
        nth_error ms i = Some m ->
        App.from_memory token_set_ratio (Memory.map_df cat) m = Some c ->
        nth_error categories i = Some (Some c)) /\
    (forall i m c,
        nth_error ms i = Some m ->
        nth_error categories i = Some (Some c) ->
        App.from_memory token_set_ratio (Memory.map_df cat) m = Some c \/
        (App.from_memory token_set_ratio (Memory.map_df cat) m = None /\
         enable_online = true /\
         In c (map snd Keywords.KEYWORDS_TO_CATEGORY))).
Proof.
  intros Hpos.
  destruct (resolve_run token_set_ratio w py_str file to_csv selectbox button
              enable_online Hpos cat ms log)
    as (categories & prompts & cat' & log' & Hrun & _ & _ & _ & _ & Hknown & Horigin & _).
  exists categories, prompts, cat', log'.
  split; [exact Hrun|]. split.
  - intros i m c Hi Hm. apply Hknown. rewrite nth_error_map, Hi. simpl.
    now rewrite Hm.
  - intros i m c Hi Hc.
    destruct (App.from_memory token_set_ratio (Memory.map_df cat) m) as [c0|] eqn:E.
    + left. f_equal.
      assert (H0 : nth_error categories i = Some (Some c0)).
      { apply Hknown. rewrite nth_error_map, Hi. simpl. now rewrite E. }
      congruence.
    + right. destruct (Horigin i c Hc) as [H|[H1 H2]].
      * rewrite nth_error_map, Hi in H. simpl in H. rewrite E in H. discriminate.
      * auto.
Qed.

Lemma saved_map_always_wins_witness :
  (forall q c, (0 <= Samples.exact_ratio q c)%Z) /\
  exists categories prompts cat' log',
    App.resolve Samples.exact_ratio Samples.grocer_world Samples.no_str
                string Samples.to_csv_text
                Samples.keep_preselected Samples.never_pressed true
                Samples.sample_store [ "Uber *Trip"; "WALMART #2291" ] []
    = (Ok (categories, prompts, cat'), log') /\
    (forall i m c,
        nth_error [ "Uber *Trip"; "WALMART #2291" ] i = Some m ->
        App.from_memory Samples.exact_ratio (Memory.map_df Samples.sample_store) m
        = Some c ->
        nth_error categories i = Some (Some c)) /\
    (forall i m c,
        nth_error [ "Uber *Trip"; "WALMART #2291" ] i = Some m ->
        nth_error categories i = Some (Some c) ->
        App.from_memory Samples.exact_ratio (Memory.map_df Samples.sample_store) m
        = Some c \/
        (App.from_memory Samples.exact_ratio (Memory.map_df Samples.sample_store) m
         = None /\
         true = true /\
         In c (map snd Keywords.KEYWORDS_TO_CATEGORY))).
Proof.
  split; [exact Samples.exact_ratio_not_negative|].
  exact (saved_map_always_wins
           Samples.exact_ratio Samples.grocer_world Samples.no_str
           string Samples.to_csv_text Samples.keep_preselected Samples.never_pressed
           true Samples.sample_store [ "Uber *Trip"; "WALMART #2291" ] []
           Samples.exact_ratio_not_negative).
Defined.

Example grocer_run :
  fst (App.resolve Samples.exact_ratio Samples.grocer_world Samples.no_str
                   string Samples.to_csv_text
                   Samples.keep_preselected Samples.never_pressed true
                   Samples.sample_store [ "Uber *Trip"; "WALMART #2291" ] [])
  = Ok ([ Some "Transport"; Some "Groceries" ], [], Samples.sample_store).
Proof. reflexivity. Qed.

(** X12.  After saving, a rerun recognises the merchant.  Every run starts
    from the file (line 20 builds the categorizer anew), so the second run
    below works on what [_load_map] reads from the file the first run left.
    When scores are never negative, the key of every merchant of the batch
    scores at least 85 against itself, and the reader returns for that file
    the text that was written, a merchant whose button was pressed in the
    first run is resolved by the saved map in the second run over the same
    batch, whatever the services and the user do then, and gets no expander
    again. *)
Theorem saved_merchant_is_not_prompted_again
        (token_set_ratio : string -> string -> Z)
        (w w2 : Online.world) (py_str py_str2 : Json.json -> string)
        (file : Type) (to_csv : list (string * string) -> file)
        (read_csv : file -> list (string * string))
        (selectbox selectbox2 : nat -> list string -> nat -> string)
        (button button2 : nat -> bool)
        (enable_online enable_online2 : bool)
        (d : option file) (ms : list string)
        (log log2 : list Online.event) :
  (forall q c, (0 <= token_set_ratio q c)%Z) ->
  (forall m, In m ms ->
             (85 <= token_set_ratio (Memory.normalize m) (Memory.normalize m))%Z) ->
  let cat := Memory._load_map file to_csv read_csv d in
  exists categories prompts cat' log',
    App.resolve token_set_ratio w py_str file to_csv selectbox button
                enable_online cat ms log
    = (Ok (categories, prompts, cat'), log') /\
    (read_csv (to_csv (Memory.essential (Memory.map_df cat')))
     = Memory.essential (Memory.map_df cat') ->
     let cat2 := Memory._load_map file to_csv read_csv (Memory.disk cat') in
     exists categories2 prompts2 cat'' log'',
       App.resolve token_set_ratio w2 py_str2 file to_csv selectbox2 button2
                   enable_online2 cat2 ms log2
       = (Ok (categories2, prompts2, cat''), log'') /\
       forall p,
         In p prompts -> App.p_saved p = true ->
         (exists c,
             App.from_memory token_set_ratio (Memory.map_df cat2) (App.p_merchant p)
             = Some c /\
             forall i, nth_error ms i = Some (App.p_merchant p) ->
                       nth_error categories2 i = Some (Some c)) /\
         ~ In (App.p_merchant p) (map App.p_merchant prompts2)).
Proof.
  intros Hpos Hself cat.
  assert (Hder : Memory.derived (Memory.map_df cat)).
  { unfold cat. destruct d as [f|]; [apply reload_essential | constructor]. }
  destruct (resolve_run token_set_ratio w py_str file to_csv selectbox button
              enable_online Hpos cat ms log)
    as (categories & prompts & cat' & log' & Hrun & Hm & Hcat & _).
  exists categories, prompts, cat', log'. split; [exact Hrun|].
  intros Hrt cat2.
  destruct (resolve_run token_set_ratio w2 py_str2 file to_csv selectbox2 button2
              enable_online2 Hpos cat2 ms log2)
    as (categories2 & prompts2 & cat'' & log'' & Hrun2 & Hm2 & _ & _ & _ & Hknown2 & _).
  exists categories2, prompts2, cat'', log''. split; [exact Hrun2|].
  intros p Hp Hsaved.
  assert (Hcall : In (App.p_merchant p, App.p_choice p) (App.saved_mappings prompts)).
  { unfold App.saved_mappings.
    apply (in_map (fun q => (App.p_merchant q, App.p_choice q))).
    apply filter_In. auto. }
  assert (Hdf2 : Memory.map_df cat2 = Memory.map_df cat').
  { unfold cat2. rewrite Hcat at 1.
    rewrite learn_all_saved by (intros E; rewrite E in Hcall; destruct Hcall).
    rewrite <- Hcat. apply reload_frame; [|exact Hrt].
    rewrite Hcat, learn_all_map_df. now apply learn_all_df_derived. }
  rewrite Hdf2.
  assert (Hin : In (App.p_merchant p) ms).
  { assert (H : In (App.p_merchant p) (map App.p_merchant prompts))
      by now apply in_map.
    rewrite Hm in H. apply unknown_merchants in H.
    destruct H as (i & Hi & _). eapply nth_error_In; eassumption. }
  assert (Hkey : In (Memory.normalize (App.p_merchant p))
                    (Memory.keys (Memory.map_df cat'))).
  { rewrite Hcat, learn_all_map_df.
    now apply (learn_all_df_has_key file to_csv _ _ (App.p_merchant p) (App.p_choice p)). }
  destruct (stored_key_is_found token_set_ratio Hpos (Memory.map_df cat')
              (App.p_merchant p) Hkey (Hself _ Hin)) as (c & Hc).
  assert (Hres : forall i, nth_error ms i = Some (App.p_merchant p) ->
                           nth_error categories2 i = Some (Some c)).
  { intros i Hi. apply Hknown2. rewrite nth_error_map, Hi. simpl.
    now rewrite Hdf2, Hc. }
  split; [exists c; auto|].
  intros H. rewrite Hm2 in H. apply unknown_merchants in H.
  destruct H as (i & Hi & Hnone). rewrite (Hres i Hi) in Hnone. discriminate.
Qed.

Lemma saved_merchant_is_not_prompted_again_witness :
  (forall q c, (0 <= Samples.exact_ratio q c)%Z) /\
  (forall m, In m Samples.walmart_twice ->
             (85 <= Samples.exact_ratio (Memory.normalize m) (Memory.normalize m))%Z) /\
  let cat := Memory._load_map string Samples.to_csv_text Samples.read_csv_typed
               (Memory.disk Samples.sample_store) in
  exists categories prompts cat' log',
    App.resolve Samples.exact_ratio Samples.offline_world Samples.no_str
                string Samples.to_csv_text
                Samples.keep_preselected Samples.always_pressed true
                cat Samples.walmart_twice []
    = (Ok (categories, prompts, cat'), log') /\
    Samples.read_csv_typed (Samples.to_csv_text (Memory.essential (Memory.map_df cat')))
    = Memory.essential (Memory.map_df cat') /\
    let cat2 := Memory._load_map string Samples.to_csv_text Samples.read_csv_typed
                  (Memory.disk cat') in
    exists categories2 prompts2 cat'' log'',
      App.resolve Samples.exact_ratio Samples.offline_world Samples.no_str
                  string Samples.to_csv_text
                  Samples.keep_preselected Samples.never_pressed true
                  cat2 Samples.walmart_twice []
      = (Ok (categories2, prompts2, cat''), log'') /\
      forall p,
        In p prompts -> App.p_saved p = true ->
        (exists c,
            App.from_memory Samples.exact_ratio (Memory.map_df cat2) (App.p_merchant p)
            = Some c /\
            forall i, nth_error Samples.walmart_twice i = Some (App.p_merchant p) ->
                      nth_error categories2 i = Some (Some c)) /\
        ~ In (App.p_merchant p) (map App.p_merchant prompts2).
Proof.
  assert (Hself : forall m, In m Samples.walmart_twice ->
            (85 <= Samples.exact_ratio (Memory.normalize m) (Memory.normalize m))%Z).
  { intros m Hm. unfold Samples.exact_ratio. rewrite String.eqb_refl. lia. }
  split; [exact Samples.exact_ratio_not_negative|]. split; [exact Hself|].
  intros cat.
  destruct (saved_merchant_is_not_prompted_again
              Samples.exact_ratio Samples.offline_world Samples.offline_world
              Samples.no_str Samples.no_str string Samples.to_csv_text
              Samples.read_csv_typed
              Samples.keep_preselected Samples.keep_preselected
              Samples.always_pressed Samples.never_pressed true true
              (Memory.disk Samples.sample_store) Samples.walmart_twice [] []
              Samples.exact_ratio_not_negative Hself)
    as (categories & prompts & cat' & log' & Hrun & Hnext).
  exists categories, prompts, cat', log'.
  split; [exact Hrun|].
  assert (Hrt : Samples.read_csv_typed
                  (Samples.to_csv_text (Memory.essential (Memory.map_df cat')))
                = Memory.essential (Memory.map_df cat')).
  { vm_compute in Hrun. injection Hrun as _ _ <- _. reflexivity. }
  split; [exact Hrt|]. exact (Hnext Hrt).
Defined.

Example rerun_sample :
  let first := App.resolve Samples.exact_ratio Samples.offline_world Samples.no_str
                           string Samples.to_csv_text
                           Samples.keep_preselected Samples.always_pressed true
                           Samples.sample_store Samples.walmart_twice [] in
  match fst first with
  | Ok (_, _, cat') =>
      let cat2 := Memory._load_map string Samples.to_csv_text Samples.read_csv_typed
                    (Memory.disk cat') in
      fst (App.resolve Samples.exact_ratio Samples.offline_world Samples.no_str
                       string Samples.to_csv_text
                       Samples.keep_preselected Samples.never_pressed true
                       cat2 Samples.walmart_twice [])
      = Ok ([ Some "Food & Drink"; Some "Food & Drink" ], [], cat2)
  | Raise _ => False
  end.
Proof. reflexivity. Qed.

(** X13.  The outside calls of a run: with the online guesser disabled a run
    makes no request and never sleeps, its log is the log it started with;
    with it enabled a run adds at most eight events per transaction (four for
    its guess in the online step, four for the guess of its expander). *)
Theorem outside_calls_of_a_run
        (token_set_ratio : string -> string -> Z)
        (w : Online.world) (py_str : Json.json -> string)
        (file : Type) (to_csv : list (string * string) -> file)
        (selectbox : nat -> list string -> nat -> string) (button : nat -> bool)
        (enable_online : bool)
        (cat : Memory.categorizer file) (ms : list string)
        (log : list Online.event) :
  (forall q c, (0 <= token_set_ratio q c)%Z) ->
  exists categories prompts cat' log',
    App.resolve token_set_ratio w py_str file to_csv selectbox button
                enable_online cat ms log
    = (Ok (categories, prompts, cat'), log') /\
    (enable_online = false ->
     log' = log /\
     categories = map (App.from_memory token_set_ratio (Memory.map_df cat)) ms) /\
    (length log <= length log' <= length log + 8 * length ms)%nat.
Proof.
  intros Hpos.
  destruct (resolve_run token_set_ratio w py_str file to_csv selectbox button
              enable_online Hpos cat ms log)
    as (categories & prompts & cat' & log' & Hrun & _ & _ & _ & _ & _ & _ & Hoff & Hlen).
  destruct (resolve_spec token_set_ratio w py_str file to_csv selectbox button
              enable_online Hpos cat ms log)
    as (categories0 & prompts0 & cat0 & log0 & Hrun0 & _ & _ & _ & Hoff0 & _).
  rewrite Hrun in Hrun0. injection Hrun0 as <- <- <- <-.
  exists categories, prompts, cat', log'.
  split; [exact Hrun|]. split; [|exact Hlen].
  intros Hen. split; [now apply Hoff | now apply Hoff0].
Qed.

Lemma outside_calls_of_a_run_witness :
  (forall q c, (0 <= Samples.exact_ratio q c)%Z) /\
  exists categories prompts cat' log',
    App.resolve Samples.exact_ratio Samples.grocer_world Samples.no_str
                string Samples.to_csv_text
                Samples.keep_preselected Samples.never_pressed false
                Samples.sample_store Samples.walmart_twice []
    = (Ok (categories, prompts, cat'), log') /\
    (false = false ->
     log' = [] /\
     categories = map (App.from_memory Samples.exact_ratio
                         (Memory.map_df Samples.sample_store))
                      Samples.walmart_twice) /\
    (length (@nil Online.event) <= length log'
     <= length (@nil Online.event) + 8 * length Samples.walmart_twice)%nat.
Proof.
  split; [exact Samples.exact_ratio_not_negative|].
  exact (outside_calls_of_a_run
           Samples.exact_ratio Samples.grocer_world Samples.no_str
           string Samples.to_csv_text Samples.keep_preselected Samples.never_pressed
           false Samples.sample_store Samples.walmart_twice []
           Samples.exact_ratio_not_negative).
Defined.

(** ** The working set of every batch *)
Section BatchOutcome.
Import PyStr App.
Variables num datetime timestamp : Type.
Variable str_of_num : num -> string.
Variable nan_as_text : bool.
Variable parser_parse : string -> result datetime.
Variable to_datetime : list datetime -> list (option timestamp).
Variable numeric_of_text : string -> option num.

Lemma apply_result_raise_origin {A B} (f : A -> result B) (l : list A) (e : exn) :
  apply_result f l = Raise e -> exists x, In x l /\ f x = Raise e.
Proof.
  induction l as [|x xs IH]; simpl; [discriminate|].
  destruct (f x) as [y|e0] eqn:E.
  - destruct (apply_result f xs) as [ys|e1]; [discriminate|].
    intros [= ->]. destruct (IH eq_refl) as (z & Hz & Hf). eauto.
  - intros [= ->]. eauto.
Qed.

Lemma Forall2_In_left {A B} (R : A -> B -> Prop) (l : list A) (l' : list B) (x : A) :
  Forall2 R l l' -> In x l -> exists y, R x y.
Proof.
  induction 1 as [|a b l l' Hab _ IH]; simpl; [intros []|].
  intros [<-|H]; eauto.
Qed.

Lemma Forall2_nth_error_left {A B} (R : A -> B -> Prop) (l : list A) (l' : list B)
      (i : nat) (x : A) :
  Forall2 R l l' -> nth_error l i = Some x ->
  exists y, nth_error l' i = Some y /\ R x y.
Proof.
  intros H. revert i. induction H as [|a b l l' Hab _ IH]; intros [|i]; simpl;
    try discriminate.
  - intros [= <-]. eauto.
  - apply IH.
Qed.

Lemma In_combine_nth_error {A B} (l : list A) (l' : list B) (x : A) (y : B) :
  In (x, y) (combine l l') ->
  exists i, nth_error l i = Some x /\ nth_error l' i = Some y.
Proof.
  revert l'. induction l as [|a l IH]; intros [|b l']; simpl; try tauto.
  intros [[= <- <-]|H].
  - exists 0%nat. split; reflexivity.
  - apply IH in H. destruct H as (i & H1 & H2). exists (S i). auto.
Qed.

Lemma flat_map_short {A B} (f : A -> list B) (l : list A) :
  (forall x, length (f x) <= 1)%nat -> (length (flat_map f l) <= length l)%nat.
Proof.
  intros Hf. induction l as [|x xs IH]; simpl; [lia|].
  rewrite length_app. specialize (Hf x). lia.
Qed.

(** X14.  What lines 43-47 make of any uploaded frame.  When they raise, the
    exception is the one [parser.parse] raised on the date field of a line.
    Otherwise every date field parsed, no line was added, and every line of
    the working set comes from a line of the frame: its date is the entry of
    the converted date column on that line, its amount is the numeric value
    of the amount field, and its merchant is the description field as
    [astype(str)] gives it, trimmed, so that trimming it again changes
    nothing. *)
Theorem working_set_outcome (df_raw : list (raw_row num)) :
  match working_set num datetime timestamp str_of_num nan_as_text parser_parse
                    to_datetime numeric_of_text df_raw with
  | Raise e =>
      exists r, In r df_raw /\
                parser_parse (str num str_of_num (date_cell num r)) = Raise e
  | Ok ws =>
      exists parsed,
        Forall2 (fun r d => parser_parse (str num str_of_num (date_cell num r)) = Ok d)
                df_raw parsed /\
        (forall r, In r df_raw ->
                   exists d, parser_parse (str num str_of_num (date_cell num r)) = Ok d) /\
        (length ws <= length df_raw)%nat /\
        (forall t, In t ws ->
                   strip (merchant num timestamp t) = merchant num timestamp t /\
                   exists i r d s,
                     nth_error df_raw i = Some r /\
                     nth_error parsed i = Some d /\
                     parser_parse (str num str_of_num (date_cell num r)) = Ok d /\
                     nth_error (to_datetime parsed) i
                     = Some (Some (date num timestamp t)) /\
                     astype_str num str_of_num nan_as_text (desc_cell num r) = Some s /\
                     merchant num timestamp t = strip s /\
                     to_numeric num numeric_of_text (amt_cell num r)
                     = Some (amount num timestamp t))
  end.
Proof.
  unfold working_set.
  destruct (apply_result (fun x => parser_parse (str num str_of_num x))
                         (map (date_cell num) df_raw)) as [parsed|e] eqn:E.
  - pose proof (parsed_dates num datetime str_of_num parser_parse df_raw parsed E) as Hf.
    rewrite (frame_rows num timestamp str_of_num nan_as_text numeric_of_text
               df_raw (to_datetime parsed)).
    exists parsed. split; [exact Hf|]. split; [|split].
    + intros r Hr.
      exact (Forall2_In_left
               (fun r d => parser_parse (str num str_of_num (date_cell num r)) = Ok d)
               df_raw parsed r Hf Hr).
    + etransitivity; [apply flat_map_short|].
      * intros [r o]. unfold line_of. simpl.
        destruct o; [|simpl; lia].
        destruct (str_strip _); [|simpl; lia].
        destruct (to_numeric num numeric_of_text (amt_cell num r)); simpl; lia.
      * rewrite length_combine. lia.
    + intros t Ht. apply in_flat_map in Ht. destruct Ht as ([r o] & Hro & Ht).
      unfold line_of in Ht. simpl in Ht.
      destruct o as [ts|]; [|destruct Ht].
      destruct (astype_str num str_of_num nan_as_text (desc_cell num r)) as [s|] eqn:Es;
        [|destruct Ht].
      simpl in Ht.
      destruct (to_numeric num numeric_of_text (amt_cell num r)) as [a|] eqn:Ea;
        [|destruct Ht].
      destruct Ht as [<-|[]]. simpl. split; [apply strip_twice|].
      apply In_combine_nth_error in Hro. destruct Hro as (i & Hr & Ho).
      destruct (Forall2_nth_error_left _ _ _ i r Hf Hr) as (d & Hd & Hp).
      exists i, r, d, s. auto 10.
  - apply apply_result_raise_origin in E. destruct E as (x & Hx & Hr).
    apply in_map_iff in Hx. destruct Hx as (r & <- & Hin). eauto.
Qed.
End BatchOutcome.

(** ** Keywords in the fields of a place *)
Section HintFacts.
Import PyStr Regex Keywords.

Lemma append_assoc_s (a b c : string) :
  ((a ++ b) ++ c)%string = (a ++ b ++ c)%string.
Proof. induction a as [|x a IH]; simpl; [reflexivity | now rewrite IH]. Qed.

Lemma first_before_space (s x : string) :
  is_word_opt (first_char (s ++ String " " x)%string) = is_word_opt (first_char s).
Proof. destruct s; reflexivity. Qed.

Lemma last_after_space (pre p : string) :
  is_word_opt (last_char None (pre ++ String " " p)%string)
  = is_word_opt (last_char None p).
Proof. rewrite last_char_app. destruct p; reflexivity. Qed.

(** An occurrence stays one when a space and more text follow. *)
Lemma occurs_before_space (r : regex) (t post : string) :
  occurs r t -> occurs r (t ++ String " " post)%string.
Proof.
  intros (p & mid & q & a & -> & Ha & Hi & Hb1 & Hb2).
  exists p, mid, (q ++ String " " post)%string, a.
  split; [now rewrite !append_assoc_s|]. split; [exact Ha|]. split; [exact Hi|].
  unfold boundary in *. split.
  - rewrite <- append_assoc_s, first_before_space. exact Hb1.
  - rewrite first_before_space. exact Hb2.
Qed.

(** An occurrence stays one when text and a space come before. *)
Lemma occurs_after_space (r : regex) (pre t : string) :
  occurs r t -> occurs r (pre ++ String " " t)%string.
Proof.
  intros (p & mid & q & a & -> & Ha & Hi & Hb1 & Hb2).
  exists (pre ++ String " " p)%string, mid, q, a.
  split; [rewrite append_assoc_s; reflexivity|]. split; [exact Ha|]. split; [exact Hi|].
  unfold boundary in *. split.
  - rewrite last_after_space. exact Hb1.
  - rewrite append_assoc_s.
    change (String " " p ++ mid)%string with (String " " (p ++ mid)).
    rewrite last_after_space. exact Hb2.
Qed.

Lemma scan_some_iff (rules : list (regex * string)) (t : string) :
  scan rules t <> None <-> exists r, In r rules /\ occurs (fst r) t.
Proof.
  induction rules as [|[pat cat] rest IH]; simpl.
  - split; [congruence | intros (r & [] & _)].
  - destruct (search pat t) eqn:E.
    + split; [|discriminate]. intros _. exists (pat, cat).
      split; [now left | now apply search_spec].
    + rewrite IH. split.
      * intros (r & Hr & Ho). eauto.
      * intros (r & [<-|Hr] & Ho); [|eauto].
        apply search_spec in Ho. simpl in Ho. congruence.
Qed.

(** X15.  The hint of the place source is built from three fields joined by
    spaces (line 102); a keyword found in one field alone is found in the
    hint, so a place whose name, class or type carries a keyword gets a
    category. *)
Theorem keyword_in_a_field_gives_a_category (display clazz typ : string) :
  keyword_scan display <> None \/
  keyword_scan clazz <> None \/
  keyword_scan typ <> None ->
  keyword_scan (display ++ " " ++ clazz ++ " " ++ typ)%string <> None.
Proof.
  unfold keyword_scan. rewrite !scan_some_iff.
  intros [(r & Hr & Ho)|[(r & Hr & Ho)|(r & Hr & Ho)]];
    exists r; (split; [exact Hr|]).
  - now apply occurs_before_space.
  - apply occurs_after_space. now apply occurs_before_space.
  - apply occurs_after_space.
    exact (occurs_after_space (fst r) clazz typ Ho).
Qed.
End HintFacts.

Lemma keyword_in_a_field_gives_a_category_witness :
  (Keywords.keyword_scan "Main Street 12" <> None \/
   Keywords.keyword_scan "amenity" <> None \/
   Keywords.keyword_scan "pharmacy" <> None) /\
  Keywords.keyword_scan ("Main Street 12" ++ " " ++ "amenity" ++ " " ++ "pharmacy")%string
  <> None.
Proof.
  assert (H : Keywords.keyword_scan "Main Street 12" <> None \/
              Keywords.keyword_scan "amenity" <> None \/
              Keywords.keyword_scan "pharmacy" <> None).
  { right. right. discriminate. }
  split; [exact H|].
  exact (keyword_in_a_field_gives_a_category "Main Street 12" "amenity" "pharmacy" H).
Defined.
